(** * Webpage-ultra: checkout glue and the DNS upsert tool

    A shallow embedding of the three source files of the repository:

    - [scripts/netlify-dns-stripe-pay.mjs]: the command line tool that
      upserts the CNAME and TXT records of the payment domain (module
      [Dns]);
    - the session fetcher and the tiered session creator (modules
      [Fetcher] and [Tiered]);
    - the paid-confirmation relay and the legacy session creator
      (modules [Relay] and [Legacy]).

    The modules [DnsSpec], [DnsMore], [HttpSpec] and [HttpMore] name
    the scenarios the statements speak of and hold the concrete inputs;
    [DnsFacts], [DnsClaims], [HttpClaims], [DnsExtra] and [HttpExtra]
    hold the proofs.

    Conventions of the embedding.

    - A JavaScript string is a [string]: a sequence of code units below
      256.  Code units above 255 are outside the model.
    - Remote services are inputs.  The DNS tool reads the answer to its
      n-th request from a script [nat -> Response]; a handler receives
      the answer of the payments API as a [StripeReply].  Every request
      that the code issues is recorded in a trace, in order.
    - The results of platform parsers are attached to what they parse:
      an event body is given by what [JSON.parse] makes of it
      ([JsonText]), a referer header carries the origin [new URL]
      computes for it.
    - A number is written as the integer it equals: [parseInt] rounds
      the integer its digits denote to the nearest double, and
      [String] prints a double as JavaScript does.
    - Property reads see own properties.  The tiered creator looks its
      prices up under keys taken from the request, where JavaScript
      also finds the members every object inherits; statements that
      depend on what that lookup finds keep to the pairs of the
      pricing table ([tableSelection]), to an empty key, or to
      requests that end before the lookup. *)

From Stdlib Require Import String Ascii List ZArith Bool Lia DecimalString.
Import ListNotations.

Open Scope string_scope.
Open Scope Z_scope.

Set Warnings "-register-all".

(** ** JavaScript strings *)

Module Js.

(** White space and line terminators of ECMAScript among the code units
    below 256: TAB, LF, VT, FF, CR, SP and NBSP. *)
Definition isWhiteSpace (c : ascii) : bool :=
  let n := nat_of_ascii c in
  (Nat.eqb n 9 || Nat.eqb n 10 || Nat.eqb n 11 || Nat.eqb n 12
   || Nat.eqb n 13 || Nat.eqb n 32 || Nat.eqb n 160)%bool.

Fixpoint trimStart (s : string) : string :=
  match s with
  | EmptyString => EmptyString
  | String c rest => if isWhiteSpace c then trimStart rest else s
  end.

(** [trimEnd] keeps a character when it is not white space or when
    something is left after it. *)
Fixpoint trimEnd (s : string) : string :=
  match s with
  | EmptyString => EmptyString
  | String c rest =>
      match trimEnd rest with
      | EmptyString => if isWhiteSpace c then EmptyString else String c EmptyString
      | kept => String c kept
      end
  end.

Definition trim (s : string) : string := trimEnd (trimStart s).

Definition startsWith (s p : string) : bool := String.prefix p s.

Fixpoint rev_string (s : string) : string :=
  match s with
  | EmptyString => EmptyString
  | String c rest => rev_string rest ++ String c EmptyString
  end.

Definition endsWith (s p : string) : bool :=
  String.prefix (rev_string p) (rev_string s).

Definition isDigit (c : ascii) : bool :=
  let n := nat_of_ascii c in (Nat.leb 48 n && Nat.leb n 57)%bool.

Definition upperChar (c : ascii) : ascii :=
  let n := nat_of_ascii c in
  if (Nat.leb 97 n && Nat.leb n 122)%bool then ascii_of_nat (n - 32) else c.

(** Lower case of a code unit below 256: the letters A-Z, and the
    Latin-1 capitals U+00C0 to U+00DE except the multiplication sign
    U+00D7, move up by 32. *)
Definition lowerChar (c : ascii) : ascii :=
  let n := nat_of_ascii c in
  if ((Nat.leb 65 n && Nat.leb n 90)
      || (Nat.leb 192 n && Nat.leb n 222 && negb (Nat.eqb n 215)))%bool
  then ascii_of_nat (n + 32) else c.

Fixpoint mapString (f : ascii -> ascii) (s : string) : string :=
  match s with
  | EmptyString => EmptyString
  | String c rest => String (f c) (mapString f rest)
  end.

(** [toUpperCase] on the letters a-z.  The code compares the result
    with the ASCII constants [CNAME] and [TXT] only, and no other code
    unit below 256 maps to an ASCII letter. *)
Definition toUpperCase : string -> string := mapString upperChar.

(** [toLowerCase] on the code units below 256. *)
Definition toLowerCase : string -> string := mapString lowerChar.

(** *** Numbers

    The numbers the code computes with are integers: a parsed option or
    variable, a status code, a length.  The model writes such a number
    as the integer it equals.  Two constants bound the doubles: below
    2^53 every integer is a double, and an integer from
    2^1024 - 2^970 on rounds to an infinity. *)
Definition two53 : Z := 9007199254740992.

Definition infinityFrom : Z := 2 ^ 1024 - 2 ^ 970.

(** The double nearest to an integer, ties going to the even mantissa.
    An integer that rounds to an infinity is left as it is and stands
    for that infinity. *)
Definition toDouble (z : Z) : Z :=
  let a := Z.abs z in
  if ((a <? two53) || (infinityFrom <=? a))%bool then z
  else
    let e := Z.log2 a - 52 in
    let q := Z.shiftr a e in
    let r := a - Z.shiftl q e in
    let half := Z.shiftl 1 (e - 1) in
    let q' :=
      if r <? half then q
      else if half <? r then q + 1
      else if Z.even q then q else q + 1 in
    Z.sgn z * Z.shiftl q' e.

(** The decimal digits of a natural number. *)
Definition digits (z : Z) : string := NilZero.string_of_int (Z.to_int z).

Fixpoint zeros (n : nat) : string :=
  match n with
  | O => EmptyString
  | S m => String "0" (zeros m)
  end.

(** The [k]-digit numerals [s] for which [s * 10^(n-k)] is a decimal
    numeral of the double [x], with the [n] of each. *)
Definition numeralsAt (x : Z) (k n : nat) : list (Z * nat) :=
  if Nat.leb k n then
    let p := 10 ^ Z.of_nat (n - k) in
    let lo := x / p in
    map (fun s => (s, n))
        (filter (fun s => ((10 ^ Z.of_nat (k - 1) <=? s) && (s <? 10 ^ Z.of_nat k)
                           && (toDouble (s * p) =? x))%bool)
                [lo; lo + 1])
  else [].

(** Of two numerals the one closer to [x]; of two equally close, the
    even one. *)
Definition closer (x : Z) (k : nat) (a b : Z * nat) : Z * nat :=
  let da := Z.abs (fst a * 10 ^ Z.of_nat (snd a - k) - x) in
  let db := Z.abs (fst b * 10 ^ Z.of_nat (snd b - k) - x) in
  if da <? db then a
  else if db <? da then b
  else if Z.even (fst a) then a else b.

(** The shortest numeral of a double [x] with [len] decimal digits:
    the least [k] from [k] on that has one, tried [fuel] times. *)
Fixpoint shortest (x : Z) (len k fuel : nat) : option (Z * nat * nat) :=
  match fuel with
  | O => None
  | S fuel' =>
      match (numeralsAt x k len ++ numeralsAt x k (S len))%list with
      | [] => shortest x len (S k) fuel'
      | c :: cs => Some (fold_left (closer x k) cs c, k)
      end
  end.

(** [Number::toString] of a positive integer double beyond 2^53: the
    digits of the shortest numeral, followed by zeros up to 21 digits
    and by an exponent beyond. *)
Definition showNumeral (s : Z) (k n : nat) : string :=
  if Nat.leb n 21 then digits s ++ zeros (n - k)
  else
    match digits s with
    | String d rest =>
        String d (if Nat.eqb k 1 then EmptyString else "." ++ rest)
        ++ "e+" ++ digits (Z.of_nat (n - 1))
    | EmptyString => EmptyString
    end.

(** [String(n)] for a number [n] that is an integer: its decimal digits
    below 2^53, and the shortest decimal numeral that reads back as the
    same double beyond (17 digits always suffice). *)
Definition stringOfZ (z : Z) : string :=
  let a := Z.abs z in
  let shown :=
    if a <? two53 then digits a
    else if infinityFrom <=? a then "Infinity"
    else
      match shortest a (String.length (digits a)) 1 17 with
      | Some (s, n, k) => showNumeral s k n
      | None => digits a
      end in
  if z <? 0 then "-" ++ shown else shown.

(** A value is falsy as a string when it is absent or empty. *)
Definition truthyStr (o : option string) : bool :=
  match o with
  | Some s => negb (s =? "")%string
  | None => false
  end.

(** [a || b] on strings that may be undefined. *)
Definition orStr (a b : option string) : option string :=
  if truthyStr a then a else b.

(** [a || "literal"]. *)
Definition orElse (a : option string) (d : string) : string :=
  match a with
  | Some s => if (s =? "")%string then d else s
  | None => d
  end.

(** [Number.parseInt(s, 10)]: leading white space, an optional sign,
    then the longest run of decimal digits; [None] is NaN.  The result
    is the double nearest to the integer the digits denote. *)
Fixpoint digitsValue (s : string) (acc : Z) : Z :=
  match s with
  | EmptyString => acc
  | String c rest =>
      if isDigit c
      then digitsValue rest (10 * acc + Z.of_nat (nat_of_ascii c - 48))
      else acc
  end.

Definition leadingDigit (s : string) : bool :=
  match s with
  | EmptyString => false
  | String c _ => isDigit c
  end.

Definition parseInt10 (s : string) : option Z :=
  match trimStart s with
  | String "-" rest =>
      if leadingDigit rest then Some (toDouble (- digitsValue rest 0)) else None
  | String "+" rest =>
      if leadingDigit rest then Some (toDouble (digitsValue rest 0)) else None
  | t => if leadingDigit t then Some (toDouble (digitsValue t 0)) else None
  end.

(** [Number.isFinite] of a parsed integer: NaN is not finite, nor is an
    infinity. *)
Definition isFiniteInt (n : option Z) : bool :=
  match n with
  | None => false
  | Some z => Z.abs z <? infinityFrom
  end.

End Js.

(** ** The DNS upsert tool: [scripts/netlify-dns-stripe-pay.mjs] *)

Module Dns.

Import Js.

(** *** The provider and the process *)

(** An object of a JSON array the provider returns (a zone or a
    record).  Each field holds [String(x.field)], which is how the code
    reads it. *)
Record ApiObject := mkApiObject {
  id : string;
  name : string;
  type : string;
  hostname : string;
  value : string
}.

(** The record the tool wants: the body of the create request. *)
Record DesiredRecord := mkDesired {
  d_type : string;
  d_hostname : string;
  d_value : string;
  d_ttl : Z
}.

Inductive Method := GET | POST | DELETE.

Record Call := mkCall {
  c_token : string;
  c_method : Method;
  c_path : string;
  c_body : option DesiredRecord
}.

Record JsError := mkError { e_name : string; e_message : string }.

(** What [response.json()] gives. *)
Inductive Json :=
| JArray (items : list ApiObject)
| JNullish
| JOther.

Inductive Response :=
| Rejects (e : JsError)                         (* fetch or response.json() throws *)
| NotOk (status : Z) (statusText text : string)  (* response.ok is false *)
| OkJson (j : Json).

Inductive Stream := Stdout | Stderr.

Record State := mkState {
  calls : list Call;               (* requests sent so far, oldest first *)
  output : list (Stream * string); (* lines printed so far, oldest first *)
  exitCode : option Z              (* process.exitCode *)
}.

Definition initial : State := mkState [] [] None.

(** The code the process exits with: 0 when [process.exitCode] was
    never set. *)
Definition processExit (st : State) : Z :=
  match exitCode st with
  | Some c => c
  | None => 0
  end.

(** A create or delete request. *)
Definition mutating (c : Call) : bool :=
  match c_method c with
  | GET => false
  | POST | DELETE => true
  end.

(** *** A state and exception monad *)

Inductive Result (A : Type) :=
| Ok (a : A)
| Throw (e : JsError).
Arguments Ok {A} a.
Arguments Throw {A} e.

Definition M (A : Type) : Type := State -> Result A * State.

Definition ret {A} (a : A) : M A := fun st => (Ok a, st).

Definition bind {A B} (m : M A) (k : A -> M B) : M B :=
  fun st =>
    match m st with
    | (Ok a, st') => k a st'
    | (Throw e, st') => (Throw e, st')
    end.

Definition throw {A} (e : JsError) : M A := fun st => (Throw e, st).

Notation "x <- m ;; k" := (bind m (fun x => k))
  (at level 61, m at next level, right associativity).
Notation "m ;;; k" := (bind m (fun _ => k))
  (at level 61, right associativity).

Definition console_log (s : string) : M unit :=
  fun st => (Ok tt, mkState (calls st) (output st ++ [(Stdout, s)])%list (exitCode st)).

Definition console_error (s : string) : M unit :=
  fun st => (Ok tt, mkState (calls st) (output st ++ [(Stderr, s)])%list (exitCode st)).

Definition setExitCode (c : Z) : M unit :=
  fun st => (Ok tt, mkState (calls st) (output st) (Some c)).

Definition newError (msg : string) : JsError := mkError "Error" msg.
Definition typeError (msg : string) : JsError := mkError "TypeError" msg.

(** [for (const x of xs) await f(x)] *)
Fixpoint forEach {A} (xs : list A) (f : A -> M unit) : M unit :=
  match xs with
  | [] => ret tt
  | x :: rest => f x ;;; forEach rest f
  end.

(** *** Command line *)

Definition hasFlag (args : list string) (flag : string) : bool :=
  existsb (String.eqb flag) args.

(** What follows the first occurrence of [flag]. *)
Fixpoint afterFlag (args : list string) (flag : string) : option (list string) :=
  match args with
  | [] => None
  | a :: rest => if (a =? flag)%string then Some rest else afterFlag rest flag
  end.

Definition readArgValue (args : list string) (flag : string) : M (option string) :=
  match afterFlag args flag with
  | None => ret None
  | Some rest =>
      match rest with
      | [] => throw (newError ("Missing value for " ++ flag))
      | v :: _ =>
          if ((v =? "")%string || startsWith v "--")%bool
          then throw (newError ("Missing value for " ++ flag))
          else ret (Some v)
      end
  end.

Definition helpText : string :=
  String.concat (String "010" "")
    [ "Usage:";
      "  node scripts/netlify-dns-stripe-pay.mjs [options]";
      "";
      "Options:";
      "  --auth-token <token>          Netlify auth token (or set NETLIFY_AUTH_TOKEN)";
      "  --zone <domain>               DNS zone name (default: vinvoyant.com)";
      "  --cname-host <host>           CNAME host (default: pay)";
      "  --cname-target <target>       CNAME target (default: hosted-checkout.stripecdn.com)";
      "  --txt-host <host>             TXT host (default: _acme-challenge.pay)";
      "  --txt-value <value>           TXT value (or set STRIPE_ACME_CHALLENGE_VALUE)";
      "  --ttl <seconds>               TTL (default: 300)";
      "  --force                       Replace existing differing records";
      "  -h, --help                    Show help" ].

Definition printHelp : M unit := console_log helpText.

(** *** Requests *)

Section WithProvider.

(** The provider's answer to the n-th request of the run. *)
Variable script : nat -> Response.

Definition netlifyRequest (authToken path : string) (method : Method)
    (body : option DesiredRecord) : M Json :=
  fun st =>
    let st' := mkState (calls st ++ [mkCall authToken method path body])%list
                       (output st) (exitCode st) in
    match script (length (calls st)) with
    | Rejects e => (Throw e, st')
    | NotOk status statusText text =>
        let message :=
          if (text =? "")%string
          then stringOfZ status ++ " " ++ statusText
          else stringOfZ status ++ " " ++ statusText ++ ": " ++ text in
        (Throw (newError message), st')
    | OkJson j => (Ok j, st')
    end.

Definition normalizeZoneName (zoneName : string) : string :=
  if endsWith zoneName "."
  then substring 0 (String.length zoneName - 1) zoneName
  else zoneName.

Definition redactValue (type value : string) : string :=
  if (type =? "TXT")%string then "(redacted)" else value.

(** Calling an array method on what the provider returned. *)
Definition asArray (what : string) (method : string) (j : Json) : M (list ApiObject) :=
  match j with
  | JArray items => ret items
  | JNullish =>
      throw (typeError ("Cannot read properties of null (reading '" ++ method ++ "')"))
  | JOther => throw (typeError (what ++ "." ++ method ++ " is not a function"))
  end.

Definition matchesDesired (desiredRecord : DesiredRecord) (record : ApiObject) : bool :=
  ((toUpperCase (type record) =? d_type desiredRecord)%string
   && (hostname record =? d_hostname desiredRecord)%string)%bool.

Definition upsertRecord (authToken zoneId : string)
    (desiredRecord : DesiredRecord) (force : bool) : M unit :=
  j <- netlifyRequest authToken ("/dns_zones/" ++ zoneId ++ "/dns_records") GET None ;;
  existingRecords <- asArray "existingRecords" "filter" j ;;
  let matches := filter (matchesDesired desiredRecord) existingRecords in
  let desiredValue := d_value desiredRecord in
  if existsb (fun record => (value record =? desiredValue)%string) matches then
    console_log ("OK: " ++ d_type desiredRecord ++ " " ++ d_hostname desiredRecord
                 ++ " already set to "
                 ++ redactValue (d_type desiredRecord) desiredValue)
  else if (Nat.ltb 0 (length matches) && negb force)%bool then
    console_error ("Blocked: " ++ d_type desiredRecord ++ " "
                   ++ d_hostname desiredRecord
                   ++ " exists with a different value. Re-run with --force to replace it.") ;;;
    setExitCode 2
  else
    (if (Nat.ltb 0 (length matches) && force)%bool then
       forEach matches (fun record =>
         netlifyRequest authToken
           ("/dns_zones/" ++ zoneId ++ "/dns_records/" ++ id record) DELETE None ;;;
         ret tt) ;;;
       console_log ("Replaced: " ++ d_type desiredRecord ++ " "
                    ++ d_hostname desiredRecord ++ " (existing records removed)")
     else ret tt) ;;;
    netlifyRequest authToken ("/dns_zones/" ++ zoneId ++ "/dns_records") POST
      (Some desiredRecord) ;;;
    console_log ("Created: " ++ d_type desiredRecord ++ " " ++ d_hostname desiredRecord
                 ++ " -> " ++ redactValue (d_type desiredRecord) desiredValue).

(** *** The run *)

(** [process.env], as far as the tool reads it. *)
Record Env := mkEnv {
  NETLIFY_AUTH_TOKEN : option string;
  STRIPE_ACME_CHALLENGE_VALUE : option string
}.

(** What [main] reads from the command line and the environment. *)
Record Settings := mkSettings {
  s_authToken : string;
  s_zoneName : string;
  s_ttl : Z;
  s_cnameHost : string;
  s_cnameTarget : string;
  s_txtHost : string;
  s_txtValue : string;
  s_force : bool
}.

(** Lines 130 to 154 of [main]: [None] when [main] returns early. *)
Definition readSettings (args : list string) (env : Env) : M (option Settings) :=
  a <- readArgValue args "--auth-token" ;;
  let authToken := orStr a (NETLIFY_AUTH_TOKEN env) in
  if negb (truthyStr authToken) then
    console_error "Missing Netlify auth token. Set NETLIFY_AUTH_TOKEN or pass --auth-token." ;;;
    setExitCode 2 ;;;
    ret None
  else
    let authToken := orElse authToken "" in
    z <- readArgValue args "--zone" ;;
    let zoneName := normalizeZoneName (orElse z "vinvoyant.com") in
    t <- readArgValue args "--ttl" ;;
    let ttlRaw := orElse t "300" in
    let ttl := parseInt10 ttlRaw in
    match (if isFiniteInt ttl then ttl else None) with
    | None => throw (newError "Invalid --ttl value (must be a positive integer).")
    | Some ttl =>
      if ttl <=? 0
      then throw (newError "Invalid --ttl value (must be a positive integer).")
      else
        ch <- readArgValue args "--cname-host" ;;
        let cnameHost := orElse ch "pay" in
        ct <- readArgValue args "--cname-target" ;;
        let cnameTarget := orElse ct "hosted-checkout.stripecdn.com" in
        th <- readArgValue args "--txt-host" ;;
        let txtHost := orElse th "_acme-challenge.pay" in
        tv <- readArgValue args "--txt-value" ;;
        let txtValue := orStr tv (STRIPE_ACME_CHALLENGE_VALUE env) in
        if negb (truthyStr txtValue) then
          console_error "Missing TXT value. Set STRIPE_ACME_CHALLENGE_VALUE or pass --txt-value." ;;;
          setExitCode 2 ;;;
          ret None
        else
          let txtValue := orElse txtValue "" in
          let force := hasFlag args "--force" in
          ret (Some (mkSettings authToken zoneName ttl cnameHost cnameTarget
                       txtHost txtValue force))
    end.

Definition cnameRecord (s : Settings) : DesiredRecord :=
  mkDesired "CNAME" (s_cnameHost s) (s_cnameTarget s) (s_ttl s).

Definition txtRecord (s : Settings) : DesiredRecord :=
  mkDesired "TXT" (s_txtHost s) (s_txtValue s) (s_ttl s).

Definition findZone (zoneName : string) (zones : list ApiObject) : option ApiObject :=
  find (fun z => (normalizeZoneName (name z) =? zoneName)%string) zones.

(** Lines 156 to 188 of [main]. *)
Definition applySettings (s : Settings) : M unit :=
  j <- netlifyRequest (s_authToken s) "/dns_zones" GET None ;;
  zones <- asArray "zones" "find" j ;;
  match findZone (s_zoneName s) zones with
  | None =>
      console_error ("DNS zone not found in Netlify DNS: " ++ s_zoneName s
        ++ ". The domain's DNS must be hosted on Netlify DNS to apply records from this environment.") ;;;
      setExitCode 3
  | Some zone =>
      upsertRecord (s_authToken s) (id zone) (cnameRecord s) (s_force s) ;;;
      upsertRecord (s_authToken s) (id zone) (txtRecord s) (s_force s)
  end.

Definition main (args : list string) (env : Env) : M unit :=
  if (hasFlag args "-h" || hasFlag args "--help")%bool then printHelp
  else
    s <- readSettings args env ;;
    match s with
    | None => ret tt
    | Some s => applySettings s
    end.

(** [main().catch(...)]: the whole process, from a fresh state. *)
Definition run (args : list string) (env : Env) : State :=
  match main args env initial with
  | (Ok _, st) => st
  | (Throw e, st) =>
      let shown :=
        if (e_message e =? "")%string then e_name e else e_message e in
      mkState (calls st) (output st ++ [(Stderr, shown)])%list (Some 1)
  end.

End WithProvider.

End Dns.

(** ** JSON values and the handlers' shared pieces *)

Module Http.

Import Js.

(** A value as [JSON.parse] builds it, or as the code builds it before
    [JSON.stringify].  A number is identified by its [String(n)]
    rendering, since the handlers only render numbers and test them
    for truth. *)
Inductive JsVal :=
| JUndefined
| JNull
| JBool (b : bool)
| JNum (repr : string)
| JStr (s : string)
| JArr (items : list JsVal)
| JObj (fields : list (string * JsVal)).

Definition truthy (v : JsVal) : bool :=
  match v with
  | JUndefined | JNull => false
  | JBool b => b
  | JNum repr => negb (repr =? "0")%string
  | JStr s => negb (s =? "")%string
  | JArr _ | JObj _ => true
  end.

(** [a || b] *)
Definition jsOr (a b : JsVal) : JsVal := if truthy a then a else b.

Definition nullish (v : JsVal) : bool :=
  match v with
  | JUndefined | JNull => true
  | _ => false
  end.

(** The last binding of a key: [JSON.parse] lets a later duplicate
    overwrite an earlier one. *)
Fixpoint lookupLast (fields : list (string * JsVal)) (key : string) : option JsVal :=
  match fields with
  | [] => None
  | (k, v) :: rest =>
      match lookupLast rest key with
      | Some later => Some later
      | None => if (k =? key)%string then Some v else None
      end
  end.

Definition natString (n : nat) : string := stringOfZ (Z.of_nat n).

Fixpoint indexGet {A} (items : list A) (i : nat) (key : string) : option A :=
  match items with
  | [] => None
  | x :: rest => if (key =? natString i)%string then Some x else indexGet rest (S i) key
  end.

(** [v[key]] on a value that is not null or undefined: the own
    properties.  Members inherited from the built-in prototypes
    ([constructor], [toString], ...) are outside the model; the
    handlers read fixed keys that no prototype defines, except for the
    tier and service keys of the tiered creator. *)
Definition ownGet (v : JsVal) (key : string) : JsVal :=
  match v with
  | JObj fields =>
      match lookupLast fields key with
      | Some x => x
      | None => JUndefined
      end
  | JArr items =>
      if (key =? "length")%string then JNum (natString (length items))
      else match indexGet items 0 key with
           | Some x => x
           | None => JUndefined
           end
  | JStr s =>
      if (key =? "length")%string then JNum (natString (String.length s))
      else match indexGet (list_ascii_of_string s) 0 key with
           | Some c => JStr (String c EmptyString)
           | None => JUndefined
           end
  | _ => JUndefined
  end.

(** [v.key]: a TypeError ([None]) on null and undefined. *)
Definition getProp (v : JsVal) (key : string) : option JsVal :=
  if nullish v then None else Some (ownGet v key).

(** [v?.key] *)
Definition getOpt (v : JsVal) (key : string) : JsVal :=
  if nullish v then JUndefined else ownGet v key.

Definition hasOwn (fields : list (string * JsVal)) (key : string) : bool :=
  existsb (fun kv => (fst kv =? key)%string) fields.

(** [String(v)]; [None] is the TypeError of an object whose own
    [toString] property is not callable. *)
Fixpoint jsString (v : JsVal) : option string :=
  match v with
  | JUndefined => Some "undefined"
  | JNull => Some "null"
  | JBool true => Some "true"
  | JBool false => Some "false"
  | JNum repr => Some repr
  | JStr s => Some s
  | JArr items =>
      (fix join (l : list JsVal) : option string :=
         match l with
         | [] => Some ""
         | x :: rest =>
             match (if nullish x then Some "" else jsString x), join rest with
             | Some a, Some b =>
                 Some (match rest with
                       | [] => a
                       | _ => a ++ "," ++ b
                       end)
             | _, _ => None
             end
         end) items
  | JObj fields =>
      if hasOwn fields "toString" then None else Some "[object Object]"
  end.

(** What [JSON.parse] makes of a text the code reads. *)
Inductive JsonText :=
| Blank                 (* the text is falsy for the code: replaced, or not parsed *)
| Malformed             (* JSON.parse throws *)
| Parses (v : JsVal).

(** [process.env]: the variables, and the tiered price map as
    [JSON.parse] reads it after trimming. *)
Record ProcessEnv := mkProcessEnv {
  var : string -> option string;
  tieredPriceIds : JsonText
}.

(** A referer header, and [new URL(ref).origin] when the URL parses. *)
Record Referer := mkReferer {
  ref_raw : string;
  ref_origin : option string
}.

Record Headers := mkHeaders {
  h_origin : option string;
  h_referer : option Referer;
  h_referrer : option Referer
}.

Record Event := mkEvent {
  httpMethod : string;
  body : JsonText;
  headers : option Headers;
  qp_session_id : option string    (* queryStringParameters.session_id *)
}.

Inductive ResponseBody :=
| RawBody (s : string)
| JsonBody (v : JsVal).            (* JSON.stringify(v) *)

Record HttpResponse := mkResponse {
  statusCode : Z;
  r_headers : list (string * string);
  r_body : ResponseBody
}.

(** An outbound request. *)
Inductive Outbound :=
| StripeGetSession (secret sessionId : string)
| StripeCreateSession (secret : string) (params : list (string * string))
| FormPost (url : string) (params : list (string * string)).

(** The payments API's answer to the one request a handler sends. *)
Inductive StripeReply :=
| FetchThrows                                   (* fetch or res.json() throws *)
| Replied (ok : bool) (status : Z) (data : JsVal).

Inductive Outcome :=
| Returned (r : HttpResponse)
| Thrown.                                       (* the handler's promise rejects *)

(** What a handler does: how it ends, and what it sent, in order. *)
Definition Run : Type := Outcome * list Outbound.

Definition json (statusCode : Z) (body : JsVal) : HttpResponse :=
  mkResponse statusCode [("Content-Type", "application/json")] (JsonBody body).

(** The creators' [{ statusCode, body: JSON.stringify(...) }]. *)
Definition plain (statusCode : Z) (body : JsVal) : HttpResponse :=
  mkResponse statusCode [] (JsonBody body).

Definition errorBody (msg : string) : JsVal := JObj [("error", JStr msg)].

Definition isFormPost (o : Outbound) : bool :=
  match o with
  | FormPost _ _ => true
  | _ => false
  end.

(** [let payload = {}; try { payload = JSON.parse(event.body || "{}") } catch {}] *)
Definition payloadOf (b : JsonText) : JsVal :=
  match b with
  | Blank => JObj []
  | Malformed => JObj []
  | Parses v => v
  end.

(** [String(a || b || "").trim()] and [String(a || "").trim()], where
    reading a property of a null payload throws. *)
Definition field2 (payload : JsVal) (k1 k2 : string) : option string :=
  match getProp payload k1, getProp payload k2 with
  | Some a, Some b =>
      match jsString (jsOr (jsOr a b) (JStr "")) with
      | Some s => Some (trim s)
      | None => None
      end
  | _, _ => None
  end.

Definition field1 (payload : JsVal) (k : string) : option string :=
  match getProp payload k with
  | Some a =>
      match jsString (jsOr a (JStr "")) with
      | Some s => Some (trim s)
      | None => None
      end
  | None => None
  end.

Definition getOrigin (h : Headers) : option string :=
  if truthyStr (h_origin h) then h_origin h
  else
    let ref :=
      match h_referer h with
      | Some r => if (ref_raw r =? "")%string then h_referrer h else Some r
      | None => h_referrer h
      end in
    match ref with
    | None => None
    | Some r => if (ref_raw r =? "")%string then None else ref_origin r
    end.

(** [/^VV-\d{4}-\d{5}$/.test(rid)] *)
Definition validRid (rid : string) : bool :=
  match list_ascii_of_string rid with
  | [v1; v2; h1; a; b; c; d; h2; e; f; g; h; i] =>
      (Ascii.eqb v1 "V" && Ascii.eqb v2 "V" && Ascii.eqb h1 "-"
       && isDigit a && isDigit b && isDigit c && isDigit d
       && Ascii.eqb h2 "-"
       && isDigit e && isDigit f && isDigit g && isDigit h && isDigit i)%bool
  | _ => false
  end.

Definition hexDigit (n : nat) : ascii :=
  if Nat.ltb n 10 then ascii_of_nat (48 + n) else ascii_of_nat (55 + n).

Definition percent (n : nat) : string :=
  String "%" (String (hexDigit (Nat.div n 16)) (String (hexDigit (Nat.modulo n 16)) "")).

Definition unreserved (c : ascii) : bool :=
  let n := nat_of_ascii c in
  ((Nat.leb 65 n && Nat.leb n 90) || (Nat.leb 97 n && Nat.leb n 122)
   || isDigit c
   || existsb (Ascii.eqb c) (list_ascii_of_string "-_.!~*'()"))%bool.

(** [encodeURIComponent]: a code unit below 128 is kept or escaped, one
    from 128 to 255 is escaped as its two UTF-8 bytes. *)
Fixpoint encodeURIComponent (s : string) : string :=
  match s with
  | EmptyString => EmptyString
  | String c rest =>
      let n := nat_of_ascii c in
      (if unreserved c then String c EmptyString
       else if Nat.ltb n 128 then percent n
       else percent (192 + Nat.div n 64) ++ percent (128 + Nat.modulo n 64))
      ++ encodeURIComponent rest
  end.

(** The last lines of both creators: the request to the payments API
    and its reply, inside the try block. *)
Definition createReply (reply : StripeReply) : HttpResponse :=
  let failed := plain 500 (errorBody "Server error creating session.") in
  match reply with
  | FetchThrows => failed
  | Replied ok status data =>
      if nullish data then failed
      else if ok then
        plain 200 (JObj [("url", ownGet data "url"); ("sessionId", ownGet data "id")])
      else
        plain status
          (JObj [("error", jsOr (getOpt (ownGet data "error") "message") (JStr "Stripe error"));
                 ("details", data)])
  end.

End Http.

(** ** The session fetcher *)

Module Fetcher.

Import Js Http.

(** The POST fallback (lines 38 to 43 of the fetcher): the whole read
    sits in a try block, so a throw leaves the session id empty. *)
Definition bodySessionId (b : JsonText) : string :=
  match b with
  | Malformed => ""
  | _ =>
      match field2 (payloadOf b) "session_id" "sessionId" with
      | Some s => s
      | None => ""
      end
  end.

Definition handler (env : ProcessEnv) (event : Event) (reply : StripeReply) : Run :=
  if (negb (httpMethod event =? "GET")%string && negb (httpMethod event =? "POST")%string)%bool
  then (Returned (json 405 (errorBody "Method Not Allowed")), [])
  else
    let secret := var env "STRIPE_SECRET_KEY" in
    if negb (truthyStr secret)
    then (Returned (json 500 (errorBody "Missing STRIPE_SECRET_KEY in environment variables.")), [])
    else
      let secret := orElse secret "" in
      let sessionId := trim (orElse (qp_session_id event) "") in
      let sessionId :=
        if ((sessionId =? "")%string && (httpMethod event =? "POST")%string)%bool
        then bodySessionId (body event)
        else sessionId in
      if (sessionId =? "")%string
      then (Returned (json 400 (errorBody "Missing session_id.")), [])
      else
        let sent := [StripeGetSession secret sessionId] in
        match reply with
        | FetchThrows => (Thrown, sent)
        | Replied false status data =>
            (Returned (json status
               (JObj [("error",
                       jsOr (getOpt (getOpt data "error") "message") (JStr "Stripe error"));
                      ("details", data)])), sent)
        | Replied true status data =>
            let session := jsOr data (JObj []) in
            let paid :=
              match ownGet session "payment_status" with
              | JStr s => (s =? "paid")%string
              | _ => false
              end in
            let rid :=
              jsOr (jsOr (getOpt (ownGet session "metadata") "rid")
                         (ownGet session "client_reference_id"))
                   (JStr "") in
            (Returned (json 200
               (JObj [("paid", JBool paid);
                      ("session_id", jsOr (ownGet session "id") (JStr sessionId));
                      ("rid", rid);
                      ("status", ownGet session "status");
                      ("payment_status", ownGet session "payment_status")])), sent)
        end.

End Fetcher.

(** ** The tiered session creator *)

Module Tiered.

Import Js Http.

Definition PRICING_CENTS : list (string * list (string * Z)) :=
  [ ("tier_a", [ ("brief_remote", 12900);
                 ("command_remote", 24900);
                 ("verify_ppi_inperson", 29900);
                 ("confirm_diag_inperson", 17900) ]);
    ("tier_b", [ ("brief_remote", 16900);
                 ("command_remote", 32900);
                 ("verify_ppi_inperson", 39900);
                 ("confirm_diag_inperson", 22900) ]) ].

Definition SERVICE_NAMES : list (string * string) :=
  [ ("brief_remote", "VINvoyant Brief (Remote)");
    ("command_remote", "VINvoyant Command (Remote)");
    ("verify_ppi_inperson", "VINvoyant Verify (Mobile PPI)");
    ("confirm_diag_inperson", "VINvoyant Confirm (Diag + Quote)") ].

Fixpoint assoc {A} (table : list (string * A)) (key : string) : option A :=
  match table with
  | [] => None
  | (k, v) :: rest => if (k =? key)%string then Some v else assoc rest key
  end.

(** [PRICING_CENTS[tierKey]?.[serviceKey]], on the table's own keys.  A
    key that names a member of [Object.prototype] ([constructor],
    [toString], ...) reaches the built-in object instead; the model
    leaves these keys out and treats them as absent. *)
Definition pricingCents (tierKey serviceKey : string) : option Z :=
  match assoc PRICING_CENTS tierKey with
  | Some services => assoc services serviceKey
  | None => None
  end.

(** [!/^(0|false|no|off)$/i.test(String(process.env.ENABLE_TIERED_PRICING || ""))] *)
Definition enableTiered (env : ProcessEnv) : bool :=
  let s := toLowerCase (orElse (var env "ENABLE_TIERED_PRICING") "") in
  negb (existsb (String.eqb s) ["0"; "false"; "no"; "off"]).

(** [tieredPriceIds?.[tierKey]?.[serviceKey]], where a map that does
    not parse counts as none. *)
Definition mappedPriceId (env : ProcessEnv) (tierKey serviceKey : string) : JsVal :=
  match tieredPriceIds env with
  | Parses ids => getOpt (getOpt ids tierKey) serviceKey
  | _ => JUndefined
  end.

(** The parameters every session carries. *)
Definition baseParams (mode origin rid serviceLevel vehicleTier email : string)
  : list (string * string) :=
  let success_url :=
    origin ++ "/paid.html?session_id={CHECKOUT_SESSION_ID}&rid=" ++ encodeURIComponent rid in
  let cancel_url := origin ++ "/#start?canceled=1&rid=" ++ encodeURIComponent rid in
  ([ ("mode", mode);
     ("success_url", success_url);
     ("cancel_url", cancel_url);
     ("metadata[rid]", rid) ]
   ++ (if (serviceLevel =? "")%string then [] else [("metadata[service_level]", serviceLevel)])
   ++ (if (vehicleTier =? "")%string then [] else [("metadata[vehicle_tier]", vehicleTier)])
   ++ [ ("client_reference_id", rid) ]
   ++ (if (email =? "")%string then [] else [("customer_email", email)]))%list.

Definition priceRefItem (priceId : string) : list (string * string) :=
  [ ("line_items[0][price]", priceId); ("line_items[0][quantity]", "1") ].

Definition inlineItem (currency : string) (unitAmount : Z) (pname pdesc : string)
  : list (string * string) :=
  [ ("line_items[0][price_data][currency]", currency);
    ("line_items[0][price_data][unit_amount]", stringOfZ unitAmount);
    ("line_items[0][price_data][product_data][name]", pname);
    ("line_items[0][price_data][product_data][description]", pdesc);
    ("line_items[0][quantity]", "1") ].

(** The description of a tiered line item (the dash and the bullet of
    the source are written as their UTF-8 bytes). *)
Definition tierDescription (vehicleTier rid : string) : string :=
  (if (vehicleTier =? "tier_b")%string
   then "Tier B — European/Exotic" else "Tier A — Import/Domestic")
  ++ " • Request ID " ++ rid.

(** [typeof v === "string" && /^price_/.test(v)] *)
Definition priceString (v : JsVal) : option string :=
  match v with
  | JStr p => if startsWith p "price_" then Some p else None
  | _ => None
  end.

(** Lines 165 to 217 of the tiered creator: the line item of the
    request, or the response that ends it. *)
Definition lineItem (env : ProcessEnv) (rid serviceLevel vehicleTier : string)
  : HttpResponse + list (string * string) :=
  let priceId := orElse (var env "STRIPE_PRICE_ID") "" in
  if enableTiered env then
    let tierKey := vehicleTier in
    let serviceKey := serviceLevel in
    let unitAmount := pricingCents tierKey serviceKey in
    if ((tierKey =? "")%string || (serviceKey =? "")%string)%bool
    then inl (plain 400 (errorBody "Missing service/tier selection for tiered pricing."))
    else
      match priceString (mappedPriceId env tierKey serviceKey) with
      | Some p => inr (priceRefItem p)
      | None =>
          match unitAmount with
          | Some cents =>
              if cents =? 0
              then inl (plain 400
                     (errorBody "Invalid or missing service/tier selection for tiered pricing."))
              else inr (inlineItem "usd" cents
                          (match assoc SERVICE_NAMES serviceKey with
                           | Some n => n
                           | None => "VINvoyant Service"
                           end)
                          (tierDescription vehicleTier rid))
          | None =>
              inl (plain 400
                     (errorBody "Invalid or missing service/tier selection for tiered pricing."))
          end
      end
  else if negb (priceId =? "")%string then inr (priceRefItem priceId)
  else
    let unitAmount := parseInt10 (orElse (var env "UNIT_AMOUNT") "12900") in
    let currency := toLowerCase (orElse (var env "CURRENCY") "usd") in
    let pname := orElse (var env "PRODUCT_NAME") "VINvoyant Brief (Legacy)" in
    let pdesc := orElse (var env "PRODUCT_DESCRIPTION")
                   "Legacy fixed-price checkout (tiered pricing disabled)" in
    match (if isFiniteInt unitAmount then unitAmount else None) with
    | None => inl (plain 500 (errorBody "Invalid UNIT_AMOUNT env var (must be cents, e.g. 12900)."))
    | Some cents =>
        if cents <? 50
        then inl (plain 500 (errorBody "Invalid UNIT_AMOUNT env var (must be cents, e.g. 12900)."))
        else inr (inlineItem currency cents pname pdesc)
    end.

Definition handler (env : ProcessEnv) (event : Event) (reply : StripeReply) : Run :=
  if negb (httpMethod event =? "POST")%string
  then (Returned (mkResponse 405 [] (RawBody "Method Not Allowed")), [])
  else
    let secret := var env "STRIPE_SECRET_KEY" in
    let mode := orElse (var env "CHECKOUT_MODE") "payment" in
    if negb (truthyStr secret)
    then (Returned (plain 500 (errorBody "Missing STRIPE_SECRET_KEY in environment variables.")), [])
    else
      let secret := orElse secret "" in
      let payload := payloadOf (body event) in
      match field1 payload "rid", field1 payload "email",
            field2 payload "service_level" "serviceLevel",
            field2 payload "vehicle_tier" "vehicleTier", headers event with
      | Some rid, Some email, Some serviceLevel, Some vehicleTier, Some h =>
          let origin := orStr (orStr (getOrigin h) (var env "URL")) (var env "DEPLOY_PRIME_URL") in
          if negb (truthyStr origin)
          then (Returned (plain 400 (errorBody "Could not determine site origin.")), [])
          else
            let origin := orElse origin "" in
            if ((rid =? "")%string || negb (validRid rid))%bool
            then (Returned (plain 400 (errorBody "Invalid or missing Request ID.")), [])
            else
              match lineItem env rid serviceLevel vehicleTier with
              | inl rejected => (Returned rejected, [])
              | inr item =>
                  let params :=
                    (baseParams mode origin rid serviceLevel vehicleTier email ++ item)%list in
                  (Returned (createReply reply), [StripeCreateSession secret params])
              end
      | _, _, _, _, _ => (Thrown, [])
      end.

End Tiered.

(** ** The legacy session creator *)

Module Legacy.

Import Js Http.

Definition baseParams (mode origin rid email : string) : list (string * string) :=
  let success_url :=
    origin ++ "/paid.html?session_id={CHECKOUT_SESSION_ID}&rid=" ++ encodeURIComponent rid in
  let cancel_url := origin ++ "/#start?canceled=1&rid=" ++ encodeURIComponent rid in
  ([ ("mode", mode);
     ("success_url", success_url);
     ("cancel_url", cancel_url);
     ("metadata[rid]", rid);
     ("client_reference_id", rid) ]
   ++ (if (email =? "")%string then [] else [("customer_email", email)]))%list.

Definition lineItem (env : ProcessEnv) : HttpResponse + list (string * string) :=
  let priceId := orElse (var env "STRIPE_PRICE_ID") "" in
  if negb (priceId =? "")%string then inr (Tiered.priceRefItem priceId)
  else
    let unitAmount := parseInt10 (orElse (var env "UNIT_AMOUNT") "9900") in
    let currency := toLowerCase (orElse (var env "CURRENCY") "usd") in
    let pname := orElse (var env "PRODUCT_NAME") "VINvoyant Intake" in
    let pdesc := orElse (var env "PRODUCT_DESCRIPTION")
                   "Concierge Vehicle Intelligence Intake" in
    match (if isFiniteInt unitAmount then unitAmount else None) with
    | None => inl (plain 500 (errorBody "Invalid UNIT_AMOUNT env var (must be cents, e.g. 9900)."))
    | Some cents =>
        if cents <? 50
        then inl (plain 500 (errorBody "Invalid UNIT_AMOUNT env var (must be cents, e.g. 9900)."))
        else inr (Tiered.inlineItem currency cents pname pdesc)
    end.

Definition handler (env : ProcessEnv) (event : Event) (reply : StripeReply) : Run :=
  if negb (httpMethod event =? "POST")%string
  then (Returned (mkResponse 405 [] (RawBody "Method Not Allowed")), [])
  else
    let secret := var env "STRIPE_SECRET_KEY" in
    let mode := orElse (var env "CHECKOUT_MODE") "payment" in
    if negb (truthyStr secret)
    then (Returned (plain 500 (errorBody "Missing STRIPE_SECRET_KEY in environment variables.")), [])
    else
      let secret := orElse secret "" in
      let payload := payloadOf (body event) in
      match field1 payload "rid", field1 payload "email", headers event with
      | Some rid, Some email, Some h =>
          let origin := orStr (orStr (getOrigin h) (var env "URL")) (var env "DEPLOY_PRIME_URL") in
          if negb (truthyStr origin)
          then (Returned (plain 400 (errorBody "Could not determine site origin.")), [])
          else
            let origin := orElse origin "" in
            if ((rid =? "")%string || negb (validRid rid))%bool
            then (Returned (plain 400 (errorBody "Invalid or missing Request ID.")), [])
            else
              match lineItem env with
              | inl rejected => (Returned rejected, [])
              | inr item =>
                  let params := (baseParams mode origin rid email ++ item)%list in
                  (Returned (createReply reply), [StripeCreateSession secret params])
              end
      | _, _, _ => (Thrown, [])
      end.

End Legacy.

(** ** The paid-confirmation relay *)

Module Relay.

Import Js Http.

(** [appendField(params, key, value)]; [None] when [String(value)]
    throws. *)
Definition appendField (params : list (string * string)) (key : string) (value : JsVal)
  : option (list (string * string)) :=
  if nullish value then Some params
  else
    match jsString value with
    | None => None
    | Some v =>
        if (trim v =? "")%string then Some params
        else Some (params ++ [(key, v)])%list
    end.

(** [params.append(key, value)], which renders the value. *)
Definition append (params : list (string * string)) (key : string) (value : JsVal)
  : option (list (string * string)) :=
  match jsString value with
  | None => None
  | Some v => Some (params ++ [(key, v)])%list
  end.

Definition andThen {A B} (o : option A) (k : A -> option B) : option B :=
  match o with
  | Some a => k a
  | None => None
  end.

Notation "x <~ o ;; k" := (andThen o (fun x => k))
  (at level 61, o at next level, right associativity).

Fixpoint appendAll (params : list (string * string)) (key : string) (values : list JsVal)
  : option (list (string * string)) :=
  match values with
  | [] => Some params
  | d :: rest => p <~ appendField params key d ;; appendAll p key rest
  end.

(** Lines 86 to 105 of the relay: the body of the form submission,
    built inside the try block; [None] when building it throws.  The
    payload is not null here. *)
Definition formParams (payload session : JsVal) (sessionId requestId : string)
  : option (list (string * string)) :=
  let p := [("form-name", "vinvoyant_intake")] in
  p <~ appendField p "source" (ownGet payload "source") ;;
  p <~ appendField p "request_id" (JStr requestId) ;;
  p <~ appendField p "name" (ownGet payload "name") ;;
  p <~ appendField p "email" (ownGet payload "email") ;;
  p <~ appendField p "vin" (ownGet payload "vin") ;;
  p <~ appendField p "goal" (ownGet payload "goal") ;;
  p <~ appendField p "service_level"
         (jsOr (ownGet payload "service_level") (ownGet payload "serviceLevel")) ;;
  p <~ appendField p "vehicle_tier"
         (jsOr (ownGet payload "vehicle_tier") (ownGet payload "vehicleTier")) ;;
  p <~ appendField p "symptoms" (ownGet payload "symptoms") ;;
  p <~ appendField p "dtc_codes" (ownGet payload "dtc_codes") ;;
  p <~ appendField p "evidence_links" (ownGet payload "evidence_links") ;;
  let deliverables :=
    match ownGet payload "deliverables" with
    | JArr items => items
    | _ => []
    end in
  p <~ appendAll p "deliverables" deliverables ;;
  let p := (p ++ [("paid_confirmed", "true")])%list in
  p <~ append p "payment_reference" (jsOr (ownGet session "id") (JStr sessionId)) ;;
  appendField p "session_id" (jsOr (ownGet session "id") (JStr sessionId)).

(** [session.payment_status === "paid"] *)
Definition isPaid (session : JsVal) : bool :=
  match ownGet session "payment_status" with
  | JStr s => (s =? "paid")%string
  | _ => false
  end.

(** [session.metadata?.rid || session.client_reference_id || ""] *)
Definition trackingId (session : JsVal) : JsVal :=
  jsOr (jsOr (getOpt (ownGet session "metadata") "rid")
             (ownGet session "client_reference_id"))
       (JStr "").

(** [a !== b] against a string. *)
Definition differsFrom (v : JsVal) (s : string) : bool :=
  match v with
  | JStr t => negb (t =? s)%string
  | _ => true
  end.

Definition handler (env : ProcessEnv) (event : Event) (reply : StripeReply) : Run :=
  if negb (httpMethod event =? "POST")%string
  then (Returned (json 405 (errorBody "Method Not Allowed")), [])
  else
    let secret := var env "STRIPE_SECRET_KEY" in
    if negb (truthyStr secret)
    then (Returned (json 500 (errorBody "Missing STRIPE_SECRET_KEY in environment variables.")), [])
    else
      let secret := orElse secret "" in
      let payload := payloadOf (body event) in
      match field2 payload "session_id" "sessionId",
            field2 payload "request_id" "requestId" with
      | Some sessionId, Some requestId =>
          if (sessionId =? "")%string
          then (Returned (json 400 (errorBody "Missing session_id.")), [])
          else if (requestId =? "")%string
          then (Returned (json 400 (errorBody "Missing request_id.")), [])
          else
            let fetched := [StripeGetSession secret sessionId] in
            match reply with
            | FetchThrows => (Thrown, fetched)
            | Replied false status data =>
                (Returned (json status
                   (JObj [("error",
                           jsOr (getOpt (getOpt data "error") "message") (JStr "Stripe error"));
                          ("details", data)])), fetched)
            | Replied true status data =>
                let session := jsOr data (JObj []) in
                if negb (isPaid session)
                then (Returned (json 402 (errorBody "Payment not verified.")), fetched)
                else
                  let rid := trackingId session in
                  if (truthy rid && differsFrom rid requestId)%bool
                  then (Returned (json 400
                          (errorBody "Request ID did not match the paid session.")), fetched)
                  else
                    let siteOrigin :=
                      orStr (orStr (var env "URL") (var env "DEPLOY_PRIME_URL"))
                            (getOrigin (match headers event with
                                        | Some h => h
                                        | None => mkHeaders None None None
                                        end)) in
                    let forwarded :=
                      if truthyStr siteOrigin then
                        match formParams payload session sessionId requestId with
                        | Some params =>
                            [FormPost (orElse siteOrigin "" ++ "/success.html") params]
                        | None => []
                        end
                      else [] in
                    (Returned (json 200 (JObj [("ok", JBool true); ("rid", JStr requestId)])),
                     (fetched ++ forwarded)%list)
            end
      | _, _ => (Thrown, [])
      end.

End Relay.

(** ** Scenarios of the DNS tool *)

Module DnsSpec.

Import Js Dns.

(** The requests of one upsert. *)
Definition listCall (token zoneId : string) : Call :=
  mkCall token GET ("/dns_zones/" ++ zoneId ++ "/dns_records") None.

Definition deleteCall (token zoneId : string) (record : ApiObject) : Call :=
  mkCall token DELETE ("/dns_zones/" ++ zoneId ++ "/dns_records/" ++ id record) None.

Definition createCall (token zoneId : string) (desiredRecord : DesiredRecord) : Call :=
  mkCall token POST ("/dns_zones/" ++ zoneId ++ "/dns_records") (Some desiredRecord).

(** The existing records with the desired type and host name. *)
Definition matchesOf (desiredRecord : DesiredRecord) (existing : list ApiObject)
  : list ApiObject :=
  filter (matchesDesired desiredRecord) existing.

(** Some record with the desired type and host name has the desired
    value. *)
Definition alreadySet (desiredRecord : DesiredRecord) (existing : list ApiObject) : bool :=
  existsb (fun record => (value record =? d_value desiredRecord)%string)
          (matchesOf desiredRecord existing).

(** Records with the desired type and host name exist, none of them
    with the desired value. *)
Definition conflicting (desiredRecord : DesiredRecord) (existing : list ApiObject) : bool :=
  (Nat.ltb 0 (length (matchesOf desiredRecord existing))
   && negb (alreadySet desiredRecord existing))%bool.

(** The provider answers the requests [from .. from + count - 1]
    with some JSON. *)
Definition succeed (script : nat -> Response) (from count : nat) : Prop :=
  forall i, (i < count)%nat -> exists j, script (from + i)%nat = OkJson j.

(** A value is present among the TXT records of a host in a listing. *)
Definition txtPresent (host v : string) (existing : list ApiObject) : bool :=
  alreadySet (mkDesired "TXT" host v 0) existing.

(** Two TXT values that no listing of the provider tells apart. *)
Definition sameStanding (script : nat -> Response) (host v1 v2 : string) : Prop :=
  forall n existing,
    script n = OkJson (JArray existing) ->
    txtPresent host v1 existing = txtPresent host v2 existing.

(** Two states that differ at most in the requests they recorded, of
    which they hold equally many. *)
Definition alike (st1 st2 : State) : Prop :=
  length (calls st1) = length (calls st2)
  /\ output st1 = output st2
  /\ exitCode st1 = exitCode st2.

(** Two results that end alike: the same value or the same exception,
    in states that are alike. *)
Definition agree {A} (r1 r2 : Result A * State) : Prop :=
  fst r1 = fst r2 /\ alike (snd r1) (snd r2).

(** The settings with another TXT value. *)
Definition withTxtValue (s : Settings) (v : string) : Settings :=
  mkSettings (s_authToken s) (s_zoneName s) (s_ttl s) (s_cnameHost s)
             (s_cnameTarget s) (s_txtHost s) v (s_force s).

(** The deletions of one upsert, in order. *)
Definition deleteCalls (token zoneId : string) (records : list ApiObject) : list Call :=
  map (deleteCall token zoneId) records.

(** All requests of a forced replacement, in order. *)
Definition replaceCalls (token zoneId : string) (desiredRecord : DesiredRecord)
    (existing : list ApiObject) : list Call :=
  (listCall token zoneId
   :: deleteCalls token zoneId (matchesOf desiredRecord existing)
   ++ [createCall token zoneId desiredRecord])%list.


(** Concrete inputs. *)
Definition zone1 : ApiObject :=
  mkApiObject "z1" "vinvoyant.com" "undefined" "undefined" "undefined".

Definition cnameStale : ApiObject :=
  mkApiObject "r1" "undefined" "CNAME" "pay" "old.example.com".

Definition cnameGood : ApiObject :=
  mkApiObject "r2" "undefined" "CNAME" "pay" "hosted-checkout.stripecdn.com".

Definition txtStale : ApiObject :=
  mkApiObject "r3" "undefined" "TXT" "_acme-challenge.pay" "old-token".

Definition txtGood : ApiObject :=
  mkApiObject "r4" "undefined" "TXT" "_acme-challenge.pay" "token-1".

Definition otherRecord : ApiObject :=
  mkApiObject "r5" "undefined" "A" "www" "192.0.2.1".

Definition argsPlain : list string := ["--auth-token"; "tok"; "--txt-value"; "token-1"].

Definition argsForce : list string :=
  ["--auth-token"; "tok"; "--txt-value"; "token-1"; "--force"].

Definition argsOther : list string := ["--auth-token"; "tok"; "--txt-value"; "token-2"].

Definition noEnv : Env := mkEnv None None.

Definition settingsPlain : Settings :=
  mkSettings "tok" "vinvoyant.com" 300 "pay" "hosted-checkout.stripecdn.com"
             "_acme-challenge.pay" "token-1" false.



(** The zone holds a stale CNAME record, and the provider answers the
    deletion with a success status and no body, on which
    [response.json()] throws. *)
Definition scriptDeleteNoBody (n : nat) : Response :=
  match n with
  | 0%nat => OkJson (JArray [zone1])
  | 1%nat => OkJson (JArray [cnameStale; otherRecord])
  | _ => Rejects (mkError "SyntaxError" "Unexpected end of JSON input")
  end.

(** The zone holds a stale CNAME and no TXT record. *)
Definition scriptStaleCname (n : nat) : Response :=
  match n with
  | O => OkJson (JArray [zone1])
  | _ => OkJson (JArray [cnameStale; otherRecord])
  end.

(** The zone holds both records as desired. *)
Definition scriptAllGood (n : nat) : Response :=
  match n with
  | O => OkJson (JArray [zone1])
  | _ => OkJson (JArray [otherRecord; cnameGood; txtGood])
  end.

(** The zone holds a stale CNAME and a stale TXT record. *)
Definition scriptBothStale (n : nat) : Response :=
  match n with
  | O => OkJson (JArray [zone1])
  | _ => OkJson (JArray [cnameStale; otherRecord; txtStale])
  end.

(** Every request is answered with the same listing: a stale CNAME, an
    unrelated record, a stale TXT. *)
Definition scriptListing (n : nat) : Response :=
  OkJson (JArray [cnameStale; otherRecord; txtStale]).

(** The zone holds the desired CNAME and the TXT record [token-1]. *)
Definition scriptTxtPresent (n : nat) : Response :=
  match n with
  | O => OkJson (JArray [zone1])
  | _ => OkJson (JArray [cnameGood; txtGood])
  end.

End DnsSpec.

(** ** Scenarios of the handlers *)

Module HttpSpec.

Import Js Http.

(** The session the fetcher and the relay work on: [out.data || {}]. *)
Definition sessionOf (data : JsVal) : JsVal := jsOr data (JObj []).

(** The session's [payment_status] is the string [paid]. *)
Definition statusIsPaid (session : JsVal) : Prop :=
  ownGet session "payment_status" = JStr "paid".

(** The request id the relay reads from the event, when reading it does
    not throw. *)
Definition requestIdOf (event : Event) : option string :=
  field2 (payloadOf (body event)) "request_id" "requestId".

(** The request id a creator reads from the event. *)
Definition ridOf (event : Event) : option string :=
  field1 (payloadOf (body event)) "rid".

(** The event carries no request id of the form VV-dddd-ddddd. *)
Definition invalidRid (event : Event) : bool :=
  match ridOf event with
  | Some rid => negb (validRid rid)
  | None => true
  end.

Definition serviceLevelOf (event : Event) : option string :=
  field2 (payloadOf (body event)) "service_level" "serviceLevel".

Definition vehicleTierOf (event : Event) : option string :=
  field2 (payloadOf (body event)) "vehicle_tier" "vehicleTier".

Definition secretSet (env : ProcessEnv) : bool := truthyStr (var env "STRIPE_SECRET_KEY").

(** Lines 119 to 123 of the creators run without throwing: the payload
    is not null, the fields they read render as strings, and the event
    has headers. *)
Definition legacyReads (event : Event) : bool :=
  match ridOf event, field1 (payloadOf (body event)) "email", headers event with
  | Some _, Some _, Some _ => true
  | _, _, _ => false
  end.

Definition tieredReads (event : Event) : bool :=
  match serviceLevelOf event, vehicleTierOf event with
  | Some _, Some _ => legacyReads event
  | _, _ => false
  end.

(** The site origin a creator settles on. *)
Definition originOf (env : ProcessEnv) (h : Headers) : option string :=
  orStr (orStr (getOrigin h) (var env "URL")) (var env "DEPLOY_PRIME_URL").

(** A response of the 400 class. *)
Definition clientError (o : Outcome) : Prop :=
  match o with
  | Returned r => 400 <= statusCode r < 500
  | Thrown => False
  end.

(** The name and the description of a tiered line item. *)
Definition serviceName (serviceKey : string) : string :=
  match Tiered.assoc Tiered.SERVICE_NAMES serviceKey with
  | Some n => n
  | None => "VINvoyant Service"
  end.

(** The body is not a JSON text: it is absent or empty, or [JSON.parse]
    throws on it. *)
Definition notJson (b : JsonText) : bool :=
  match b with
  | Parses _ => false
  | Blank | Malformed => true
  end.

(** The session id the fetcher settles on: the one of the query string
    or, for a POST without one, the one of the body. *)
Definition fetchedIdOf (event : Event) : string :=
  let sessionId := trim (orElse (qp_session_id event) "") in
  if ((sessionId =? "")%string && (httpMethod event =? "POST")%string)%bool
  then Fetcher.bodySessionId (body event)
  else sessionId.

(** The answers of the guards that precede the reading of the body. *)
Definition methodNotAllowed : HttpResponse :=
  mkResponse 405 [] (RawBody "Method Not Allowed").

Definition missingSecret : JsVal :=
  errorBody "Missing STRIPE_SECRET_KEY in environment variables.".

(** The event with another body. *)
Definition withBody (event : Event) (b : JsonText) : Event :=
  mkEvent (httpMethod event) b (headers event) (qp_session_id event).

(** Concrete inputs. *)
Definition envOf (vars : list (string * string)) : ProcessEnv :=
  mkProcessEnv (Tiered.assoc vars) Blank.

Definition envLive : ProcessEnv :=
  envOf [("STRIPE_SECRET_KEY", "sk_test_1"); ("URL", "https://vinvoyant.com")].

Definition envNoSecret : ProcessEnv := envOf [("URL", "https://vinvoyant.com")].

Definition siteHeaders : Headers := mkHeaders (Some "https://vinvoyant.com") None None.

Definition post (payload : JsVal) : Event :=
  mkEvent "POST" (Parses payload) (Some siteHeaders) None.

Definition postMalformed : Event := mkEvent "POST" Malformed (Some siteHeaders) None.

(** The input of the specification's example. *)
Definition exampleOrder : JsVal :=
  JObj [ ("rid", JStr "VV-2024-00042");
         ("vehicle_tier", JStr "tier_a");
         ("service_level", JStr "brief_remote") ].

Definition badOrder : JsVal :=
  JObj [ ("rid", JStr "VV-24-42");
         ("vehicle_tier", JStr "tier_a");
         ("service_level", JStr "brief_remote") ].

Definition confirmation : JsVal :=
  JObj [ ("session_id", JStr "cs_test_1");
         ("request_id", JStr "VV-2024-00042");
         ("name", JStr "Ada") ].

(** A paid session that stores the tracking id of another request. *)
Definition paidOther : JsVal :=
  JObj [ ("id", JStr "cs_test_1");
         ("payment_status", JStr "paid");
         ("metadata", JObj [("rid", JStr "VV-2024-00001")]) ].

(** A paid session that stores no tracking id. *)
Definition paidUntracked : JsVal :=
  JObj [ ("id", JStr "cs_test_1"); ("payment_status", JStr "paid") ].

Definition unpaid : JsVal :=
  JObj [ ("id", JStr "cs_test_1");
         ("payment_status", JStr "unpaid");
         ("metadata", JObj [("rid", JStr "VV-2024-00042")]) ].

End HttpSpec.

(** ** Further scenarios of the DNS tool *)

Module DnsMore.

Import Js Dns DnsSpec.

(** The first request of a run. *)
Definition zonesCall (token : string) : Call := mkCall token GET "/dns_zones" None.

(** The desired record with another TTL. *)
Definition withTtl (d : DesiredRecord) (ttl : Z) : DesiredRecord :=
  mkDesired (d_type d) (d_hostname d) (d_value d) ttl.

(** The provider answered the n-th request with JSON. *)
Definition answered (script : nat -> Response) (n : nat) : Prop :=
  exists j, script n = OkJson j.

(** A request of an upsert in a zone: the listing, a deletion or the
    creation. *)
Definition inZone (zoneId : string) (c : Call) : Prop :=
  c_path c = "/dns_zones/" ++ zoneId ++ "/dns_records"
  \/ exists recordId, c_path c = "/dns_zones/" ++ zoneId ++ "/dns_records/" ++ recordId.

(** A request of a run with settings [s] against the provider: it
    carries the token of the settings, and it is the zones listing or a
    request in the zone the listing holds under the requested name. *)
Definition inFoundZone (script : nat -> Response) (s : Settings) (c : Call) : Prop :=
  c_token c = s_authToken s
  /\ (c = zonesCall (s_authToken s)
      \/ exists zones zone,
           script 0%nat = OkJson (JArray zones)
           /\ findZone (s_zoneName s) zones = Some zone
           /\ inZone (id zone) c).

(** A request with a body is the creation of one of the two desired
    records; no other request has a body. *)
Definition createsDesired (s : Settings) (c : Call) : Prop :=
  match c_body c with
  | Some d => c_method c = POST /\ (d = cnameRecord s \/ d = txtRecord s)
  | None => c_method c <> POST
  end.

(** The exit codes the tool documents. *)
Definition documentedExit (code : Z) : Prop :=
  code = 0 \/ code = 1 \/ code = 2 \/ code = 3.

(** A computation keeps a property of the state. *)
Definition keeps (P : State -> Prop) {A} (m : M A) : Prop :=
  forall st, P st -> P (snd (m st)).

(** The exit code so far is unset, 2 or 3. *)
Definition exitSoFar (st : State) : Prop :=
  exitCode st = None \/ exitCode st = Some 2 \/ exitCode st = Some 3.

(** Every request so far was answered with JSON. *)
Definition allAnswered (script : nat -> Response) (st : State) : Prop :=
  forall n, (n < length (calls st))%nat -> answered script n.

(** A computation that starts after answered requests ends with
    [failedLast]. *)
Definition failsFast (script : nat -> Response) {A} (m : M A) : Prop :=
  forall st, allAnswered script st ->
    forall n, (n < length (calls (snd (m st))))%nat ->
      answered script n
      \/ (S n = length (calls (snd (m st))) /\ exists e, fst (m st) = Throw e).

(** Concrete inputs. *)
Definition envToken : Env := mkEnv (Some "tok") None.

Definition argsBadTtl : list string :=
  ["--auth-token"; "tok"; "--ttl"; "soon"; "--txt-value"; "token-1"].

Definition argsOtherZone : list string :=
  ["--auth-token"; "tok"; "--zone"; "example.org."; "--txt-value"; "token-1"].

(** The zone holds an unrelated record only. *)
Definition scriptEmptyZone (n : nat) : Response :=
  match n with
  | O => OkJson (JArray [zone1])
  | _ => OkJson (JArray [otherRecord])
  end.

(** The listing of the records fails. *)
Definition scriptListingFails (n : nat) : Response :=
  match n with
  | O => OkJson (JArray [zone1])
  | _ => NotOk 401 "Unauthorized" "bad token"
  end.

End DnsMore.

(** ** Further scenarios of the handlers *)

Module HttpMore.

Import Js Http HttpSpec.

(** The secret key a handler sends. *)
Definition secretOf (env : ProcessEnv) : string := orElse (var env "STRIPE_SECRET_KEY") "".

(** The session id the relay reads from the event. *)
Definition sessionIdOf (event : Event) : option string :=
  field2 (payloadOf (body event)) "session_id" "sessionId".

(** The field names of a form submission. *)
Definition formFields : list string :=
  [ "form-name"; "source"; "request_id"; "name"; "email"; "vin"; "goal";
    "service_level"; "vehicle_tier"; "symptoms"; "dtc_codes"; "evidence_links";
    "deliverables"; "paid_confirmed"; "payment_reference"; "session_id" ].

Definition allowedField (kv : string * string) : Prop := In (fst kv) formFields.

(** The body of an error relayed from the payments API. *)
Definition relayedError (data : JsVal) : JsVal :=
  JObj [ ("error", jsOr (getOpt (getOpt data "error") "message") (JStr "Stripe error"));
         ("details", data) ].

(** The tracking id of a session is absent, or it is the request id. *)
Definition trackingAgrees (session : JsVal) (requestId : string) : Prop :=
  truthy (Relay.trackingId session) = false
  \/ Relay.trackingId session = JStr requestId.

(** The fetcher gets to its request: a GET or POST under a configured
    secret key that names a session. *)
Definition fetcherAsks (env : ProcessEnv) (event : Event) : Prop :=
  (httpMethod event = "GET" \/ httpMethod event = "POST")
  /\ secretSet env = true
  /\ fetchedIdOf event <> "".

(** The relay gets to its request for a session: a POST under a
    configured secret key with a session id and a request id. *)
Definition relayAsks (env : ProcessEnv) (event : Event) (sessionId : string) : Prop :=
  httpMethod event = "POST"
  /\ secretSet env = true
  /\ sessionIdOf event = Some sessionId /\ sessionId <> ""
  /\ exists requestId, requestIdOf event = Some requestId /\ requestId <> "".

(** The legacy creator gets to its request with these parameters: a
    POST under a configured secret key with a valid request id, a site
    origin and a line item. *)
Definition legacyAsks (env : ProcessEnv) (event : Event)
    (params : list (string * string)) : Prop :=
  httpMethod event = "POST"
  /\ secretSet env = true
  /\ exists rid email h item,
       ridOf event = Some rid /\ validRid rid = true
       /\ field1 (payloadOf (body event)) "email" = Some email
       /\ headers event = Some h /\ truthyStr (originOf env h) = true
       /\ Legacy.lineItem env = inr item
       /\ params = (Legacy.baseParams (orElse (var env "CHECKOUT_MODE") "payment")
                      (orElse (originOf env h) "") rid email ++ item)%list.

(** The selection of the event is a pair of the static table, or tiered
    pricing is off and the selection is not looked up. *)
Definition tableSelection (env : ProcessEnv) (event : Event) : Prop :=
  Tiered.enableTiered env = false
  \/ exists tier service cents,
       vehicleTierOf event = Some tier /\ serviceLevelOf event = Some service
       /\ Tiered.pricingCents tier service = Some cents.

(** The tiered creator gets to its request with these parameters. *)
Definition tieredAsks (env : ProcessEnv) (event : Event)
    (params : list (string * string)) : Prop :=
  httpMethod event = "POST"
  /\ secretSet env = true
  /\ exists rid email service tier h item,
       ridOf event = Some rid /\ validRid rid = true
       /\ field1 (payloadOf (body event)) "email" = Some email
       /\ serviceLevelOf event = Some service /\ vehicleTierOf event = Some tier
       /\ headers event = Some h /\ truthyStr (originOf env h) = true
       /\ Tiered.lineItem env rid service tier = inr item
       /\ params = (Tiered.baseParams (orElse (var env "CHECKOUT_MODE") "payment")
                      (orElse (originOf env h) "") rid service tier email ++ item)%list.

(** A string that does not start with white space. *)
Definition headOk (s : string) : Prop :=
  match s with
  | EmptyString => True
  | String c _ => isWhiteSpace c = false
  end.

(** The line item that refers to a price of the payments API. *)
Definition priceLine (priceId : string) : list (string * string) :=
  [ ("line_items[0][price]", priceId); ("line_items[0][quantity]", "1") ].

(** Concrete inputs. *)
Definition envWithMap : ProcessEnv :=
  mkProcessEnv
    (Tiered.assoc [("STRIPE_SECRET_KEY", "sk_test_1"); ("URL", "https://vinvoyant.com")])
    (Parses (JObj [("tier_a", JObj [("brief_remote", JStr "price_123")])])).

Definition envLegacy : ProcessEnv :=
  envOf [ ("STRIPE_SECRET_KEY", "sk_test_1");
          ("ENABLE_TIERED_PRICING", "off");
          ("STRIPE_PRICE_ID", "price_9") ].

Definition envCheap : ProcessEnv :=
  envOf [ ("STRIPE_SECRET_KEY", "sk_test_1"); ("UNIT_AMOUNT", "49") ].

Definition envInline : ProcessEnv :=
  envOf [ ("STRIPE_SECRET_KEY", "sk_test_1"); ("UNIT_AMOUNT", "9900") ].

Definition plainOrder : JsVal := JObj [ ("rid", JStr "VV-2024-00042") ].

Definition halfOrder : JsVal :=
  JObj [ ("rid", JStr "VV-2024-00042"); ("vehicle_tier", JStr "tier_a") ].

(** A paid session that stores the tracking id of the confirmation. *)
Definition paidTracked : JsVal :=
  JObj [ ("id", JStr "cs_test_1");
         ("payment_status", JStr "paid");
         ("client_reference_id", JStr "VV-2024-00042") ].

Definition upstreamError : JsVal :=
  JObj [ ("error", JObj [("message", JStr "No such checkout.session")]) ].

Definition getSession : Event := mkEvent "GET" Blank None (Some " cs_test_1 ").

End HttpMore.

(** ** Facts about the DNS tool *)

Module DnsFacts.

Import Js Dns DnsSpec.

Section Provider.

Variable script : nat -> Response.

Lemma netlifyRequest_ok token path method body st j :
  script (length (calls st)) = OkJson j ->
  netlifyRequest script token path method body st
  = (Ok j, mkState (calls st ++ [mkCall token method path body]) (output st) (exitCode st)).
Proof.
  intros H. unfold netlifyRequest. rewrite H. reflexivity.
Qed.

(** A request records exactly one call and leaves the rest alone. *)
Lemma netlifyRequest_state token path method body st :
  snd (netlifyRequest script token path method body st)
  = mkState (calls st ++ [mkCall token method path body]) (output st) (exitCode st).
Proof.
  unfold netlifyRequest.
  destruct (script (length (calls st))); reflexivity.
Qed.

Lemma readArgValue_state args flag st :
  snd (readArgValue args flag st) = st.
Proof.
  unfold readArgValue.
  destruct (afterFlag args flag) as [[|v rest]|]; try reflexivity.
  destruct ((v =? "")%string || startsWith v "--")%bool; reflexivity.
Qed.

(** An upsert on a record that is already set lists the records and
    stops. *)
Lemma upsert_noop token zoneId desiredRecord force st existing :
  script (length (calls st)) = OkJson (JArray existing) ->
  alreadySet desiredRecord existing = true ->
  upsertRecord script token zoneId desiredRecord force st
  = (Ok tt,
     mkState (calls st ++ [listCall token zoneId])
             (output st ++ [(Stdout,
                "OK: " ++ d_type desiredRecord ++ " " ++ d_hostname desiredRecord
                ++ " already set to "
                ++ redactValue (d_type desiredRecord) (d_value desiredRecord))])
             (exitCode st)).
Proof.
  intros Hs Hset. unfold upsertRecord, bind.
  rewrite (netlifyRequest_ok _ _ _ _ _ _ Hs). cbn [asArray ret].
  unfold alreadySet, matchesOf in Hset. rewrite Hset.
  reflexivity.
Qed.

(** An upsert on a conflicting record without force lists the records,
    reports, and sets the exit code. *)
Lemma upsert_blocked token zoneId desiredRecord st existing :
  script (length (calls st)) = OkJson (JArray existing) ->
  conflicting desiredRecord existing = true ->
  upsertRecord script token zoneId desiredRecord false st
  = (Ok tt,
     mkState (calls st ++ [listCall token zoneId])
             (output st ++ [(Stderr,
                "Blocked: " ++ d_type desiredRecord ++ " " ++ d_hostname desiredRecord
                ++ " exists with a different value. Re-run with --force to replace it.")])
             (Some 2)).
Proof.
  intros Hs Hc. unfold upsertRecord, bind.
  rewrite (netlifyRequest_ok _ _ _ _ _ _ Hs). cbn [asArray ret].
  unfold conflicting, alreadySet, matchesOf in Hc.
  apply andb_true_iff in Hc. destruct Hc as [Hlen Hnot].
  apply negb_true_iff in Hnot. rewrite Hnot, Hlen.
  reflexivity.
Qed.

(** The delete loop of a forced replacement, when every deletion is
    answered. *)
Lemma deleteAll_ok token zoneId records : forall st,
  succeed script (length (calls st)) (length records) ->
  forEach records
    (fun record =>
       netlifyRequest script token
         ("/dns_zones/" ++ zoneId ++ "/dns_records/" ++ id record) DELETE None ;;;
       ret tt) st
  = (Ok tt, mkState (calls st ++ deleteCalls token zoneId records)
                    (output st) (exitCode st)).
Proof.
  induction records as [|r rest IH]; intros st Hok.
  - cbn. rewrite app_nil_r. destruct st; reflexivity.
  - destruct (Hok 0%nat) as [j Hj]; [cbn; lia|].
    rewrite Nat.add_0_r in Hj.
    cbn [forEach]. unfold bind at 1 2.
    rewrite (netlifyRequest_ok _ _ _ _ _ _ Hj). cbn [ret].
    rewrite IH.
    + cbn [calls output exitCode deleteCalls map]. rewrite <- app_assoc. reflexivity.
    + intros i Hi. cbn [calls]. rewrite length_app. cbn [length].
      destruct (Hok (S i)) as [j' Hj']; [cbn; lia|].
      exists j'. rewrite <- Hj'. f_equal. lia.
Qed.

(** The delete loop in general: it sends a prefix of the deletions,
    all of them when it does not throw, and prints nothing. *)
Lemma deleteAll_prefix token zoneId records : forall st r st',
  forEach records
    (fun record =>
       netlifyRequest script token
         ("/dns_zones/" ++ zoneId ++ "/dns_records/" ++ id record) DELETE None ;;;
       ret tt) st = (r, st') ->
  output st' = output st /\ exitCode st' = exitCode st
  /\ exists n, calls st' = (calls st ++ firstn n (deleteCalls token zoneId records))%list
            /\ (r = Ok tt -> n = length records).
Proof.
  induction records as [|x rest IH]; intros st r st' H.
  - cbn in H. injection H as <- <-. repeat split.
    exists 0%nat. cbn. rewrite app_nil_r. auto.
  - cbn [forEach] in H. unfold bind at 1 2 in H.
    pose proof (netlifyRequest_state token
      ("/dns_zones/" ++ zoneId ++ "/dns_records/" ++ id x) DELETE None st) as Hst.
    destruct (netlifyRequest script token
      ("/dns_zones/" ++ zoneId ++ "/dns_records/" ++ id x) DELETE None st)
      as [[j|e] st1]; cbn [snd] in Hst; subst st1.
    + cbn [ret] in H. apply IH in H.
      destruct H as (Ho & He & n & Hc & Hn).
      cbn [calls output exitCode] in Ho, He, Hc.
      split; [exact Ho|]. split; [exact He|].
      exists (S n). split.
      * rewrite Hc. cbn [deleteCalls map firstn]. rewrite <- app_assoc. reflexivity.
      * intros Hr. cbn [length]. f_equal. auto.
    + injection H as <- <-. cbn [calls output exitCode]. repeat split.
      exists 1%nat. split; [reflexivity | discriminate].
Qed.

(** A forced upsert on a conflicting record, when the provider answers
    every request: the listing, one deletion per matching record, the
    creation. *)
Lemma upsert_replace token zoneId desiredRecord st existing :
  script (length (calls st)) = OkJson (JArray existing) ->
  conflicting desiredRecord existing = true ->
  succeed script (S (length (calls st)))
          (S (length (matchesOf desiredRecord existing))) ->
  upsertRecord script token zoneId desiredRecord true st
  = (Ok tt,
     mkState (calls st ++ replaceCalls token zoneId desiredRecord existing)
             (output st
              ++ [(Stdout, "Replaced: " ++ d_type desiredRecord ++ " "
                           ++ d_hostname desiredRecord ++ " (existing records removed)");
                  (Stdout, "Created: " ++ d_type desiredRecord ++ " "
                           ++ d_hostname desiredRecord ++ " -> "
                           ++ redactValue (d_type desiredRecord) (d_value desiredRecord))])
             (exitCode st)).
Proof.
  intros Hs Hc Hok. unfold upsertRecord. unfold bind at 1.
  rewrite (netlifyRequest_ok _ _ _ _ _ _ Hs). unfold bind at 1. cbn [asArray ret].
  unfold conflicting, alreadySet in Hc. fold (matchesOf desiredRecord existing).
  apply andb_true_iff in Hc. destruct Hc as [Hlen Hnot].
  apply negb_true_iff in Hnot. rewrite Hnot, Hlen. cbn [andb negb].
  unfold bind at 1 2. rewrite deleteAll_ok.
  - cbn [calls output exitCode console_log]. unfold bind at 1.
    destruct (Hok (length (matchesOf desiredRecord existing))) as [j Hj]; [lia|].
    rewrite netlifyRequest_ok with (j := j).
    + unfold console_log, replaceCalls. cbn [calls output exitCode].
      rewrite <- !app_assoc. reflexivity.
    + cbn [calls]. rewrite !length_app. unfold deleteCalls. rewrite length_map.
      cbn [length]. rewrite <- Hj. f_equal. lia.
  - intros i Hi. cbn [calls]. rewrite length_app. cbn [length].
    destruct (Hok i) as [j Hj]; [lia|]. exists j. rewrite <- Hj. f_equal. lia.
Qed.

(** A forced upsert on a conflicting record, whatever the provider
    answers after the listing: the requests sent are a prefix of the
    replacement. *)
Lemma upsert_forced_prefix token zoneId desiredRecord st existing r st' :
  script (length (calls st)) = OkJson (JArray existing) ->
  conflicting desiredRecord existing = true ->
  upsertRecord script token zoneId desiredRecord true st = (r, st') ->
  exists n, calls st'
            = (calls st ++ firstn n (replaceCalls token zoneId desiredRecord existing))%list.
Proof.
  intros Hs Hc H. unfold upsertRecord in H. unfold bind at 1 in H.
  rewrite (netlifyRequest_ok _ _ _ _ _ _ Hs) in H. unfold bind at 1 in H.
  cbn [asArray ret] in H.
  unfold conflicting, alreadySet in Hc. fold (matchesOf desiredRecord existing) in H.
  apply andb_true_iff in Hc. destruct Hc as [Hlen Hnot].
  apply negb_true_iff in Hnot. rewrite Hnot, Hlen in H. cbn [andb negb] in H.
  unfold bind at 1 2 in H.
  destruct (forEach (matchesOf desiredRecord existing) _ _) as [[[]|e] st1] eqn:Hdel;
    apply deleteAll_prefix in Hdel; destruct Hdel as (Ho & He & n & Hcalls & Hn);
    cbn [calls output exitCode] in Ho, He, Hcalls.
  - specialize (Hn eq_refl). subst n.
    cbn [console_log] in H. unfold bind at 1 in H.
    match type of H with
    | context [netlifyRequest script ?t ?p ?m ?b ?s] =>
        pose proof (netlifyRequest_state t p m b s) as Hst;
        destruct (netlifyRequest script t p m b s) as [[j|e] st2]
    end; cbn [snd] in Hst; subst st2; injection H as <- <-;
      cbn [calls]; rewrite Hcalls;
      exists (length (replaceCalls token zoneId desiredRecord existing));
      rewrite firstn_all; unfold replaceCalls;
      rewrite (firstn_all2 (n := length (matchesOf desiredRecord existing)))
        by (unfold deleteCalls; rewrite length_map; lia);
      rewrite <- !app_assoc; reflexivity.
  - injection H as <- <-. rewrite Hcalls.
    exists (S (Nat.min n (length (matchesOf desiredRecord existing)))).
    unfold replaceCalls. cbn [firstn].
    rewrite firstn_app.
    replace (Nat.min n (length (matchesOf desiredRecord existing))
             - length (deleteCalls token zoneId (matchesOf desiredRecord existing)))%nat
      with 0%nat by (unfold deleteCalls; rewrite length_map; lia).
    cbn [firstn]. rewrite app_nil_r.
    replace (length (matchesOf desiredRecord existing))
      with (length (deleteCalls token zoneId (matchesOf desiredRecord existing)))
      by (unfold deleteCalls; apply length_map).
    rewrite <- firstn_firstn, firstn_all, <- app_assoc. reflexivity.
Qed.

(** *** Two runs side by side *)

Lemma alike_refl st : alike st st.
Proof. repeat split. Qed.

Lemma agree_ret {A} (a : A) st1 st2 :
  alike st1 st2 -> agree (ret a st1) (ret a st2).
Proof. intros H. split; [reflexivity | exact H]. Qed.

Lemma agree_throw {A} e st1 st2 :
  alike st1 st2 -> agree (@throw A e st1) (@throw A e st2).
Proof. intros H. split; [reflexivity | exact H]. Qed.

Lemma agree_log msg st1 st2 :
  alike st1 st2 -> agree (console_log msg st1) (console_log msg st2).
Proof.
  intros (Hc & Ho & He). unfold agree, alike, console_log. cbn.
  rewrite Ho. auto.
Qed.

Lemma agree_error msg st1 st2 :
  alike st1 st2 -> agree (console_error msg st1) (console_error msg st2).
Proof.
  intros (Hc & Ho & He). unfold agree, alike, console_error. cbn.
  rewrite Ho. auto.
Qed.

Lemma agree_exit c st1 st2 :
  alike st1 st2 -> agree (setExitCode c st1) (setExitCode c st2).
Proof.
  intros (Hc & Ho & He). unfold agree, alike, setExitCode. cbn. auto.
Qed.

(** The answer to a request depends on how many requests came before
    it, not on what they asked. *)
Lemma agree_request t1 p1 m1 b1 t2 p2 m2 b2 st1 st2 :
  alike st1 st2 ->
  agree (netlifyRequest script t1 p1 m1 b1 st1) (netlifyRequest script t2 p2 m2 b2 st2).
Proof.
  intros (Hc & Ho & He). unfold agree, alike, netlifyRequest.
  rewrite Hc.
  destruct (script (length (calls st2))); cbn; rewrite !length_app, Hc; auto.
Qed.

Lemma agree_bind {A B} (m1 m2 : M A) (k1 k2 : A -> M B) st1 st2 :
  agree (m1 st1) (m2 st2) ->
  (forall a s1 s2, alike s1 s2 -> agree (k1 a s1) (k2 a s2)) ->
  agree (bind m1 k1 st1) (bind m2 k2 st2).
Proof.
  intros [Hr Hs] Hk. unfold bind.
  destruct (m1 st1) as [r1 s1], (m2 st2) as [r2 s2]. cbn in Hr, Hs. subst r2.
  destruct r1 as [a|e].
  - apply Hk, Hs.
  - split; [reflexivity | exact Hs].
Qed.

(** The same, when the continuation needs to know what it continues. *)
Lemma agree_bind_from {A B} (m1 m2 : M A) (k1 k2 : A -> M B) st1 st2 :
  agree (m1 st1) (m2 st2) ->
  (forall a s1 s2, m1 st1 = (Ok a, s1) -> alike s1 s2 -> agree (k1 a s1) (k2 a s2)) ->
  agree (bind m1 k1 st1) (bind m2 k2 st2).
Proof.
  intros [Hr Hs] Hk. unfold bind.
  destruct (m1 st1) as [r1 s1], (m2 st2) as [r2 s2]. cbn in Hr, Hs. subst r2.
  destruct r1 as [a|e].
  - apply Hk; [reflexivity | exact Hs].
  - split; [reflexivity | exact Hs].
Qed.

Lemma netlifyRequest_inv token path method body st j st' :
  netlifyRequest script token path method body st = (Ok j, st') ->
  script (length (calls st)) = OkJson j.
Proof.
  unfold netlifyRequest.
  destruct (script (length (calls st))); intros E; inversion E; reflexivity.
Qed.

Lemma bind_throw {A B} e (k : A -> M B) st : bind (throw e) k st = (Throw e, st).
Proof. reflexivity. Qed.

Lemma bind_ret {A B} (a : A) (k : A -> M B) st : bind (ret a) k st = k a st.
Proof. reflexivity. Qed.

Lemma agree_forEach {A} (xs : list A) (f1 f2 : A -> M unit) : forall st1 st2,
  (forall x s1 s2, alike s1 s2 -> agree (f1 x s1) (f2 x s2)) ->
  alike st1 st2 ->
  agree (forEach xs f1 st1) (forEach xs f2 st2).
Proof.
  induction xs as [|x rest IH]; intros st1 st2 Hf Hst; cbn [forEach].
  - apply agree_ret, Hst.
  - apply agree_bind; [apply Hf, Hst|].
    intros _ s1 s2 Hs. apply IH; assumption.
Qed.

Lemma agree_asArray what method j st1 st2 :
  alike st1 st2 -> agree (asArray what method j st1) (asArray what method j st2).
Proof.
  intros H. destruct j; cbn [asArray];
    [apply agree_ret | apply agree_throw | apply agree_throw]; exact H.
Qed.

(** Two upserts of records of the same type and host name, whose
    values stand alike in every listing and print alike, end alike. *)
Lemma agree_upsert t1 t2 zoneId d1 d2 force st1 st2 :
  d_type d1 = d_type d2 ->
  d_hostname d1 = d_hostname d2 ->
  redactValue (d_type d1) (d_value d1) = redactValue (d_type d2) (d_value d2) ->
  (forall n existing, script n = OkJson (JArray existing) ->
                      alreadySet d1 existing = alreadySet d2 existing) ->
  alike st1 st2 ->
  agree (upsertRecord script t1 zoneId d1 force st1)
        (upsertRecord script t2 zoneId d2 force st2).
Proof.
  intros Ht Hh Hred Hset Hst. unfold upsertRecord.
  apply agree_bind_from; [apply agree_request, Hst|].
  intros j s1 s2 Hreq Hs. apply netlifyRequest_inv in Hreq. rename Hreq into Hscript.
  destruct j as [existing| |]; cbn [asArray];
    [|rewrite !bind_throw; split; [reflexivity | exact Hs] ..].
  rewrite !bind_ret.
  specialize (Hset _ _ Hscript). unfold alreadySet, matchesOf in Hset.
  assert (Hm : filter (matchesDesired d1) existing = filter (matchesDesired d2) existing).
  { apply filter_ext. intros r. unfold matchesDesired. rewrite Ht, Hh. reflexivity. }
  rewrite Hset. rewrite Hm. rewrite Ht, Hh in *. rewrite Hred.
  destruct (existsb _ (filter (matchesDesired d2) existing)).
  - apply agree_log, Hs.
  - destruct (Nat.ltb 0 (length (filter (matchesDesired d2) existing))), force;
      cbn [andb negb].
    + apply agree_bind.
      * apply agree_bind.
        -- apply agree_forEach; [|exact Hs].
           intros x a b Hab. apply agree_bind; [apply agree_request, Hab|].
           intros _ a' b' Hab'. apply agree_ret, Hab'.
        -- intros _ a b Hab. apply agree_log, Hab.
      * intros _ a b Hab. apply agree_bind; [apply agree_request, Hab|].
        intros _ a' b' Hab'. apply agree_log, Hab'.
    + apply agree_bind; [apply agree_error, Hs|].
      intros _ a b Hab. apply agree_exit, Hab.
    + apply agree_bind; [apply agree_ret, Hs|].
      intros _ a b Hab. apply agree_bind; [apply agree_request, Hab|].
      intros _ a' b' Hab'. apply agree_log, Hab'.
    + apply agree_bind; [apply agree_ret, Hs|].
      intros _ a b Hab. apply agree_bind; [apply agree_request, Hab|].
      intros _ a' b' Hab'. apply agree_log, Hab'.
Qed.

(** Two runs of lines 156 to 188 whose settings differ in the TXT value
    only, on values that stand alike in every listing, end alike. *)
Lemma agree_applySettings s v st1 st2 :
  sameStanding script (s_txtHost s) (s_txtValue s) v ->
  alike st1 st2 ->
  agree (applySettings script s st1) (applySettings script (withTxtValue s v) st2).
Proof.
  intros Hsame Hst. unfold applySettings. cbn [withTxtValue s_authToken s_zoneName].
  apply agree_bind; [apply agree_request, Hst|].
  intros j s1 s2 Hs. apply agree_bind; [apply agree_asArray, Hs|].
  intros zones a b Hab.
  destruct (findZone (s_zoneName s) zones) as [zone|].
  - apply agree_bind.
    + apply agree_upsert; try reflexivity; exact Hab.
    + intros _ a' b' Hab'.
      apply agree_upsert; try reflexivity; [|exact Hab'].
      intros n existing Hn. apply (Hsame n existing Hn).
  - apply agree_bind; [apply agree_error, Hab|].
    intros _ a' b' Hab'. apply agree_exit, Hab'.
Qed.

Lemma main_settings args env s :
  hasFlag args "-h" = false ->
  hasFlag args "--help" = false ->
  readSettings args env initial = (Ok (Some s), initial) ->
  main script args env initial = applySettings script s initial.
Proof.
  intros H1 H2 Hs. unfold main. rewrite H1, H2. cbn [orb].
  unfold bind. rewrite Hs. reflexivity.
Qed.

Lemma applySettings_zone s st zones zone :
  script (length (calls st)) = OkJson (JArray zones) ->
  findZone (s_zoneName s) zones = Some zone ->
  applySettings script s st
  = (upsertRecord script (s_authToken s) (id zone) (cnameRecord s) (s_force s) ;;;
     upsertRecord script (s_authToken s) (id zone) (txtRecord s) (s_force s))
      (mkState (calls st ++ [mkCall (s_authToken s) GET "/dns_zones" None])
               (output st) (exitCode st)).
Proof.
  intros Hz Hf. unfold applySettings. unfold bind at 1.
  rewrite (netlifyRequest_ok _ _ _ _ _ _ Hz). unfold bind at 1. cbn [asArray ret].
  rewrite Hf. reflexivity.
Qed.

(** One upsert that either finds its record set or, without force,
    finds it conflicting: it only lists, and sets the exit code in the
    second case. *)
Lemma upsert_quiet token zoneId desiredRecord st existing :
  script (length (calls st)) = OkJson (JArray existing) ->
  (0 < length (matchesOf desiredRecord existing))%nat ->
  exists st',
    upsertRecord script token zoneId desiredRecord false st = (Ok tt, st')
    /\ calls st' = (calls st ++ [listCall token zoneId])%list
    /\ exitCode st'
       = if alreadySet desiredRecord existing then exitCode st else Some 2.
Proof.
  intros Hs Hlen.
  destruct (alreadySet desiredRecord existing) eqn:Hset.
  - eexists. split; [apply (upsert_noop _ _ _ _ _ _ Hs Hset)|]. split; reflexivity.
  - eexists. split; [apply (upsert_blocked _ _ _ _ _ Hs)|].
    + unfold conflicting. rewrite Hset. apply Nat.ltb_lt in Hlen. rewrite Hlen. reflexivity.
    + split; reflexivity.
Qed.

End Provider.

(** Stepping through the reads of [readSettings] in a hypothesis. *)
Ltac step_settings E :=
  unfold readSettings, bind in E;
  repeat match type of E with
         | context [readArgValue ?a ?f ?s0] =>
             let R := fresh "R" in
             pose proof (readArgValue_state a f s0) as R;
             destruct (readArgValue a f s0) as [[?|?] ?]; cbn [snd] in R; subst;
             [|discriminate E]
         | context [if ?c then _ else _] => destruct c eqn:?; try discriminate E
         | context [match ?x with _ => _ end] => destruct x eqn:?; try discriminate E
         end;
  unfold ret in E.

(** What [readSettings] returns is usable: the state is untouched, the
    token and the TXT value are not empty, the TTL is positive, and the
    force flag is the one of the command line. *)
Lemma readSettings_some args env st s st' :
  readSettings args env st = (Ok (Some s), st') ->
  st' = st
  /\ s_authToken s <> "" /\ s_txtValue s <> "" /\ 0 < s_ttl s
  /\ s_force s = hasFlag args "--force".
Proof.
  intros E. step_settings E. inversion E; subst; clear E.
  cbn [s_authToken s_txtValue s_ttl s_force].
  repeat split.
  - match goal with
    | H : negb (truthyStr ?o) = false |- orElse ?o "" <> "" =>
        apply negb_false_iff in H; destruct o as [x|]; [|discriminate H];
        cbn in *; destruct (x =? "")%string eqn:Hx; [discriminate H|];
        apply String.eqb_neq, Hx
    end.
  - match goal with
    | H : negb (truthyStr ?o) = false |- orElse ?o "" <> "" =>
        apply negb_false_iff in H; destruct o as [x|]; [|discriminate H];
        cbn in *; destruct (x =? "")%string eqn:Hx; [discriminate H|];
        apply String.eqb_neq, Hx
    end.
  - match goal with
    | H : (?z <=? 0) = false |- _ => apply Z.leb_gt in H; exact H
    end.
Qed.

(** *** A forced upsert that the provider answers *)

Section Forced.

Variable script : nat -> Response.



End Forced.

End DnsFacts.

(** ** The definitions on small inputs *)

Module Examples.

Import Js Dns DnsSpec Http HttpSpec.

Example trim_spaces : trim (String "009" "  VV-1 ") = "VV-1".
Proof. reflexivity. Qed.

Example parseInt_prefix : parseInt10 " 300s" = Some 300.
Proof. reflexivity. Qed.

Example parseInt_nan : parseInt10 "ttl" = None.
Proof. reflexivity. Qed.

(** Beyond 2^53 a parsed integer is rounded to the nearest double, a
    tie going to the even mantissa. *)
Example parseInt_rounds :
  parseInt10 "9007199254740993" = Some 9007199254740992
  /\ parseInt10 "9007199254740995" = Some 9007199254740996
  /\ parseInt10 "-9007199254740993" = Some (-9007199254740992)
  /\ parseInt10 "9007199254740991" = Some 9007199254740991.
Proof. repeat split. Qed.

(** A double prints as its shortest decimal numeral, with an exponent
    from 10^21 on. *)
Example string_of_large_numbers :
  stringOfZ 12900 = "12900"
  /\ stringOfZ 9007199254740992 = "9007199254740992"
  /\ stringOfZ 1152921504606846976 = "1152921504606847000"
  /\ stringOfZ 295147905179352825856 = "295147905179352830000"
  /\ stringOfZ 1000000000000000000000 = "1e+21"
  /\ stringOfZ 1180591620717411303424 = "1.1805916207174113e+21"
  /\ stringOfZ (-42) = "-42".
Proof. repeat split. Qed.

Example zone_name_dot : normalizeZoneName "vinvoyant.com." = "vinvoyant.com".
Proof. reflexivity. Qed.

Example redact_txt : redactValue "TXT" "token-1" = "(redacted)".
Proof. reflexivity. Qed.

Example redact_cname : redactValue "CNAME" "hosted-checkout.stripecdn.com"
                       = "hosted-checkout.stripecdn.com".
Proof. reflexivity. Qed.

Example missing_flag_value :
  fst (readArgValue ["--zone"; "--force"] "--zone" initial)
  = Throw (newError "Missing value for --zone").
Proof. reflexivity. Qed.

Example settings_of_plain_args :
  readSettings argsPlain noEnv initial = (Ok (Some settingsPlain), initial).
Proof. reflexivity. Qed.

Example valid_rid : validRid "VV-2024-00042" = true.
Proof. reflexivity. Qed.

Example short_rid : validRid "VV-24-42" = false.
Proof. reflexivity. Qed.

Example trailing_rid : validRid "VV-2024-000421" = false.
Proof. reflexivity. Qed.

Example encode_reserved : encodeURIComponent "a b&c/d" = "a%20b%26c%2Fd".
Proof. reflexivity. Qed.

Example string_of_array :
  jsString (JArr [JNum "1"; JNull; JArr [JStr "a"; JStr "b"]; JBool true])
  = Some "1,,a,b,true".
Proof. reflexivity. Qed.

Example last_duplicate_wins :
  ownGet (JObj [("rid", JStr "first"); ("rid", JStr "second")]) "rid" = JStr "second".
Proof. reflexivity. Qed.

Example table_entry : Tiered.pricingCents "tier_b" "verify_ppi_inperson" = Some 39900.
Proof. reflexivity. Qed.

Example tiered_off :
  Tiered.enableTiered (envOf [("ENABLE_TIERED_PRICING", "OFF")]) = false.
Proof. reflexivity. Qed.

(** A forced run on a zone with a stale CNAME and a stale TXT record:
    each is listed, deleted and created in turn. *)
Example forced_run :
  calls (run scriptBothStale argsForce noEnv)
  = [ mkCall "tok" GET "/dns_zones" None;
      listCall "tok" "z1";
      deleteCall "tok" "z1" cnameStale;
      createCall "tok" "z1" (cnameRecord settingsPlain);
      listCall "tok" "z1";
      deleteCall "tok" "z1" txtStale;
      createCall "tok" "z1" (txtRecord settingsPlain) ]
  /\ output (run scriptBothStale argsForce noEnv)
     = [ (Stdout, "Replaced: CNAME pay (existing records removed)");
         (Stdout, "Created: CNAME pay -> hosted-checkout.stripecdn.com");
         (Stdout, "Replaced: TXT _acme-challenge.pay (existing records removed)");
         (Stdout, "Created: TXT _acme-challenge.pay -> (redacted)") ]
  /\ processExit (run scriptBothStale argsForce noEnv) = 0.
Proof. repeat split. Qed.

(** A failing request ends the run with code 1 and the provider's
    message. *)
Example failing_listing :
  run (fun n => match n with
                | O => OkJson (JArray [zone1])
                | _ => NotOk 401 "Unauthorized" ""
                end) argsPlain noEnv
  = mkState [ mkCall "tok" GET "/dns_zones" None; listCall "tok" "z1" ]
            [ (Stderr, "401 Unauthorized") ]
            (Some 1).
Proof. reflexivity. Qed.

(** A deletion answered with a success status and no body: reading the
    body as JSON throws, so the run ends after the deletion. *)
Example deletion_answered_without_body :
  run scriptDeleteNoBody argsForce noEnv
  = mkState [ mkCall "tok" GET "/dns_zones" None;
              listCall "tok" "z1";
              deleteCall "tok" "z1" cnameStale ]
            [ (Stderr, "Unexpected end of JSON input") ]
            (Some 1).
Proof. reflexivity. Qed.

End Examples.

(** ** The DNS tool: the claims *)

Module DnsClaims.

Import Js Dns DnsSpec DnsMore DnsFacts.

Lemma run_ok script args env st :
  main script args env initial = (Ok tt, st) -> run script args env = st.
Proof. intros H. unfold run. rewrite H. reflexivity. Qed.

Lemma run_help script args env :
  (hasFlag args "-h" || hasFlag args "--help")%bool = true ->
  run script args env = mkState [] [(Stdout, helpText)] None.
Proof. intros H. unfold run, main. rewrite H. reflexivity. Qed.

(** C6.  A run that finds, for each of the two desired records, an
    existing record of the zone with the desired type, host name and
    value sends no create and no delete request, and the process exits
    with code 0. *)
Theorem rerun_on_correct_zone_is_noop script args env s zones zone cnames txts :
  readSettings args env initial = (Ok (Some s), initial) ->
  script 0%nat = OkJson (JArray zones) ->
  findZone (s_zoneName s) zones = Some zone ->
  script 1%nat = OkJson (JArray cnames) ->
  alreadySet (cnameRecord s) cnames = true ->
  script 2%nat = OkJson (JArray txts) ->
  alreadySet (txtRecord s) txts = true ->
  processExit (run script args env) = 0
  /\ forallb (fun c => negb (mutating c)) (calls (run script args env)) = true.
Proof.
  intros Hs Hz Hf Hc Hcs Ht Hts.
  destruct (hasFlag args "-h" || hasFlag args "--help")%bool eqn:Hhelp.
  - rewrite (run_help _ _ _ Hhelp). split; reflexivity.
  - apply orb_false_iff in Hhelp. destruct Hhelp as [H1 H2].
    erewrite run_ok.
    2:{ rewrite (main_settings _ _ _ _ H1 H2 Hs).
        rewrite (applySettings_zone script s initial zones zone Hz Hf).
        unfold bind.
        erewrite upsert_noop; [|exact Hc|exact Hcs].
        erewrite upsert_noop; [|exact Ht|exact Hts].
        reflexivity. }
    split; reflexivity.
Qed.

Lemma rerun_on_correct_zone_is_noop_witness :
  processExit (run scriptAllGood argsPlain noEnv) = 0
  /\ forallb (fun c => negb (mutating c)) (calls (run scriptAllGood argsPlain noEnv)) = true.
Proof.
  apply (rerun_on_correct_zone_is_noop scriptAllGood argsPlain noEnv settingsPlain
           [zone1] zone1 [otherRecord; cnameGood; txtGood] [otherRecord; cnameGood; txtGood]);
    reflexivity.
Defined.

(** C2, as stated, fails: with a stale CNAME record, no TXT record and
    no force flag, the run is blocked on the CNAME record, and still
    creates the TXT record. *)
Lemma blocked_run_still_creates :
  readSettings argsPlain noEnv initial = (Ok (Some settingsPlain), initial)
  /\ s_force settingsPlain = false
  /\ scriptStaleCname 1%nat = OkJson (JArray [cnameStale; otherRecord])
  /\ conflicting (cnameRecord settingsPlain) [cnameStale; otherRecord] = true
  /\ processExit (run scriptStaleCname argsPlain noEnv) = 2
  /\ existsb mutating (calls (run scriptStaleCname argsPlain noEnv)) = true
  /\ In (createCall "tok" "z1" (txtRecord settingsPlain))
        (calls (run scriptStaleCname argsPlain noEnv)).
Proof.
  repeat split; try reflexivity.
  vm_compute. do 3 right. left. reflexivity.
Qed.

(** C2, amended.  In a run without the force flag in which each of the
    two desired records has an existing record with its type and host
    name, and for at least one of them none of these has the desired
    value, the process exits with code 2 and the run sends no create
    and no delete request. *)
Theorem conflict_without_force_blocks script args env s zones zone cnames txts :
  hasFlag args "-h" = false ->
  hasFlag args "--help" = false ->
  readSettings args env initial = (Ok (Some s), initial) ->
  s_force s = false ->
  script 0%nat = OkJson (JArray zones) ->
  findZone (s_zoneName s) zones = Some zone ->
  script 1%nat = OkJson (JArray cnames) ->
  (0 < length (matchesOf (cnameRecord s) cnames))%nat ->
  script 2%nat = OkJson (JArray txts) ->
  (0 < length (matchesOf (txtRecord s) txts))%nat ->
  conflicting (cnameRecord s) cnames = true \/ conflicting (txtRecord s) txts = true ->
  processExit (run script args env) = 2
  /\ forallb (fun c => negb (mutating c)) (calls (run script args env)) = true.
Proof.
  intros H1 H2 Hs Hforce Hz Hf Hc Hclen Ht Htlen Hconf.
  pose proof (main_settings script _ _ _ H1 H2 Hs) as Hmain.
  rewrite (applySettings_zone script s initial zones zone Hz Hf) in Hmain.
  rewrite Hforce in Hmain. unfold bind in Hmain.
  destruct (upsert_quiet script (s_authToken s) (id zone) (cnameRecord s)
              (mkState (calls initial ++ [mkCall (s_authToken s) GET "/dns_zones" None])
                       (output initial) (exitCode initial)) cnames Hc Hclen)
    as (st1 & Hu1 & Hcalls1 & Hexit1).
  rewrite Hu1 in Hmain.
  assert (Ht' : script (length (calls st1)) = OkJson (JArray txts)).
  { rewrite Hcalls1. exact Ht. }
  destruct (upsert_quiet script (s_authToken s) (id zone) (txtRecord s) st1 txts Ht' Htlen)
    as (st2 & Hu2 & Hcalls2 & Hexit2).
  rewrite Hu2 in Hmain.
  rewrite (run_ok _ _ _ _ Hmain).
  split.
  - unfold processExit. rewrite Hexit2, Hexit1. cbn [exitCode initial].
    unfold conflicting in Hconf.
    destruct (alreadySet (txtRecord s) txts); [|reflexivity].
    destruct (alreadySet (cnameRecord s) cnames); [|reflexivity].
    destruct Hconf as [Hx|Hx]; rewrite andb_false_r in Hx; discriminate.
  - rewrite Hcalls2, Hcalls1. reflexivity.
Qed.

Lemma conflict_without_force_blocks_witness :
  processExit (run scriptBothStale argsPlain noEnv) = 2
  /\ forallb (fun c => negb (mutating c)) (calls (run scriptBothStale argsPlain noEnv)) = true.
Proof.
  apply (conflict_without_force_blocks scriptBothStale argsPlain noEnv settingsPlain
           [zone1] zone1 [cnameStale; otherRecord; txtStale]
           [cnameStale; otherRecord; txtStale]);
    try reflexivity; try (vm_compute; lia).
Defined.

(** A forced upsert that finds records with the desired type and host
    name, none of them with the desired value, sends the listing, then
    one deletion for each of these records and for no other record,
    then the creation of the desired record.  Whatever the provider
    answers, the requests sent are a prefix of this sequence; when the
    provider answers every request, they are this sequence. *)
Lemma forced_upsert_sends_a_prefix script token zoneId desiredRecord st existing :
  script (length (calls st)) = OkJson (JArray existing) ->
  conflicting desiredRecord existing = true ->
  (exists n,
     calls (snd (upsertRecord script token zoneId desiredRecord true st))
     = (calls st ++ firstn n (replaceCalls token zoneId desiredRecord existing))%list)
  /\ (succeed script (S (length (calls st)))
              (S (length (matchesOf desiredRecord existing))) ->
      fst (upsertRecord script token zoneId desiredRecord true st) = Ok tt
      /\ calls (snd (upsertRecord script token zoneId desiredRecord true st))
         = (calls st ++ replaceCalls token zoneId desiredRecord existing)%list).
Proof.
  intros Hs Hc. split.
  - destruct (upsertRecord script token zoneId desiredRecord true st) as [r st'] eqn:E.
    apply (upsert_forced_prefix script _ _ _ _ _ _ _ Hs Hc E).
  - intros Hok. rewrite (upsert_replace script _ _ _ _ _ Hs Hc Hok).
    split; reflexivity.
Qed.




(** C9, as stated, fails: two runs that differ in the TXT value only
    print different lines when one value is in the zone and the other
    is not. *)
Lemma txt_value_decides_the_report :
  output (run scriptTxtPresent argsPlain noEnv)
  <> output (run scriptTxtPresent argsOther noEnv).
Proof.
  vm_compute. intros H. discriminate H.
Qed.

(** C9, amended.  Two runs that read settings differing in the TXT value
    only print the same lines and exit with the same code, provided
    the provider answers the n-th request of both alike and the two
    values stand alike in every listing: each is, or each is not, the
    value of a TXT record of the host.  No line holds the TXT value:
    where a value is shown, a TXT value is shown as the placeholder. *)
Theorem txt_value_stays_out_of_output script args1 env1 args2 env2 s v :
  hasFlag args1 "-h" = false -> hasFlag args1 "--help" = false ->
  hasFlag args2 "-h" = false -> hasFlag args2 "--help" = false ->
  readSettings args1 env1 initial = (Ok (Some s), initial) ->
  readSettings args2 env2 initial = (Ok (Some (withTxtValue s v)), initial) ->
  sameStanding script (s_txtHost s) (s_txtValue s) v ->
  output (run script args1 env1) = output (run script args2 env2)
  /\ processExit (run script args1 env1) = processExit (run script args2 env2).
Proof.
  intros Ha1 Ha2 Hb1 Hb2 Hs1 Hs2 Hsame.
  unfold run.
  rewrite (main_settings script _ _ _ Ha1 Ha2 Hs1).
  rewrite (main_settings script _ _ _ Hb1 Hb2 Hs2).
  destruct (agree_applySettings script s v initial initial Hsame (alike_refl _))
    as [Hr (Hc & Ho & He)].
  destruct (applySettings script s initial) as [r1 s1].
  destruct (applySettings script (withTxtValue s v) initial) as [r2 s2].
  cbn [fst snd] in Hr, Hc, Ho, He. subst r2.
  destruct r1 as [[]|e]; unfold processExit; cbn [output exitCode].
  - rewrite Ho, He. split; reflexivity.
  - rewrite Ho. split; reflexivity.
Qed.

Lemma txt_value_stays_out_of_output_witness :
  output (run scriptBothStale argsPlain noEnv) = output (run scriptBothStale argsOther noEnv)
  /\ processExit (run scriptBothStale argsPlain noEnv)
     = processExit (run scriptBothStale argsOther noEnv).
Proof.
  apply (txt_value_stays_out_of_output scriptBothStale argsPlain noEnv argsOther noEnv
           settingsPlain "token-2"); try reflexivity.
  intros n existing Hn. destruct n as [|n]; cbn in Hn.
  - injection Hn as <-. reflexivity.
  - injection Hn as <-. reflexivity.
Defined.

End DnsClaims.

(** ** The handlers: the claims *)

Module HttpClaims.

Import Js Http HttpSpec HttpMore.

(** Case analysis on the next test of a handler. *)
Ltac break :=
  match goal with
  | |- context [if ?c then _ else _] => destruct c eqn:?
  | |- context [match ?x with _ => _ end] => destruct x eqn:?
  end.

Ltac breaks := repeat (break; cbn [fst snd]).

(** Case analysis inside a hypothesis that cannot hold. *)
Ltac refute H :=
  repeat match type of H with
         | context [match ?x with _ => _ end] => destruct x
         end;
  discriminate H.

Lemma isPaid_spec session : Relay.isPaid session = true <-> statusIsPaid session.
Proof.
  unfold Relay.isPaid, statusIsPaid.
  destruct (ownGet session "payment_status"); split; intros H;
    try discriminate; try reflexivity.
  - apply String.eqb_eq in H. subst. reflexivity.
  - inversion H. reflexivity.
Qed.

Lemma differsFrom_spec v s : Relay.differsFrom v s = true <-> v <> JStr s.
Proof.
  unfold Relay.differsFrom. destruct v; split; intros H;
    try reflexivity; try discriminate.
  - apply negb_true_iff, String.eqb_neq in H. intros E. inversion E. contradiction.
  - apply negb_true_iff, String.eqb_neq. intros E. apply H. subst. reflexivity.
Qed.

(** The relay sends at most the session fetch unless it gets past both
    gates. *)
Lemma relay_gate env event status data :
  (Relay.isPaid (sessionOf data) = false
   \/ (truthy (Relay.trackingId (sessionOf data))
       && Relay.differsFrom (Relay.trackingId (sessionOf data))
            (match requestIdOf event with Some r => r | None => "" end))%bool = true) ->
  forallb (fun o => negb (isFormPost o))
          (snd (Relay.handler env event (Replied true status data))) = true.
Proof.
  intros H. unfold Relay.handler, requestIdOf, sessionOf in *.
  destruct (negb (httpMethod event =? "POST")%string); [reflexivity|].
  destruct (negb (truthyStr (var env "STRIPE_SECRET_KEY"))); [reflexivity|].
  destruct (field2 (payloadOf (body event)) "session_id" "sessionId") as [sessionId|];
    [|reflexivity].
  destruct (field2 (payloadOf (body event)) "request_id" "requestId") as [requestId|];
    [|reflexivity].
  destruct (sessionId =? "")%string; [reflexivity|].
  destruct (requestId =? "")%string; [reflexivity|].
  destruct H as [H|H].
  - rewrite H. reflexivity.
  - destruct (negb (Relay.isPaid (jsOr data (JObj [])))); [reflexivity|].
    rewrite H. reflexivity.
Qed.

(** A POST with both ids, under a configured secret key, fetches the
    session first. *)
Lemma relay_fetches_session env event reply sessionId requestId :
  httpMethod event = "POST" ->
  secretSet env = true ->
  field2 (payloadOf (body event)) "session_id" "sessionId" = Some sessionId ->
  sessionId <> "" ->
  requestIdOf event = Some requestId ->
  requestId <> "" ->
  exists rest,
    snd (Relay.handler env event reply)
    = StripeGetSession (orElse (var env "STRIPE_SECRET_KEY") "") sessionId :: rest.
Proof.
  intros Hm Hsec Hsid Hs Hrid Hr.
  unfold Relay.handler. unfold secretSet in Hsec. unfold requestIdOf in Hrid.
  rewrite Hm, Hsec, Hsid, Hrid.
  change (negb ("POST" =? "POST")%string) with false. cbn iota. cbn [negb].
  apply String.eqb_neq in Hs, Hr. rewrite Hs, Hr.
  destruct reply as [|[|] status data]; cbn [snd]; eauto.
  breaks; cbn [app]; eauto.
Qed.

(** Past the fetch, an unpaid session gets the 402 answer. *)
Lemma relay_unpaid_answer env event status data :
  Relay.isPaid (sessionOf data) = false ->
  snd (Relay.handler env event (Replied true status data)) <> [] ->
  fst (Relay.handler env event (Replied true status data))
  = Returned (json 402 (errorBody "Payment not verified.")).
Proof.
  intros Hp. unfold Relay.handler. fold (sessionOf data). rewrite Hp. cbn [negb].
  breaks; intros H; try reflexivity; exfalso; apply H; reflexivity.
Qed.

Lemma not_paid session : ~ statusIsPaid session -> Relay.isPaid session = false.
Proof.
  intros Hnot. destruct (Relay.isPaid session) eqn:E; [|reflexivity].
  apply isPaid_spec in E. contradiction.
Qed.

(** C4.  When the payments API returns a session whose payment_status
    is not the string paid, the relay never sends a request to the
    form sink, and whenever it fetched the session it answers 402. *)
Theorem relay_rejects_unpaid env event status data :
  ~ statusIsPaid (sessionOf data) ->
  forallb (fun o => negb (isFormPost o))
          (snd (Relay.handler env event (Replied true status data))) = true
  /\ (snd (Relay.handler env event (Replied true status data)) <> [] ->
      fst (Relay.handler env event (Replied true status data))
      = Returned (json 402 (errorBody "Payment not verified."))).
Proof.
  intros Hnot. apply not_paid in Hnot.
  split.
  - apply relay_gate. left. exact Hnot.
  - apply relay_unpaid_answer, Hnot.
Qed.

Lemma relay_rejects_unpaid_witness :
  forallb (fun o => negb (isFormPost o))
          (snd (Relay.handler envLive (post confirmation) (Replied true 200 unpaid))) = true
  /\ fst (Relay.handler envLive (post confirmation) (Replied true 200 unpaid))
     = Returned (json 402 (errorBody "Payment not verified.")).
Proof.
  destruct (relay_rejects_unpaid envLive (post confirmation) 200 unpaid) as [H1 H2].
  - unfold statusIsPaid. cbn. discriminate.
  - split; [exact H1|]. apply H2. cbn. discriminate.
Defined.

(** C1, as stated, fails: a paid session that stores no tracking id is
    accepted with any request id, and the intake data is forwarded. *)
Lemma untracked_session_accepts_any_request_id :
  statusIsPaid (sessionOf paidUntracked)
  /\ requestIdOf (post confirmation) = Some "VV-2024-00042"
  /\ Relay.trackingId (sessionOf paidUntracked) = JStr ""
  /\ Relay.handler envLive (post confirmation) (Replied true 200 paidUntracked)
     = (Returned (json 200 (JObj [("ok", JBool true); ("rid", JStr "VV-2024-00042")])),
        [ StripeGetSession "sk_test_1" "cs_test_1";
          FormPost "https://vinvoyant.com/success.html"
            [ ("form-name", "vinvoyant_intake");
              ("request_id", "VV-2024-00042");
              ("name", "Ada");
              ("paid_confirmed", "true");
              ("payment_reference", "cs_test_1");
              ("session_id", "cs_test_1") ] ]).
Proof.
  repeat split.
Qed.

(** C1, amended.  When the payments API returns a paid session that
    stores a tracking id (a truthy [metadata.rid] or
    [client_reference_id]) other than the request id the relay reads
    from the event, the relay never sends a request to the form sink,
    and whenever it fetched the session it answers 400. *)
Theorem relay_rejects_other_tracking_id env event status data requestId :
  statusIsPaid (sessionOf data) ->
  requestIdOf event = Some requestId ->
  truthy (Relay.trackingId (sessionOf data)) = true ->
  Relay.trackingId (sessionOf data) <> JStr requestId ->
  forallb (fun o => negb (isFormPost o))
          (snd (Relay.handler env event (Replied true status data))) = true
  /\ (snd (Relay.handler env event (Replied true status data)) <> [] ->
      fst (Relay.handler env event (Replied true status data))
      = Returned (json 400 (errorBody "Request ID did not match the paid session."))).
Proof.
  intros Hpaid Hreq Htruthy Hdiff.
  apply isPaid_spec in Hpaid. apply differsFrom_spec in Hdiff.
  split.
  - apply relay_gate. right. rewrite Hreq, Htruthy, Hdiff. reflexivity.
  - unfold Relay.handler. unfold requestIdOf in Hreq. rewrite Hreq.
    fold (sessionOf data). rewrite Hpaid, Htruthy, Hdiff. cbn [negb andb].
    breaks; intros H; try reflexivity; exfalso; apply H; reflexivity.
Qed.

Lemma relay_rejects_other_tracking_id_witness :
  forallb (fun o => negb (isFormPost o))
          (snd (Relay.handler envLive (post confirmation) (Replied true 200 paidOther))) = true
  /\ fst (Relay.handler envLive (post confirmation) (Replied true 200 paidOther))
     = Returned (json 400 (errorBody "Request ID did not match the paid session.")).
Proof.
  destruct (relay_rejects_other_tracking_id envLive (post confirmation) 200 paidOther
              "VV-2024-00042") as [H1 H2].
  - reflexivity.
  - reflexivity.
  - reflexivity.
  - cbn. discriminate.
  - split; [exact H1|]. apply H2. cbn. discriminate.
Defined.

(** Under a configured secret key, a GET or POST that names a session
    fetches it, and reports what the payments API returned. *)
Lemma fetcher_reports env event status data :
  httpMethod event = "GET" \/ httpMethod event = "POST" ->
  secretSet env = true ->
  fetchedIdOf event <> "" ->
  Fetcher.handler env event (Replied true status data)
  = (Returned (json 200
       (JObj [ ("paid", JBool (Relay.isPaid (sessionOf data)));
               ("session_id",
                jsOr (ownGet (sessionOf data) "id") (JStr (fetchedIdOf event)));
               ("rid", Relay.trackingId (sessionOf data));
               ("status", ownGet (sessionOf data) "status");
               ("payment_status", ownGet (sessionOf data) "payment_status") ])),
     [StripeGetSession (secretOf env) (fetchedIdOf event)]).
Proof.
  intros Hm Hsec Hid. unfold Fetcher.handler, secretSet, secretOf in *.
  fold (fetchedIdOf event). fold (sessionOf data).
  assert (Hg : (negb (httpMethod event =? "GET")%string
                && negb (httpMethod event =? "POST")%string)%bool = false).
  { destruct Hm as [Hm|Hm]; rewrite Hm; reflexivity. }
  rewrite Hg, Hsec. cbn [negb].
  apply String.eqb_neq in Hid. rewrite Hid.
  reflexivity.
Qed.

(** C8.  When the payments API returns a session, the fetcher and the
    relay treat it as paid exactly when its payment_status is the
    string paid.  Under a configured secret key, a GET or POST that
    names a session makes the fetcher fetch it and answer 200 with the
    paid flag, which is true exactly then; a POST with a session id and
    a request id makes the relay fetch the session and answer 402
    exactly when the session is not paid.  Both also hold whenever the
    handler sent a request at all. *)
Theorem paid_iff_payment_status_paid env event status data :
  (httpMethod event = "GET" \/ httpMethod event = "POST" ->
   secretSet env = true ->
   fetchedIdOf event <> "" ->
   exists b,
     Fetcher.handler env event (Replied true status data)
     = (Returned (json 200
          (JObj [ ("paid", JBool b);
                  ("session_id",
                   jsOr (ownGet (sessionOf data) "id") (JStr (fetchedIdOf event)));
                  ("rid", Relay.trackingId (sessionOf data));
                  ("status", ownGet (sessionOf data) "status");
                  ("payment_status", ownGet (sessionOf data) "payment_status") ])),
        [StripeGetSession (secretOf env) (fetchedIdOf event)])
     /\ (b = true <-> statusIsPaid (sessionOf data)))
  /\ (forall sessionId requestId,
        httpMethod event = "POST" ->
        secretSet env = true ->
        sessionIdOf event = Some sessionId -> sessionId <> "" ->
        requestIdOf event = Some requestId -> requestId <> "" ->
        (exists rest,
           snd (Relay.handler env event (Replied true status data))
           = StripeGetSession (secretOf env) sessionId :: rest)
        /\ (fst (Relay.handler env event (Replied true status data))
             = Returned (json 402 (errorBody "Payment not verified."))
             <-> ~ statusIsPaid (sessionOf data)))
  /\ (snd (Fetcher.handler env event (Replied true status data)) <> [] ->
      exists b rest,
        fst (Fetcher.handler env event (Replied true status data))
        = Returned (json 200 (JObj (("paid", JBool b) :: rest)))
        /\ (b = true <-> statusIsPaid (sessionOf data)))
  /\ (snd (Relay.handler env event (Replied true status data)) <> [] ->
      (fst (Relay.handler env event (Replied true status data))
       = Returned (json 402 (errorBody "Payment not verified."))
       <-> ~ statusIsPaid (sessionOf data))).
Proof.
  assert (Hrelay : snd (Relay.handler env event (Replied true status data)) <> [] ->
                   (fst (Relay.handler env event (Replied true status data))
                    = Returned (json 402 (errorBody "Payment not verified."))
                    <-> ~ statusIsPaid (sessionOf data))).
  { intros Hfetched. split.
    - intros H402 Hpaid. apply isPaid_spec in Hpaid.
      revert Hfetched H402. unfold Relay.handler. fold (sessionOf data).
      rewrite Hpaid. cbn [negb].
      breaks; intros Hf H; try discriminate H; exfalso; apply Hf; reflexivity.
    - intros Hnot. apply relay_unpaid_answer; [apply not_paid, Hnot | exact Hfetched]. }
  split; [|split; [|split]].
  - intros Hm Hsec Hid. exists (Relay.isPaid (sessionOf data)).
    split; [apply fetcher_reports; assumption | apply isPaid_spec].
  - intros sessionId requestId Hm Hsec Hsid Hs Hrid Hr.
    destruct (relay_fetches_session env event (Replied true status data)
                sessionId requestId Hm Hsec Hsid Hs Hrid Hr) as [rest Hrest].
    split; [exists rest; exact Hrest|].
    apply Hrelay. rewrite Hrest. discriminate.
  - unfold Fetcher.handler.
    destruct (negb (httpMethod event =? "GET")%string
              && negb (httpMethod event =? "POST")%string)%bool;
      [intros H; exfalso; apply H; reflexivity|].
    destruct (negb (truthyStr (var env "STRIPE_SECRET_KEY")));
      [intros H; exfalso; apply H; reflexivity|].
    match goal with
    | |- context [if (?sid =? "")%string then _ else _] =>
        destruct (sid =? "")%string;
          [intros H; exfalso; apply H; reflexivity|]
    end.
    intros _. cbn [fst]. eexists. eexists. split; [reflexivity|].
    unfold statusIsPaid, sessionOf.
    destruct (ownGet (jsOr data (JObj [])) "payment_status"); split; intros H;
      try discriminate; try reflexivity.
    + apply String.eqb_eq in H. subst. reflexivity.
    + inversion H. reflexivity.
  - exact Hrelay.
Qed.

Lemma paid_iff_payment_status_paid_witness :
  Fetcher.handler envLive getSession (Replied true 200 paidTracked)
  = (Returned (json 200
       (JObj [ ("paid", JBool true);
               ("session_id", JStr "cs_test_1");
               ("rid", JStr "VV-2024-00042");
               ("status", JUndefined);
               ("payment_status", JStr "paid") ])),
     [StripeGetSession "sk_test_1" "cs_test_1"])
  /\ Fetcher.handler envLive getSession (Replied true 200 unpaid)
     = (Returned (json 200
          (JObj [ ("paid", JBool false);
                  ("session_id", JStr "cs_test_1");
                  ("rid", JStr "VV-2024-00042");
                  ("status", JUndefined);
                  ("payment_status", JStr "unpaid") ])),
        [StripeGetSession "sk_test_1" "cs_test_1"])
  /\ fst (Relay.handler envLive (post confirmation) (Replied true 200 unpaid))
     = Returned (json 402 (errorBody "Payment not verified."))
  /\ fst (Relay.handler envLive (post confirmation) (Replied true 200 paidTracked))
     <> Returned (json 402 (errorBody "Payment not verified.")).
Proof.
  destruct (paid_iff_payment_status_paid envLive getSession 200 paidTracked)
    as ((b1 & E1 & Hb1) & _); [left; reflexivity | reflexivity | cbn; discriminate |].
  destruct (paid_iff_payment_status_paid envLive getSession 200 unpaid)
    as ((b2 & E2 & Hb2) & _); [left; reflexivity | reflexivity | cbn; discriminate |].
  destruct (paid_iff_payment_status_paid envLive (post confirmation) 200 unpaid)
    as (_ & R1 & _).
  destruct (paid_iff_payment_status_paid envLive (post confirmation) 200 paidTracked)
    as (_ & R2 & _).
  destruct (R1 "cs_test_1" "VV-2024-00042") as [_ [_ U]];
    try reflexivity; try (cbn; discriminate).
  destruct (R2 "cs_test_1" "VV-2024-00042") as [_ [P _]];
    try reflexivity; try (cbn; discriminate).
  split; [|split; [|split]].
  - rewrite E1. destruct b1; [reflexivity|].
    assert (X : false = true) by (apply Hb1; reflexivity). discriminate X.
  - rewrite E2. destruct b2; [|reflexivity].
    assert (X : statusIsPaid (sessionOf unpaid)) by (apply Hb2; reflexivity).
    discriminate X.
  - apply U. intros X. discriminate X.
  - intros X. apply (P X). reflexivity.
Defined.

(** C5, as stated, fails: without the secret key, a request with an
    invalid request id is answered 500 by both creators. *)
Lemma invalid_rid_without_secret :
  invalidRid (post badOrder) = true
  /\ Tiered.handler envNoSecret (post badOrder) FetchThrows
     = (Returned (plain 500
          (errorBody "Missing STRIPE_SECRET_KEY in environment variables.")), [])
  /\ Legacy.handler envNoSecret (post badOrder) FetchThrows
     = (Returned (plain 500
          (errorBody "Missing STRIPE_SECRET_KEY in environment variables.")), [])
  /\ ~ clientError (fst (Tiered.handler envNoSecret (post badOrder) FetchThrows))
  /\ ~ clientError (fst (Legacy.handler envNoSecret (post badOrder) FetchThrows)).
Proof.
  repeat split; cbn; lia.
Qed.

Lemma tiered_invalid_rid env event reply :
  invalidRid event = true ->
  snd (Tiered.handler env event reply) = []
  /\ (secretSet env = true -> tieredReads event = true ->
      clientError (fst (Tiered.handler env event reply))).
Proof.
  unfold invalidRid, tieredReads, legacyReads, secretSet, ridOf, serviceLevelOf,
    vehicleTierOf, Tiered.handler.
  intros Hinv.
  destruct (negb (httpMethod event =? "POST")%string);
    [split; [reflexivity | intros _ _; cbn; lia]|].
  destruct (truthyStr (var env "STRIPE_SECRET_KEY")); cbn [negb];
    [|split; [reflexivity | discriminate]].
  destruct (field1 (payloadOf (body event)) "rid") as [rid|];
    [|split; [reflexivity | intros _ H; refute H]].
  destruct (field1 (payloadOf (body event)) "email");
    [|split; [reflexivity | intros _ H; refute H]].
  destruct (field2 (payloadOf (body event)) "service_level" "serviceLevel");
    [|split; [reflexivity | discriminate]].
  destruct (field2 (payloadOf (body event)) "vehicle_tier" "vehicleTier");
    [|split; [reflexivity | discriminate]].
  destruct (headers event); [|split; [reflexivity | discriminate]].
  rewrite Hinv, orb_true_r.
  destruct (negb (truthyStr _)); split; try reflexivity; intros _ _; cbn; lia.
Qed.

Lemma legacy_invalid_rid env event reply :
  invalidRid event = true ->
  snd (Legacy.handler env event reply) = []
  /\ (secretSet env = true -> legacyReads event = true ->
      clientError (fst (Legacy.handler env event reply))).
Proof.
  unfold invalidRid, legacyReads, secretSet, ridOf, Legacy.handler.
  intros Hinv.
  destruct (negb (httpMethod event =? "POST")%string);
    [split; [reflexivity | intros _ _; cbn; lia]|].
  destruct (truthyStr (var env "STRIPE_SECRET_KEY")); cbn [negb];
    [|split; [reflexivity | discriminate]].
  destruct (field1 (payloadOf (body event)) "rid") as [rid|];
    [|split; [reflexivity | discriminate]].
  destruct (field1 (payloadOf (body event)) "email");
    [|split; [reflexivity | discriminate]].
  destruct (headers event); [|split; [reflexivity | discriminate]].
  rewrite Hinv, orb_true_r.
  destruct (negb (truthyStr _)); split; try reflexivity; intros _ _; cbn; lia.
Qed.

(** The guards that precede the reading of the body: the method, then
    the secret key. *)
Lemma tiered_guards env event reply :
  (httpMethod event <> "POST" ->
   Tiered.handler env event reply = (Returned methodNotAllowed, []))
  /\ (httpMethod event = "POST" -> secretSet env = false ->
      Tiered.handler env event reply = (Returned (plain 500 missingSecret), [])).
Proof.
  unfold Tiered.handler, secretSet. split.
  - intros Hm. apply String.eqb_neq in Hm. rewrite Hm. reflexivity.
  - intros Hm Hs. rewrite Hm, Hs. reflexivity.
Qed.

Lemma legacy_guards env event reply :
  (httpMethod event <> "POST" ->
   Legacy.handler env event reply = (Returned methodNotAllowed, []))
  /\ (httpMethod event = "POST" -> secretSet env = false ->
      Legacy.handler env event reply = (Returned (plain 500 missingSecret), [])).
Proof.
  unfold Legacy.handler, secretSet. split.
  - intros Hm. apply String.eqb_neq in Hm. rewrite Hm. reflexivity.
  - intros Hm Hs. rewrite Hm, Hs. reflexivity.
Qed.

Lemma relay_guards env event reply :
  (httpMethod event <> "POST" ->
   Relay.handler env event reply
   = (Returned (json 405 (errorBody "Method Not Allowed")), []))
  /\ (httpMethod event = "POST" -> secretSet env = false ->
      Relay.handler env event reply = (Returned (json 500 missingSecret), [])).
Proof.
  unfold Relay.handler, secretSet. split.
  - intros Hm. apply String.eqb_neq in Hm. rewrite Hm. reflexivity.
  - intros Hm Hs. rewrite Hm, Hs. reflexivity.
Qed.

(** Past the guards, a creator that reads an invalid request id answers
    400, for the missing origin or for the request id. *)
Lemma tiered_invalid_rid_answer env event reply :
  invalidRid event = true ->
  httpMethod event = "POST" -> secretSet env = true -> tieredReads event = true ->
  fst (Tiered.handler env event reply)
  = Returned (plain 400 (errorBody "Could not determine site origin."))
  \/ fst (Tiered.handler env event reply)
     = Returned (plain 400 (errorBody "Invalid or missing Request ID.")).
Proof.
  unfold invalidRid, tieredReads, legacyReads, secretSet, ridOf, serviceLevelOf,
    vehicleTierOf, Tiered.handler.
  intros Hinv Hm Hs Hr. rewrite Hm, Hs.
  change (negb ("POST" =? "POST")%string) with false. cbn iota. cbn [negb].
  destruct (field2 (payloadOf (body event)) "service_level" "serviceLevel");
    [|discriminate Hr].
  destruct (field2 (payloadOf (body event)) "vehicle_tier" "vehicleTier");
    [|discriminate Hr].
  destruct (field1 (payloadOf (body event)) "rid") as [rid|]; [|discriminate Hr].
  destruct (field1 (payloadOf (body event)) "email"); [|discriminate Hr].
  destruct (headers event); [|discriminate Hr].
  rewrite Hinv, orb_true_r.
  destruct (negb (truthyStr _)); [left | right]; reflexivity.
Qed.

Lemma legacy_invalid_rid_answer env event reply :
  invalidRid event = true ->
  httpMethod event = "POST" -> secretSet env = true -> legacyReads event = true ->
  fst (Legacy.handler env event reply)
  = Returned (plain 400 (errorBody "Could not determine site origin."))
  \/ fst (Legacy.handler env event reply)
     = Returned (plain 400 (errorBody "Invalid or missing Request ID.")).
Proof.
  unfold invalidRid, legacyReads, secretSet, ridOf, Legacy.handler.
  intros Hinv Hm Hs Hr. rewrite Hm, Hs.
  change (negb ("POST" =? "POST")%string) with false. cbn iota. cbn [negb].
  destruct (field1 (payloadOf (body event)) "rid") as [rid|]; [|discriminate Hr].
  destruct (field1 (payloadOf (body event)) "email"); [|discriminate Hr].
  destruct (headers event); [|discriminate Hr].
  rewrite Hinv, orb_true_r.
  destruct (negb (truthyStr _)); [left | right]; reflexivity.
Qed.

(** C5, amended.  For a request whose request id does not have the form
    VV-dddd-ddddd, neither creator sends an outbound request, and each
    answers with a rejection: 405 when the method is not POST; for a
    POST, 500 when the secret key is not configured, and 400 (for the
    missing origin or for the request id) when the key is configured
    and the creator reads the event without throwing.  So the answer is
    of the 400 class whenever the key is configured and the event is
    read without throwing. *)
Theorem creators_reject_invalid_rid env event reply :
  invalidRid event = true ->
  (snd (Tiered.handler env event reply) = []
   /\ snd (Legacy.handler env event reply) = [])
  /\ (httpMethod event <> "POST" ->
      fst (Tiered.handler env event reply) = Returned methodNotAllowed
      /\ fst (Legacy.handler env event reply) = Returned methodNotAllowed)
  /\ (httpMethod event = "POST" -> secretSet env = false ->
      fst (Tiered.handler env event reply) = Returned (plain 500 missingSecret)
      /\ fst (Legacy.handler env event reply) = Returned (plain 500 missingSecret))
  /\ (httpMethod event = "POST" -> secretSet env = true ->
      (tieredReads event = true ->
       fst (Tiered.handler env event reply)
       = Returned (plain 400 (errorBody "Could not determine site origin."))
       \/ fst (Tiered.handler env event reply)
          = Returned (plain 400 (errorBody "Invalid or missing Request ID.")))
      /\ (legacyReads event = true ->
          fst (Legacy.handler env event reply)
          = Returned (plain 400 (errorBody "Could not determine site origin."))
          \/ fst (Legacy.handler env event reply)
             = Returned (plain 400 (errorBody "Invalid or missing Request ID."))))
  /\ (secretSet env = true -> tieredReads event = true ->
      clientError (fst (Tiered.handler env event reply)))
  /\ (secretSet env = true -> legacyReads event = true ->
      clientError (fst (Legacy.handler env event reply))).
Proof.
  intros Hinv.
  destruct (tiered_invalid_rid env event reply Hinv) as [Ht1 Ht2].
  destruct (legacy_invalid_rid env event reply Hinv) as [Hl1 Hl2].
  destruct (tiered_guards env event reply) as [Tm Ts].
  destruct (legacy_guards env event reply) as [Lm Ls].
  split; [split; assumption|].
  split; [intros Hm; rewrite (Tm Hm), (Lm Hm); split; reflexivity|].
  split; [intros Hm Hs; rewrite (Ts Hm Hs), (Ls Hm Hs); split; reflexivity|].
  split; [intros Hm Hs; split; intros Hr;
          [apply tiered_invalid_rid_answer | apply legacy_invalid_rid_answer];
          assumption|].
  split; assumption.
Qed.

Lemma creators_reject_invalid_rid_witness :
  invalidRid (post badOrder) = true
  /\ Tiered.handler envLive (post badOrder) FetchThrows
     = (Returned (plain 400 (errorBody "Invalid or missing Request ID.")), [])
  /\ Legacy.handler envLive (post badOrder) FetchThrows
     = (Returned (plain 400 (errorBody "Invalid or missing Request ID.")), [])
  /\ clientError (fst (Tiered.handler envLive (post badOrder) FetchThrows))
  /\ clientError (fst (Legacy.handler envLive (post badOrder) FetchThrows)).
Proof.
  destruct (creators_reject_invalid_rid envLive (post badOrder) FetchThrows)
    as ((H1 & H2) & _ & _ & _ & H3 & H4).
  - reflexivity.
  - split; [reflexivity|]. split; [reflexivity|]. split; [reflexivity|].
    split; [apply H3; reflexivity | apply H4; reflexivity].
Defined.

(** C10, as stated, fails: without the secret key, a request whose
    body is not JSON is answered 500, not by the validation of its
    fields. *)
Lemma malformed_body_without_secret :
  body postMalformed = Malformed
  /\ Relay.handler envNoSecret postMalformed FetchThrows
     = (Returned (json 500
          (errorBody "Missing STRIPE_SECRET_KEY in environment variables.")), [])
  /\ Tiered.handler envNoSecret postMalformed FetchThrows
     = (Returned (plain 500
          (errorBody "Missing STRIPE_SECRET_KEY in environment variables.")), [])
  /\ Legacy.handler envNoSecret postMalformed FetchThrows
     = (Returned (plain 500
          (errorBody "Missing STRIPE_SECRET_KEY in environment variables.")), [])
  /\ ~ clientError (fst (Relay.handler envNoSecret postMalformed FetchThrows)).
Proof.
  repeat split; cbn; lia.
Qed.

Lemma tiered_on_empty_payload env event reply :
  payloadOf (body event) = JObj [] ->
  snd (Tiered.handler env event reply) = []
  /\ (httpMethod event = "POST" -> secretSet env = true -> headers event <> None ->
      fst (Tiered.handler env event reply)
      = Returned (plain 400 (errorBody "Could not determine site origin."))
      \/ fst (Tiered.handler env event reply)
         = Returned (plain 400 (errorBody "Invalid or missing Request ID."))).
Proof.
  intros Hp. unfold Tiered.handler, secretSet. rewrite Hp.
  destruct (httpMethod event =? "POST")%string eqn:Hm; cbn [negb].
  2:{ split; [reflexivity|]. intros H. rewrite H in Hm. discriminate Hm. }
  destruct (truthyStr (var env "STRIPE_SECRET_KEY")); cbn [negb];
    [|split; [reflexivity | discriminate]].
  cbn [field1 field2 getProp nullish ownGet lookupLast jsOr truthy jsString trim
       trimStart trimEnd String.eqb negb].
  destruct (headers event) as [h|]; [|split; [reflexivity | intros _ _ H; contradiction]].
  destruct (negb (truthyStr _)); cbn; split; auto.
Qed.

Lemma legacy_on_empty_payload env event reply :
  payloadOf (body event) = JObj [] ->
  snd (Legacy.handler env event reply) = []
  /\ (httpMethod event = "POST" -> secretSet env = true -> headers event <> None ->
      fst (Legacy.handler env event reply)
      = Returned (plain 400 (errorBody "Could not determine site origin."))
      \/ fst (Legacy.handler env event reply)
         = Returned (plain 400 (errorBody "Invalid or missing Request ID."))).
Proof.
  intros Hp. unfold Legacy.handler, secretSet. rewrite Hp.
  destruct (httpMethod event =? "POST")%string eqn:Hm; cbn [negb].
  2:{ split; [reflexivity|]. intros H. rewrite H in Hm. discriminate Hm. }
  destruct (truthyStr (var env "STRIPE_SECRET_KEY")); cbn [negb];
    [|split; [reflexivity | discriminate]].
  cbn [field1 field2 getProp nullish ownGet lookupLast jsOr truthy jsString trim
       trimStart trimEnd String.eqb negb].
  destruct (headers event) as [h|]; [|split; [reflexivity | intros _ _ H; contradiction]].
  destruct (negb (truthyStr _)); cbn; split; auto.
Qed.

Lemma relay_on_empty_payload env event reply :
  payloadOf (body event) = JObj [] ->
  snd (Relay.handler env event reply) = []
  /\ (httpMethod event = "POST" -> secretSet env = true ->
      fst (Relay.handler env event reply)
      = Returned (json 400 (errorBody "Missing session_id."))).
Proof.
  intros Hp. unfold Relay.handler, secretSet. rewrite Hp.
  destruct (httpMethod event =? "POST")%string eqn:Hm; cbn [negb].
  2:{ split; [reflexivity|]. intros H. rewrite H in Hm. discriminate Hm. }
  destruct (truthyStr (var env "STRIPE_SECRET_KEY")); cbn [negb];
    [|split; [reflexivity | discriminate]].
  cbn. split; auto.
Qed.

(** C10, amended.  For a request whose body is not valid JSON (it is
    malformed, or empty), each of the three handlers runs exactly as it
    does on the empty object and sends no outbound request: the parse
    failure never escapes.  A method other than POST is answered 405,
    and a POST without the secret key 500, before the body is read.  A
    POST under a configured secret key is rejected by the validation of
    the fields with a 400: by the relay for the missing session id, and
    by each creator, given an event with headers, for the missing
    origin or the missing request id. *)
Theorem malformed_body_is_empty_payload env event reply :
  notJson (body event) = true ->
  (Tiered.handler env event reply
   = Tiered.handler env (withBody event (Parses (JObj []))) reply
   /\ Legacy.handler env event reply
      = Legacy.handler env (withBody event (Parses (JObj []))) reply
   /\ Relay.handler env event reply
      = Relay.handler env (withBody event (Parses (JObj []))) reply)
  /\ (snd (Tiered.handler env event reply) = []
      /\ snd (Legacy.handler env event reply) = []
      /\ snd (Relay.handler env event reply) = [])
  /\ (httpMethod event <> "POST" ->
      fst (Tiered.handler env event reply) = Returned methodNotAllowed
      /\ fst (Legacy.handler env event reply) = Returned methodNotAllowed
      /\ fst (Relay.handler env event reply)
         = Returned (json 405 (errorBody "Method Not Allowed")))
  /\ (httpMethod event = "POST" -> secretSet env = false ->
      fst (Tiered.handler env event reply) = Returned (plain 500 missingSecret)
      /\ fst (Legacy.handler env event reply) = Returned (plain 500 missingSecret)
      /\ fst (Relay.handler env event reply) = Returned (json 500 missingSecret))
  /\ (httpMethod event = "POST" -> secretSet env = true ->
      fst (Relay.handler env event reply)
      = Returned (json 400 (errorBody "Missing session_id."))
      /\ (headers event <> None ->
          (fst (Tiered.handler env event reply)
           = Returned (plain 400 (errorBody "Could not determine site origin."))
           \/ fst (Tiered.handler env event reply)
              = Returned (plain 400 (errorBody "Invalid or missing Request ID.")))
          /\ (fst (Legacy.handler env event reply)
              = Returned (plain 400 (errorBody "Could not determine site origin."))
              \/ fst (Legacy.handler env event reply)
                 = Returned (plain 400 (errorBody "Invalid or missing Request ID."))))).
Proof.
  intros Hb.
  assert (Hp : payloadOf (body event) = JObj [])
    by (destruct (body event); [reflexivity | reflexivity | discriminate Hb]).
  destruct (tiered_on_empty_payload env event reply Hp) as [Ht1 Ht2].
  destruct (legacy_on_empty_payload env event reply Hp) as [Hl1 Hl2].
  destruct (relay_on_empty_payload env event reply Hp) as [Hr1 Hr2].
  destruct (tiered_guards env event reply) as [Tm Ts].
  destruct (legacy_guards env event reply) as [Lm Ls].
  destruct (relay_guards env event reply) as [Rm Rs].
  split; [|split; [|split; [|split]]].
  - unfold Tiered.handler, Legacy.handler, Relay.handler, withBody.
    cbn [httpMethod body headers]. rewrite Hp. repeat split.
  - repeat split; assumption.
  - intros Hm. rewrite (Tm Hm), (Lm Hm), (Rm Hm). repeat split.
  - intros Hm Hs. rewrite (Ts Hm Hs), (Ls Hm Hs), (Rs Hm Hs). repeat split.
  - intros Hm Hs. split; [apply Hr2; assumption|].
    intros Hh. split; [apply Ht2 | apply Hl2]; assumption.
Qed.

Lemma malformed_body_is_empty_payload_witness :
  notJson (body postMalformed) = true
  /\ Relay.handler envLive postMalformed FetchThrows
     = (Returned (json 400 (errorBody "Missing session_id.")), [])
  /\ Tiered.handler envLive postMalformed FetchThrows
     = (Returned (plain 400 (errorBody "Invalid or missing Request ID.")), [])
  /\ Legacy.handler envLive postMalformed FetchThrows
     = (Returned (plain 400 (errorBody "Invalid or missing Request ID.")), [])
  /\ Relay.handler envLive postMalformed FetchThrows
     = Relay.handler envLive (post (JObj [])) FetchThrows.
Proof.
  destruct (malformed_body_is_empty_payload envLive postMalformed FetchThrows)
    as ((_ & _ & H0) & _ & _ & _ & H2).
  - reflexivity.
  - split; [reflexivity|].
    destruct H2 as [H2 _]; [reflexivity | reflexivity |].
    split; [reflexivity|]. split; [reflexivity|]. split; [reflexivity|].
    exact H0.
Defined.

(** Every amount of the static table is positive, and its keys are not
    empty. *)
Lemma pricingCents_known tier service cents :
  Tiered.pricingCents tier service = Some cents ->
  (cents =? 0) = false /\ (tier =? "")%string = false /\ (service =? "")%string = false.
Proof.
  unfold Tiered.pricingCents, Tiered.PRICING_CENTS. cbn [Tiered.assoc].
  repeat match goal with
         | |- context [(?k =? ?x)%string] =>
             is_var x; destruct (String.eqb_spec k x); subst; cbn [Tiered.assoc]
         end;
    intros H; inversion H; subst; repeat split.
Qed.

(** C3.  With tiered pricing enabled, a (vehicle tier, service level)
    pair of the static table and no price map configured, the line item
    is inline price data in usd whose unit amount is the table's cents
    value for the pair, and a request that passes validation sends
    exactly one session creation, carrying this line item.  The
    witness below is the example of the specification: 12900 cents,
    currency usd. *)
Theorem tiered_inline_price env rid tier service cents :
  Tiered.enableTiered env = true ->
  tieredPriceIds env = Blank ->
  Tiered.pricingCents tier service = Some cents ->
  Tiered.lineItem env rid service tier
  = inr [ ("line_items[0][price_data][currency]", "usd");
          ("line_items[0][price_data][unit_amount]", stringOfZ cents);
          ("line_items[0][price_data][product_data][name]", serviceName service);
          ("line_items[0][price_data][product_data][description]",
           Tiered.tierDescription tier rid);
          ("line_items[0][quantity]", "1") ]
  /\ forall event reply email h,
       httpMethod event = "POST" ->
       secretSet env = true ->
       ridOf event = Some rid ->
       validRid rid = true ->
       field1 (payloadOf (body event)) "email" = Some email ->
       serviceLevelOf event = Some service ->
       vehicleTierOf event = Some tier ->
       headers event = Some h ->
       truthyStr (originOf env h) = true ->
       snd (Tiered.handler env event reply)
       = [ StripeCreateSession (orElse (var env "STRIPE_SECRET_KEY") "")
             (Tiered.baseParams (orElse (var env "CHECKOUT_MODE") "payment")
                (orElse (originOf env h) "") rid service tier email
              ++ [ ("line_items[0][price_data][currency]", "usd");
                   ("line_items[0][price_data][unit_amount]", stringOfZ cents);
                   ("line_items[0][price_data][product_data][name]", serviceName service);
                   ("line_items[0][price_data][product_data][description]",
                    Tiered.tierDescription tier rid);
                   ("line_items[0][quantity]", "1") ]) ].
Proof.
  intros Hen Hmap Hcents.
  destruct (pricingCents_known _ _ _ Hcents) as (Hnz & Ht & Hs).
  assert (Hitem : Tiered.lineItem env rid service tier
                  = inr (Tiered.inlineItem "usd" cents (serviceName service)
                           (Tiered.tierDescription tier rid))).
  { unfold Tiered.lineItem, Tiered.mappedPriceId.
    rewrite Hen, Hmap, Ht, Hs, Hcents, Hnz. reflexivity. }
  split; [exact Hitem|].
  intros event reply email h Hm Hsec Hrid Hvalid Hemail Hsl Hvt Hh Horigin.
  unfold Tiered.handler.
  unfold secretSet in Hsec. unfold ridOf in Hrid.
  unfold serviceLevelOf in Hsl. unfold vehicleTierOf in Hvt. unfold originOf in Horigin.
  rewrite Hm, Hsec, Hrid, Hemail, Hsl, Hvt, Hh.
  change (negb ("POST" =? "POST")%string) with false. cbn iota. cbn [negb].
  rewrite Horigin, Hvalid. cbn [negb].
  assert (Hne : (rid =? "")%string = false).
  { destruct rid; [discriminate Hvalid | reflexivity]. }
  rewrite Hne. cbn [orb]. rewrite Hitem. reflexivity.
Qed.

Lemma tiered_inline_price_witness :
  snd (Tiered.handler envLive (post exampleOrder) FetchThrows)
  = [ StripeCreateSession "sk_test_1"
        [ ("mode", "payment");
          ("success_url",
           "https://vinvoyant.com/paid.html?session_id={CHECKOUT_SESSION_ID}&rid=VV-2024-00042");
          ("cancel_url", "https://vinvoyant.com/#start?canceled=1&rid=VV-2024-00042");
          ("metadata[rid]", "VV-2024-00042");
          ("metadata[service_level]", "brief_remote");
          ("metadata[vehicle_tier]", "tier_a");
          ("client_reference_id", "VV-2024-00042");
          ("line_items[0][price_data][currency]", "usd");
          ("line_items[0][price_data][unit_amount]", "12900");
          ("line_items[0][price_data][product_data][name]", "VINvoyant Brief (Remote)");
          ("line_items[0][price_data][product_data][description]",
           Tiered.tierDescription "tier_a" "VV-2024-00042");
          ("line_items[0][quantity]", "1") ] ].
Proof.
  apply (proj2 (tiered_inline_price envLive "VV-2024-00042" "tier_a" "brief_remote" 12900
                  eq_refl eq_refl eq_refl)
           (post exampleOrder) FetchThrows "" siteHeaders);
    reflexivity.
Defined.

End HttpClaims.

(** ** The DNS tool: what every run keeps *)

Module DnsExtra.

Import Js Dns DnsSpec DnsMore DnsFacts.

(** *** Invariants of a run *)

Section Invariant.

Variable script : nat -> Response.

(** A property of the state that printing keeps, that setting the exit
    code to an allowed value keeps, and that recording an allowed
    request keeps. *)
Variable P : State -> Prop.
Variable okCall : Call -> Prop.
Variable okExit : Z -> Prop.

Hypothesis P_output : forall st out,
  P st -> P (mkState (calls st) out (exitCode st)).
Hypothesis P_exit : forall st c,
  okExit c -> P st -> P (mkState (calls st) (output st) (Some c)).
Hypothesis P_call : forall st c,
  okCall c -> P st -> P (mkState (calls st ++ [c]) (output st) (exitCode st)).

Local Abbreviation keeps := (DnsMore.keeps P).

Lemma keeps_ret {A} (a : A) : keeps (ret a).
Proof. intros st H. exact H. Qed.

Lemma keeps_throw {A} e : keeps (@throw A e).
Proof. intros st H. exact H. Qed.

Lemma keeps_log msg : keeps (console_log msg).
Proof. intros st H. apply P_output, H. Qed.

Lemma keeps_error msg : keeps (console_error msg).
Proof. intros st H. apply P_output, H. Qed.

Lemma keeps_exit c : okExit c -> keeps (setExitCode c).
Proof. intros Hc st H. apply P_exit; assumption. Qed.

Lemma keeps_request token path method body :
  okCall (mkCall token method path body) ->
  keeps (netlifyRequest script token path method body).
Proof.
  intros Hc st H. rewrite netlifyRequest_state. apply P_call; assumption.
Qed.

Lemma keeps_bind {A B} (m : M A) (k : A -> M B) :
  keeps m -> (forall a, keeps (k a)) -> keeps (bind m k).
Proof.
  intros Hm Hk st H. unfold bind.
  specialize (Hm st H). destruct (m st) as [[a|e] st1]; cbn [snd] in *.
  - apply Hk, Hm.
  - exact Hm.
Qed.

Lemma keeps_forEach {A} (xs : list A) (f : A -> M unit) :
  (forall x, keeps (f x)) -> keeps (forEach xs f).
Proof.
  intros Hf. induction xs as [|x rest IH]; cbn [forEach].
  - apply keeps_ret.
  - apply keeps_bind; [apply Hf | intros _; exact IH].
Qed.

Lemma keeps_readArgValue args flag : keeps (readArgValue args flag).
Proof. intros st H. rewrite readArgValue_state. exact H. Qed.

Lemma keeps_asArray what method j : keeps (asArray what method j).
Proof. destruct j; cbn [asArray]; [apply keeps_ret | apply keeps_throw ..]. Qed.

Lemma keeps_upsert token zoneId desiredRecord force :
  okCall (listCall token zoneId) ->
  (force = true -> forall record, okCall (deleteCall token zoneId record)) ->
  okCall (createCall token zoneId desiredRecord) ->
  okExit 2 ->
  keeps (upsertRecord script token zoneId desiredRecord force).
Proof.
  intros Hlist Hdel Hcreate H2. unfold upsertRecord.
  apply keeps_bind; [apply keeps_request, Hlist|]. intros j.
  apply keeps_bind; [apply keeps_asArray|]. intros existing.
  destruct (existsb _ _); [apply keeps_log|].
  destruct (Nat.ltb 0 _) eqn:Hlen, force eqn:Hforce; cbn [andb negb].
  - apply keeps_bind.
    + apply keeps_bind; [|intros _; apply keeps_log].
      apply keeps_forEach. intros record.
      apply keeps_bind; [apply keeps_request, (Hdel eq_refl record) | intros _; apply keeps_ret].
    + intros _. apply keeps_bind; [apply keeps_request, Hcreate | intros _; apply keeps_log].
  - apply keeps_bind; [apply keeps_error | intros _; apply keeps_exit, H2].
  - apply keeps_bind; [apply keeps_ret|]. intros _.
    apply keeps_bind; [apply keeps_request, Hcreate | intros _; apply keeps_log].
  - apply keeps_bind; [apply keeps_ret|]. intros _.
    apply keeps_bind; [apply keeps_request, Hcreate | intros _; apply keeps_log].
Qed.

Lemma keeps_readSettings args env : okExit 2 -> keeps (readSettings args env).
Proof.
  intros H2. unfold readSettings.
  apply keeps_bind; [apply keeps_readArgValue|]. intros a.
  destruct (negb (truthyStr _)).
  { apply keeps_bind; [apply keeps_error|]. intros _.
    apply keeps_bind; [apply keeps_exit, H2 | intros _; apply keeps_ret]. }
  apply keeps_bind; [apply keeps_readArgValue|]. intros z.
  apply keeps_bind; [apply keeps_readArgValue|]. intros t.
  destruct (if isFiniteInt _ then _ else None) as [ttl|]; [|apply keeps_throw].
  destruct (ttl <=? 0); [apply keeps_throw|].
  apply keeps_bind; [apply keeps_readArgValue|]. intros ch.
  apply keeps_bind; [apply keeps_readArgValue|]. intros ct.
  apply keeps_bind; [apply keeps_readArgValue|]. intros th.
  apply keeps_bind; [apply keeps_readArgValue|]. intros tv.
  destruct (negb (truthyStr _)).
  { apply keeps_bind; [apply keeps_error|]. intros _.
    apply keeps_bind; [apply keeps_exit, H2 | intros _; apply keeps_ret]. }
  apply keeps_ret.
Qed.

Lemma keeps_applySettings s :
  okCall (zonesCall (s_authToken s)) ->
  (forall zoneId, okCall (listCall (s_authToken s) zoneId)) ->
  (s_force s = true -> forall zoneId record, okCall (deleteCall (s_authToken s) zoneId record)) ->
  (forall zoneId, okCall (createCall (s_authToken s) zoneId (cnameRecord s))) ->
  (forall zoneId, okCall (createCall (s_authToken s) zoneId (txtRecord s))) ->
  okExit 2 -> okExit 3 ->
  keeps (applySettings script s).
Proof.
  intros Hz Hl Hd Hc Ht H2 H3. unfold applySettings.
  apply keeps_bind; [apply keeps_request, Hz|]. intros j.
  apply keeps_bind; [apply keeps_asArray|]. intros zones.
  destruct (findZone _ _) as [zone|].
  - apply keeps_bind; [|intros _]; apply keeps_upsert; auto.
  - apply keeps_bind; [apply keeps_error | intros _; apply keeps_exit, H3].
Qed.

Lemma keeps_main args env :
  (forall token, okCall (zonesCall token)) ->
  (forall token zoneId, okCall (listCall token zoneId)) ->
  (hasFlag args "--force" = true ->
   forall token zoneId record, okCall (deleteCall token zoneId record)) ->
  (forall token zoneId d, okCall (createCall token zoneId d)) ->
  okExit 2 -> okExit 3 ->
  keeps (main script args env).
Proof.
  intros Hz Hl Hd Hc H2 H3. unfold main.
  destruct (hasFlag args "-h" || hasFlag args "--help")%bool; [apply keeps_log|].
  intros st Hst. unfold bind.
  pose proof (keeps_readSettings args env H2 st Hst) as Hs.
  destruct (readSettings args env st) as [[[s|]|e] st1] eqn:E; cbn [snd] in Hs;
    try exact Hs.
  apply keeps_applySettings; auto.
  intros Hf. apply Hd.
  destruct (readSettings_some _ _ _ _ _ E) as (_ & _ & _ & _ & Hforce).
  rewrite <- Hforce. exact Hf.
Qed.

End Invariant.

(** *** Exit codes *)

(** X1.  Whatever the command line, the environment and the provider,
    the process exits with one of the codes 0, 1, 2 and 3. *)
Theorem exit_code_is_documented script args env :
  documentedExit (processExit (run script args env)).
Proof.
  unfold run, documentedExit, processExit.
  assert (H : DnsMore.keeps exitSoFar (main script args env)).
  { apply (keeps_main script exitSoFar (fun _ => True) (fun c => c = 2 \/ c = 3));
      unfold exitSoFar; cbn; auto.
    intros st c [-> | ->] _; auto. }
  specialize (H initial (or_introl eq_refl)).
  destruct (main script args env initial) as [[[]|e] st]; cbn [snd exitCode] in *.
  - destruct H as [-> | [-> | ->]]; auto.
  - auto.
Qed.

(** *** Requests *)

(** X2.  Without the force flag on the command line, no run sends a
    delete request, whatever the provider answers. *)
Theorem no_delete_without_force script args env :
  hasFlag args "--force" = false ->
  Forall (fun c => c_method c <> DELETE) (calls (run script args env)).
Proof.
  intros Hf.
  assert (H : DnsMore.keeps (fun st => Forall (fun c => c_method c <> DELETE) (calls st))
                (main script args env)).
  { apply (keeps_main script _ (fun c => c_method c <> DELETE) (fun _ => True));
      cbn; auto; try discriminate.
    - intros st c Hc H. apply Forall_app. split; [exact H | constructor; [exact Hc | constructor]].
    - rewrite Hf. discriminate. }
  specialize (H initial (Forall_nil _)). unfold run.
  destruct (main script args env initial) as [[[]|e] st]; exact H.
Qed.

Lemma no_delete_without_force_witness :
  Forall (fun c => c_method c <> DELETE) (calls (run scriptBothStale argsPlain noEnv)).
Proof.
  apply (no_delete_without_force scriptBothStale argsPlain noEnv). reflexivity.
Defined.

(** X3.  A run whose settings cannot be read (a flag without value, no
    token, a TTL that is not a positive integer, no TXT value) sends no
    request at all. *)
Theorem settings_precede_requests script args env :
  (forall s, fst (readSettings args env initial) <> Ok (Some s)) ->
  calls (run script args env) = [].
Proof.
  intros Hnone. unfold run, main.
  destruct (hasFlag args "-h" || hasFlag args "--help")%bool; [reflexivity|].
  unfold bind.
  assert (H : DnsMore.keeps (fun st => calls st = []) (readSettings args env)).
  { apply (keeps_readSettings (fun st => calls st = []) (fun _ => True)); cbn; auto. }
  specialize (H initial eq_refl).
  destruct (readSettings args env initial) as [[[s|]|e] st]; cbn [snd fst] in *.
  - exfalso. apply (Hnone s). reflexivity.
  - exact H.
  - exact H.
Qed.

Lemma settings_precede_requests_witness :
  calls (run scriptAllGood argsBadTtl noEnv) = [].
Proof.
  apply (settings_precede_requests scriptAllGood argsBadTtl noEnv).
  intros s. cbn. discriminate.
Defined.

(** *** One attempt per request *)

Section FailFast.

Variable script : nat -> Response.

Local Abbreviation failsFast := (DnsMore.failsFast script).

(** A computation that sends nothing. *)
Lemma ff_silent {A} (m : M A) :
  (forall st, calls (snd (m st)) = calls st) -> failsFast m.
Proof.
  intros Hc st Hst n Hn. rewrite Hc in Hn. left. apply Hst, Hn.
Qed.

Lemma ff_request token path method body :
  failsFast (netlifyRequest script token path method body).
Proof.
  intros st Hst n Hn. rewrite netlifyRequest_state in *. cbn [calls] in *.
  rewrite length_app in *. cbn [length] in *.
  destruct (Nat.eq_dec n (length (calls st))) as [->|Hne].
  - unfold netlifyRequest.
    destruct (script (length (calls st))) eqn:E; cbn [fst].
    + right. split; [lia | eauto].
    + right. split; [lia | eauto].
    + left. exists j. exact E.
  - left. apply Hst. lia.
Qed.

Lemma ff_bind {A B} (m : M A) (k : A -> M B) :
  failsFast m -> (forall a, failsFast (k a)) -> failsFast (bind m k).
Proof.
  intros Hm Hk st Hst. specialize (Hm st Hst). unfold bind.
  destruct (m st) as [[a|e] st1]; cbn [fst snd] in *.
  - apply Hk. intros n Hn. destruct (Hm n Hn) as [H|[_ [e He]]]; [exact H | discriminate He].
  - intros n Hn. destruct (Hm n Hn) as [H|[Hl _]]; [left; exact H | right; eauto].
Qed.

Lemma ff_forEach {A} (xs : list A) (f : A -> M unit) :
  (forall x, failsFast (f x)) -> failsFast (forEach xs f).
Proof.
  intros Hf. induction xs as [|x rest IH]; cbn [forEach].
  - apply ff_silent. reflexivity.
  - apply ff_bind; [apply Hf | intros _; exact IH].
Qed.

Lemma ff_upsert token zoneId desiredRecord force :
  failsFast (upsertRecord script token zoneId desiredRecord force).
Proof.
  unfold upsertRecord.
  apply ff_bind; [apply ff_request|]. intros j.
  apply ff_bind; [apply ff_silent; intros st; destruct j; reflexivity|]. intros existing.
  destruct (existsb _ _); [apply ff_silent; reflexivity|].
  destruct (Nat.ltb 0 _ && negb force)%bool.
  { apply ff_bind; [|intros _]; apply ff_silent; reflexivity. }
  apply ff_bind.
  - destruct (Nat.ltb 0 _ && force)%bool; [|apply ff_silent; reflexivity].
    apply ff_bind; [|intros _; apply ff_silent; reflexivity].
    apply ff_forEach. intros record.
    apply ff_bind; [apply ff_request | intros _; apply ff_silent; reflexivity].
  - intros _. apply ff_bind; [apply ff_request | intros _; apply ff_silent; reflexivity].
Qed.

Lemma ff_applySettings s : failsFast (applySettings script s).
Proof.
  unfold applySettings.
  apply ff_bind; [apply ff_request|]. intros j.
  apply ff_bind; [apply ff_silent; intros st; destruct j; reflexivity|]. intros zones.
  destruct (findZone _ _).
  - apply ff_bind; [|intros _]; apply ff_upsert.
  - apply ff_bind; [|intros _]; apply ff_silent; reflexivity.
Qed.

Lemma ff_main args env : failsFast (main script args env).
Proof.
  unfold main.
  destruct (hasFlag args "-h" || hasFlag args "--help")%bool;
    [apply ff_silent; reflexivity|].
  apply ff_bind.
  - apply ff_silent. intros st.
    apply (keeps_readSettings (fun st' => calls st' = calls st) (fun _ => True));
      cbn; auto.
  - intros [s|]; [apply ff_applySettings | apply ff_silent; reflexivity].
Qed.

End FailFast.

(** X4.  No request is retried and none follows a failure: in every
    run, each request but the last one sent was answered with JSON, and
    a run in which some request was not exits with code 1. *)
Theorem no_request_after_a_failure script args env :
  (forall n, (S n < length (calls (run script args env)))%nat -> answered script n)
  /\ (forall n, (n < length (calls (run script args env)))%nat ->
              ~ answered script n ->
              processExit (run script args env) = 1).
Proof.
  pose proof (ff_main script args env initial) as H.
  assert (H0 : allAnswered script initial) by (intros n Hn; cbn in Hn; lia).
  specialize (H H0). unfold run.
  destruct (main script args env initial) as [[[]|e] st]; cbn [fst snd calls] in *.
  - split.
    + intros n Hn. destruct (H n) as [Ha|[_ [e He]]]; [lia | exact Ha | discriminate He].
    + intros n Hn Hno. destruct (H n Hn) as [Ha|[_ [e He]]];
        [contradiction | discriminate He].
  - split.
    + intros n Hn. destruct (H n) as [Ha|[Hl _]]; [lia | exact Ha | lia].
    + intros n Hn Hno. reflexivity.
Qed.

Lemma no_request_after_a_failure_witness :
  length (calls (run scriptListingFails argsPlain noEnv)) = 2%nat
  /\ processExit (run scriptListingFails argsPlain noEnv) = 1.
Proof.
  split; [reflexivity|].
  apply (proj2 (no_request_after_a_failure scriptListingFails argsPlain noEnv) 1%nat).
  - apply Nat.ltb_lt. reflexivity.
  - intros [j Hj]. discriminate Hj.
Defined.

(** *** Early exits *)

Lemma readArgValue_pure args flag st :
  readArgValue args flag st = (fst (readArgValue args flag initial), st).
Proof.
  unfold readArgValue.
  destruct (afterFlag args flag) as [[|v rest]|]; try reflexivity.
  destruct ((v =? "")%string || startsWith v "--")%bool; reflexivity.
Qed.

(** X5.  A run with no [--auth-token] option and no token in the
    environment prints the missing-token message, exits with code 2 and
    sends no request (unless help was asked for). *)
Theorem missing_token_exits_2 script args env :
  hasFlag args "-h" = false ->
  hasFlag args "--help" = false ->
  afterFlag args "--auth-token" = None ->
  truthyStr (NETLIFY_AUTH_TOKEN env) = false ->
  run script args env
  = mkState []
      [(Stderr, "Missing Netlify auth token. Set NETLIFY_AUTH_TOKEN or pass --auth-token.")]
      (Some 2).
Proof.
  intros H1 H2 Hflag Henv. unfold run, main. rewrite H1, H2. cbn [orb].
  unfold bind at 1, readSettings, bind at 1, readArgValue. rewrite Hflag.
  cbn [ret orStr truthyStr]. rewrite Henv. reflexivity.
Qed.

Lemma missing_token_exits_2_witness :
  run scriptAllGood ["--txt-value"; "token-1"] noEnv
  = mkState []
      [(Stderr, "Missing Netlify auth token. Set NETLIFY_AUTH_TOKEN or pass --auth-token.")]
      (Some 2).
Proof.
  apply (missing_token_exits_2 scriptAllGood ["--txt-value"; "token-1"] noEnv); reflexivity.
Defined.

(** X6.  With a token, a [--ttl] value that does not start with a
    positive decimal integer ends the run before any request: the
    process prints the TTL message and exits with code 1. *)
Theorem invalid_ttl_exits_1 script args env a z t :
  hasFlag args "-h" = false ->
  hasFlag args "--help" = false ->
  fst (readArgValue args "--auth-token" initial) = Ok a ->
  truthyStr (orStr a (NETLIFY_AUTH_TOKEN env)) = true ->
  fst (readArgValue args "--zone" initial) = Ok z ->
  fst (readArgValue args "--ttl" initial) = Ok (Some t) ->
  (parseInt10 t = None \/ exists n, parseInt10 t = Some n /\ n <= 0) ->
  run script args env
  = mkState [] [(Stderr, "Invalid --ttl value (must be a positive integer).")] (Some 1).
Proof.
  intros H1 H2 Ha Htok Hz Ht Hbad. unfold run, main. rewrite H1, H2. cbn [orb].
  unfold bind at 1, readSettings.
  unfold bind at 1. rewrite readArgValue_pure, Ha, Htok. cbn [negb].
  unfold bind at 1. rewrite readArgValue_pure, Hz.
  unfold bind at 1. rewrite readArgValue_pure, Ht.
  assert (Hne : (t =? "")%string = false).
  { unfold readArgValue in Ht.
    destruct (afterFlag args "--ttl") as [[|v rest]|]; try discriminate Ht.
    destruct (v =? "")%string eqn:Hv; cbn [orb] in Ht; [discriminate Ht|].
    destruct (startsWith v "--"); [discriminate Ht|].
    cbn in Ht. inversion Ht. subst. exact Hv. }
  cbn [orElse]. rewrite Hne.
  destruct Hbad as [Hnan|[n [Hn Hle]]].
  - rewrite Hnan. reflexivity.
  - rewrite Hn. cbn [isFiniteInt].
    destruct (Z.abs n <? infinityFrom); [|reflexivity].
    apply Z.leb_le in Hle. rewrite Hle. reflexivity.
Qed.

Lemma invalid_ttl_exits_1_witness :
  run scriptAllGood argsBadTtl noEnv
  = mkState [] [(Stderr, "Invalid --ttl value (must be a positive integer).")] (Some 1).
Proof.
  apply (invalid_ttl_exits_1 scriptAllGood argsBadTtl noEnv (Some "tok") None "soon");
    try reflexivity.
  left. reflexivity.
Defined.

(** X7.  When the provider's zones hold none whose name, less a
    trailing dot, is the requested zone name, the run sends the zones
    listing and nothing else, prints the zone message and exits with
    code 3. *)
Theorem unknown_zone_exits_3 script args env s zones :
  hasFlag args "-h" = false ->
  hasFlag args "--help" = false ->
  readSettings args env initial = (Ok (Some s), initial) ->
  script 0%nat = OkJson (JArray zones) ->
  findZone (s_zoneName s) zones = None ->
  run script args env
  = mkState [zonesCall (s_authToken s)]
      [(Stderr, "DNS zone not found in Netlify DNS: " ++ s_zoneName s
         ++ ". The domain's DNS must be hosted on Netlify DNS to apply records from this environment.")]
      (Some 3).
Proof.
  intros H1 H2 Hs Hz Hnone. unfold run.
  rewrite (main_settings script _ _ _ H1 H2 Hs).
  unfold applySettings. unfold bind at 1.
  rewrite (netlifyRequest_ok script _ _ _ _ initial _ Hz).
  unfold bind at 1. cbn [asArray ret]. rewrite Hnone. reflexivity.
Qed.

Lemma unknown_zone_exits_3_witness :
  run scriptAllGood argsOtherZone noEnv
  = mkState [zonesCall "tok"]
      [(Stderr, "DNS zone not found in Netlify DNS: example.org. The domain's DNS must be hosted on Netlify DNS to apply records from this environment.")]
      (Some 3).
Proof.
  apply (unknown_zone_exits_3 scriptAllGood argsOtherZone noEnv
           (mkSettings "tok" "example.org" 300 "pay" "hosted-checkout.stripecdn.com"
                       "_acme-challenge.pay" "token-1" false)
           [zone1]); reflexivity.
Defined.

(** *** One upsert *)

Lemma bind_cong {A B} (m : M A) (k1 k2 : A -> M B) st :
  (forall a st1, m st = (Ok a, st1) -> k1 a st1 = k2 a st1) ->
  bind m k1 st = bind m k2 st.
Proof.
  intros H. unfold bind. destruct (m st) as [[a|e] st1]; [apply H|]; reflexivity.
Qed.

(** X8.  An upsert that finds no record with the desired type and host
    name lists the records and creates the desired one, with or without
    the force flag; it prints the creation and leaves the exit code
    alone. *)
Theorem absent_record_is_created script token zoneId desiredRecord force st existing j :
  script (length (calls st)) = OkJson (JArray existing) ->
  matchesOf desiredRecord existing = [] ->
  script (S (length (calls st))) = OkJson j ->
  upsertRecord script token zoneId desiredRecord force st
  = (Ok tt,
     mkState (calls st ++ [listCall token zoneId; createCall token zoneId desiredRecord])
             (output st
              ++ [(Stdout, "Created: " ++ d_type desiredRecord ++ " "
                           ++ d_hostname desiredRecord ++ " -> "
                           ++ redactValue (d_type desiredRecord) (d_value desiredRecord))])
             (exitCode st)).
Proof.
  intros Hs Hnone Hj. unfold upsertRecord. unfold bind at 1.
  rewrite (netlifyRequest_ok script _ _ _ _ _ _ Hs). unfold bind at 1. cbn [asArray ret].
  unfold matchesOf in Hnone. rewrite Hnone. cbn [existsb length Nat.ltb Nat.leb andb].
  unfold bind at 1 2. cbn [ret].
  rewrite netlifyRequest_ok with (j := j).
  - unfold console_log. cbn [calls output exitCode]. rewrite <- app_assoc. reflexivity.
  - cbn [calls]. rewrite length_app, Nat.add_comm. exact Hj.
Qed.

Lemma absent_record_is_created_witness :
  upsertRecord scriptEmptyZone "tok" "z1" (txtRecord settingsPlain) false
    (mkState [zonesCall "tok"] [] None)
  = (Ok tt,
     mkState [zonesCall "tok"; listCall "tok" "z1";
              createCall "tok" "z1" (txtRecord settingsPlain)]
             [(Stdout, "Created: TXT _acme-challenge.pay -> (redacted)")]
             None).
Proof.
  apply (absent_record_is_created scriptEmptyZone "tok" "z1" (txtRecord settingsPlain) false
           (mkState [zonesCall "tok"] [] None) [otherRecord] (JArray [otherRecord]));
    reflexivity.
Defined.

(** X9.  The force flag changes nothing unless the record conflicts:
    when the listing holds the desired value, or no record of the
    desired type and host name, the forced and the unforced upsert do
    the same. *)
Theorem force_only_matters_on_conflict script token zoneId desiredRecord st :
  (forall existing,
     script (length (calls st)) = OkJson (JArray existing) ->
     conflicting desiredRecord existing = false) ->
  upsertRecord script token zoneId desiredRecord true st
  = upsertRecord script token zoneId desiredRecord false st.
Proof.
  intros Hno. unfold upsertRecord.
  apply bind_cong. intros j st1 E. apply netlifyRequest_inv in E.
  apply bind_cong. intros existing st2 Ea.
  destruct j as [items| |]; cbn [asArray] in Ea; try discriminate Ea.
  unfold ret in Ea. inversion Ea; subst; clear Ea.
  specialize (Hno existing E). unfold conflicting, alreadySet, matchesOf in Hno.
  destruct (existsb _ (filter (matchesDesired desiredRecord) existing)); [reflexivity|].
  cbn [negb] in Hno. rewrite andb_true_r in Hno. rewrite Hno. reflexivity.
Qed.

Lemma force_only_matters_on_conflict_witness :
  upsertRecord scriptEmptyZone "tok" "z1" (txtRecord settingsPlain) true
    (mkState [zonesCall "tok"] [] None)
  = upsertRecord scriptEmptyZone "tok" "z1" (txtRecord settingsPlain) false
      (mkState [zonesCall "tok"] [] None).
Proof.
  apply (force_only_matters_on_conflict scriptEmptyZone "tok" "z1" (txtRecord settingsPlain)
           (mkState [zonesCall "tok"] [] None)).
  intros existing H. cbn in H. injection H as <-. reflexivity.
Defined.

(** X10.  The TTL takes no part in the decision: two upserts that
    differ in the desired TTL only end with the same result, print the
    same lines, leave the same exit code and send equally many
    requests. *)
Theorem ttl_never_decides script token zoneId desiredRecord ttl force st :
  let r1 := upsertRecord script token zoneId desiredRecord force st in
  let r2 := upsertRecord script token zoneId (withTtl desiredRecord ttl) force st in
  fst r1 = fst r2
  /\ output (snd r1) = output (snd r2)
  /\ exitCode (snd r1) = exitCode (snd r2)
  /\ length (calls (snd r1)) = length (calls (snd r2)).
Proof.
  cbn zeta.
  destruct (agree_upsert script token token zoneId desiredRecord
              (withTtl desiredRecord ttl) force st st) as [Hr (Hc & Ho & He)];
    try reflexivity.
  - apply alike_refl.
  - repeat split; assumption.
Qed.

(** *** Zone names and options *)

Lemma rev_string_app a b : rev_string (a ++ b) = rev_string b ++ rev_string a.
Proof.
  induction a as [|c a IH]; cbn [rev_string append].
  - induction (rev_string b) as [|x r IHr]; [reflexivity | cbn; rewrite <- IHr; reflexivity].
  - rewrite IH. clear IH.
    induction (rev_string b) as [|x r IHr]; [reflexivity | cbn; rewrite IHr; reflexivity].
Qed.

Lemma substring_prefix a b : substring 0 (String.length a) (a ++ b) = a.
Proof.
  induction a as [|c a IH]; cbn.
  - destruct b; reflexivity.
  - rewrite IH. reflexivity.
Qed.

Lemma length_snoc_dot a : (String.length (a ++ ".") - 1)%nat = String.length a.
Proof.
  induction a as [|c a IH]; [reflexivity|].
  cbn [append String.length]. rewrite Nat.sub_1_r in *. cbn [Nat.pred].
  destruct (a ++ ".") eqn:E.
  - destruct a; discriminate E.
  - cbn [String.length Nat.pred] in IH. cbn [String.length]. rewrite IH. reflexivity.
Qed.

(** X11.  A zone name with one trailing dot names the same zone as the
    name without it: the dot is dropped, so a zone the provider lists
    as [name.] is found under [name]. *)
Theorem trailing_dot_names_the_same_zone zoneName :
  normalizeZoneName (zoneName ++ ".") = zoneName
  /\ forall zone rest,
       name zone = zoneName ++ "." ->
       findZone zoneName (zone :: rest) = Some zone.
Proof.
  assert (H : normalizeZoneName (zoneName ++ ".") = zoneName).
  { unfold normalizeZoneName, endsWith. rewrite rev_string_app.
    cbn [rev_string append String.prefix]. destruct (ascii_dec "." "."); [|contradiction].
    rewrite length_snoc_dot.
    replace (String.prefix "" (rev_string zoneName)) with true
      by (destruct (rev_string zoneName); reflexivity).
    apply substring_prefix. }
  split; [exact H|].
  intros zone rest Hn. unfold findZone. cbn [find]. rewrite Hn, H, String.eqb_refl.
  reflexivity.
Qed.

Lemma afterFlag_first pre flag rest :
  Forall (fun a => a <> flag) pre ->
  afterFlag (pre ++ flag :: rest) flag = Some rest.
Proof.
  induction 1 as [|a pre Ha _ IH]; cbn [app afterFlag].
  - rewrite String.eqb_refl. reflexivity.
  - apply String.eqb_neq in Ha. rewrite Ha. exact IH.
Qed.

(** X12.  An option is read at its first occurrence: the argument that
    follows it is its value when it is not empty and does not start
    with two dashes, and reading throws when that argument starts with
    two dashes or is missing.  Reading leaves the state alone. *)
Theorem option_is_read_at_first_occurrence pre flag st :
  Forall (fun a => a <> flag) pre ->
  (forall v post,
     v <> "" -> startsWith v "--" = false ->
     readArgValue (pre ++ flag :: v :: post) flag st = (Ok (Some v), st))
  /\ (forall v post,
       startsWith v "--" = true ->
       readArgValue (pre ++ flag :: v :: post) flag st
       = (Throw (newError ("Missing value for " ++ flag)), st))
  /\ readArgValue (pre ++ [flag]) flag st
     = (Throw (newError ("Missing value for " ++ flag)), st)
  /\ readArgValue pre flag st = (Ok None, st).
Proof.
  intros Hpre. unfold readArgValue. repeat split.
  - intros v post Hv Hd. rewrite (afterFlag_first _ _ _ Hpre).
    apply String.eqb_neq in Hv. rewrite Hv, Hd. reflexivity.
  - intros v post Hd. rewrite (afterFlag_first _ _ _ Hpre).
    rewrite Hd, orb_true_r. reflexivity.
  - rewrite (afterFlag_first _ _ _ Hpre). reflexivity.
  - assert (H : afterFlag pre flag = None).
    { induction Hpre as [|a pre Ha _ IH]; [reflexivity|].
      cbn [afterFlag]. apply String.eqb_neq in Ha. rewrite Ha. exact IH. }
    rewrite H. reflexivity.
Qed.

Lemma option_is_read_at_first_occurrence_witness :
  readArgValue ["--force"; "--zone"; "a.example"; "--zone"; "b.example"] "--zone" initial
  = (Ok (Some "a.example"), initial).
Proof.
  destruct (option_is_read_at_first_occurrence ["--force"] "--zone" initial) as [H _].
  - constructor; [discriminate | constructor].
  - apply (H "a.example" ["--zone"; "b.example"]); [discriminate | reflexivity].
Defined.

(** *** Where the requests go *)

Lemma run_calls script args env :
  calls (run script args env) = calls (snd (main script args env initial)).
Proof.
  unfold run. destruct (main script args env initial) as [[[]|e] st]; reflexivity.
Qed.

Lemma Forall_snoc {A} (Q : A -> Prop) xs x :
  Forall Q xs -> Q x -> Forall Q (xs ++ [x]).
Proof.
  intros H Hx. apply Forall_app. split; [exact H | constructor; [exact Hx | constructor]].
Qed.

(** X13.  Every request of a run carries the token of the settings, and
    every request after the zones listing goes to the records of the
    zone that the listing holds under the requested name. *)
Theorem requests_stay_in_the_zone script args env s :
  hasFlag args "-h" = false ->
  hasFlag args "--help" = false ->
  readSettings args env initial = (Ok (Some s), initial) ->
  Forall (inFoundZone script s) (calls (run script args env)).
Proof.
  intros H1 H2 Hs. rewrite run_calls, (main_settings script _ _ _ H1 H2 Hs).
  assert (Hz : inFoundZone script s (zonesCall (s_authToken s))).
  { split; [reflexivity | left; reflexivity]. }
  unfold applySettings. unfold bind at 1. unfold netlifyRequest at 1.
  cbn [calls initial length app output exitCode].
  fold (zonesCall (s_authToken s)).
  destruct (script 0%nat) as [e|status statusText text|j] eqn:E0; cbn [snd calls];
    try (constructor; [exact Hz | constructor]).
  unfold bind at 1.
  destruct j as [zones| |]; cbn [asArray ret throw snd calls];
    try (constructor; [exact Hz | constructor]).
  destruct (findZone (s_zoneName s) zones) as [zone|] eqn:Ef;
    [|cbn; constructor; [exact Hz | constructor]].
  assert (Hin : forall c, c_token c = s_authToken s -> inZone (id zone) c ->
                          inFoundZone script s c).
  { intros c Ht Hc. split; [exact Ht|]. right. exists zones, zone. auto. }
  apply (keeps_bind (fun st => Forall (inFoundZone script s) (calls st)));
    [|intros _| cbn; constructor; [exact Hz | constructor]];
    apply (keeps_upsert script (fun st => Forall (inFoundZone script s) (calls st))
             (inFoundZone script s) (fun _ => True));
    cbn [calls]; auto;
    try (intros st c Hc H; apply Forall_snoc; assumption);
    try (apply Hin; [reflexivity | left; reflexivity]).
  - intros _ record. apply Hin; [reflexivity | right; eexists; reflexivity].
  - intros _ record. apply Hin; [reflexivity | right; eexists; reflexivity].
Qed.

Lemma requests_stay_in_the_zone_witness :
  Forall (inFoundZone scriptBothStale settingsPlain)
         (calls (run scriptBothStale argsPlain noEnv)).
Proof.
  apply (requests_stay_in_the_zone scriptBothStale argsPlain noEnv settingsPlain);
    reflexivity.
Defined.

(** X14.  The only requests with a body are creations, and what a run
    creates is one of its two desired records: the CNAME record or the
    TXT record of the settings, whose TTL is positive and whose TXT
    value is not empty. *)
Theorem run_creates_only_the_desired_records script args env s :
  hasFlag args "-h" = false ->
  hasFlag args "--help" = false ->
  readSettings args env initial = (Ok (Some s), initial) ->
  Forall (createsDesired s) (calls (run script args env))
  /\ 0 < s_ttl s /\ s_txtValue s <> "".
Proof.
  intros H1 H2 Hs. split.
  - rewrite run_calls, (main_settings script _ _ _ H1 H2 Hs).
    apply (keeps_applySettings script (fun st => Forall (createsDesired s) (calls st))
             (createsDesired s) (fun _ => True));
      cbn [calls]; auto;
      try (intros st c Hc H; apply Forall_snoc; assumption);
      try (intros; unfold createsDesired; cbn; auto; discriminate).
  - destruct (readSettings_some _ _ _ _ _ Hs) as (_ & _ & Htxt & Httl & _). auto.
Qed.

Lemma run_creates_only_the_desired_records_witness :
  calls (run scriptEmptyZone argsPlain noEnv)
  = [ zonesCall "tok";
      listCall "tok" "z1"; createCall "tok" "z1" (cnameRecord settingsPlain);
      listCall "tok" "z1"; createCall "tok" "z1" (txtRecord settingsPlain) ]
  /\ Forall (createsDesired settingsPlain) (calls (run scriptEmptyZone argsPlain noEnv))
  /\ 0 < s_ttl settingsPlain /\ s_txtValue settingsPlain <> "".
Proof.
  split; [reflexivity|].
  apply (run_creates_only_the_desired_records scriptEmptyZone argsPlain noEnv settingsPlain);
    reflexivity.
Defined.

End DnsExtra.

(** ** The handlers: what every invocation keeps *)

Module HttpExtra.

Import Js Http HttpSpec HttpMore.

(** Case analysis on the next test of a handler, keeping the equations. *)
Ltac split_test :=
  match goal with
  | |- context [if ?c then _ else _] => destruct c eqn:?
  | |- context [match ?x with _ => _ end] => destruct x eqn:?
  end.

Ltac split_tests := repeat (split_test; cbn [fst snd app]).

Lemma method_is s m : negb (s =? m)%string = false -> s = m.
Proof. intros H. apply negb_false_iff, String.eqb_eq in H. exact H. Qed.

Lemma secret_is_set env :
  negb (truthyStr (var env "STRIPE_SECRET_KEY")) = false -> secretSet env = true.
Proof. intros H. apply negb_false_iff in H. exact H. Qed.

(** X15.  No handler sends an outbound request unless the secret key is
    configured and the method is POST (or GET, for the fetcher). *)
Theorem outbound_needs_method_and_secret env event reply :
  (snd (Fetcher.handler env event reply) <> [] ->
   secretSet env = true /\ (httpMethod event = "GET" \/ httpMethod event = "POST"))
  /\ (snd (Tiered.handler env event reply) <> [] ->
      secretSet env = true /\ httpMethod event = "POST")
  /\ (snd (Legacy.handler env event reply) <> [] ->
      secretSet env = true /\ httpMethod event = "POST")
  /\ (snd (Relay.handler env event reply) <> [] ->
      secretSet env = true /\ httpMethod event = "POST").
Proof.
  repeat split.
  - revert H. unfold Fetcher.handler.
    destruct (negb (httpMethod event =? "GET")%string
              && negb (httpMethod event =? "POST")%string)%bool;
      [intros H; exfalso; apply H; reflexivity|].
    destruct (negb (truthyStr (var env "STRIPE_SECRET_KEY"))) eqn:Hs;
      [intros H; exfalso; apply H; reflexivity|].
    intros _. apply secret_is_set, Hs.
  - revert H. unfold Fetcher.handler.
    destruct (negb (httpMethod event =? "GET")%string) eqn:Hg;
      destruct (negb (httpMethod event =? "POST")%string) eqn:Hp; cbn [andb];
      try (intros H; exfalso; apply H; reflexivity);
      intros _; auto using method_is.
  - revert H. unfold Tiered.handler.
    destruct (negb (httpMethod event =? "POST")%string);
      [intros H; exfalso; apply H; reflexivity|].
    destruct (negb (truthyStr (var env "STRIPE_SECRET_KEY"))) eqn:Hs;
      [intros H; exfalso; apply H; reflexivity|].
    intros _. apply secret_is_set, Hs.
  - revert H. unfold Tiered.handler.
    destruct (negb (httpMethod event =? "POST")%string) eqn:Hp;
      [intros H; exfalso; apply H; reflexivity|].
    intros _. apply method_is, Hp.
  - revert H. unfold Legacy.handler.
    destruct (negb (httpMethod event =? "POST")%string);
      [intros H; exfalso; apply H; reflexivity|].
    destruct (negb (truthyStr (var env "STRIPE_SECRET_KEY"))) eqn:Hs;
      [intros H; exfalso; apply H; reflexivity|].
    intros _. apply secret_is_set, Hs.
  - revert H. unfold Legacy.handler.
    destruct (negb (httpMethod event =? "POST")%string) eqn:Hp;
      [intros H; exfalso; apply H; reflexivity|].
    intros _. apply method_is, Hp.
  - revert H. unfold Relay.handler.
    destruct (negb (httpMethod event =? "POST")%string);
      [intros H; exfalso; apply H; reflexivity|].
    destruct (negb (truthyStr (var env "STRIPE_SECRET_KEY"))) eqn:Hs;
      [intros H; exfalso; apply H; reflexivity|].
    intros _. apply secret_is_set, Hs.
  - revert H. unfold Relay.handler.
    destruct (negb (httpMethod event =? "POST")%string) eqn:Hp;
      [intros H; exfalso; apply H; reflexivity|].
    intros _. apply method_is, Hp.
Qed.

(** X16.  One attempt per invocation: the fetcher, the legacy creator
    and the relay each send at most one request to the payments API,
    with the configured secret key, and the relay at most one form
    submission, after the session fetch.  So does the tiered creator on
    a selection of the static table or with tiered pricing off. *)
Theorem one_attempt_per_invocation env event reply :
  (snd (Fetcher.handler env event reply) = []
   \/ exists sessionId,
        snd (Fetcher.handler env event reply) = [StripeGetSession (secretOf env) sessionId])
  /\ (tableSelection env event ->
      snd (Tiered.handler env event reply) = []
      \/ exists params,
           snd (Tiered.handler env event reply) = [StripeCreateSession (secretOf env) params])
  /\ (snd (Legacy.handler env event reply) = []
      \/ exists params,
           snd (Legacy.handler env event reply) = [StripeCreateSession (secretOf env) params])
  /\ (snd (Relay.handler env event reply) = []
      \/ exists sessionId,
           snd (Relay.handler env event reply) = [StripeGetSession (secretOf env) sessionId]
           \/ exists url params,
                snd (Relay.handler env event reply)
                = [StripeGetSession (secretOf env) sessionId; FormPost url params]).
Proof.
  unfold secretOf. repeat split.
  - unfold Fetcher.handler. split_tests; eauto.
  - intros _. unfold Tiered.handler. split_tests; eauto.
  - unfold Legacy.handler. split_tests; eauto.
  - unfold Relay.handler. split_tests; eauto 6.
Qed.

(** *** Trimmed strings *)

Lemma trimEnd_idem s : trimEnd (trimEnd s) = trimEnd s.
Proof.
  induction s as [|c rest IH]; [reflexivity|].
  cbn [trimEnd]. destruct (trimEnd rest) as [|k kept] eqn:E.
  - destruct (isWhiteSpace c) eqn:Hc; [reflexivity|].
    cbn [trimEnd]. rewrite Hc. reflexivity.
  - cbn [trimEnd]. cbn [trimEnd] in IH. rewrite IH. reflexivity.
Qed.

Lemma trimStart_headOk s : headOk (trimStart s).
Proof.
  induction s as [|c rest IH]; [exact I|].
  cbn [trimStart]. destruct (isWhiteSpace c) eqn:Hc; [exact IH | exact Hc].
Qed.

Lemma trimEnd_headOk s : headOk s -> headOk (trimEnd s).
Proof.
  destruct s as [|c rest]; [intros _; exact I|].
  cbn [headOk trimEnd]. intros Hc.
  destruct (trimEnd rest); [rewrite Hc|]; exact Hc.
Qed.

Lemma trimStart_fixed s : headOk s -> trimStart s = s.
Proof.
  destruct s as [|c rest]; [reflexivity|].
  cbn [headOk trimStart]. intros Hc. rewrite Hc. reflexivity.
Qed.

Lemma trim_idem s : trim (trim s) = trim s.
Proof.
  unfold trim.
  rewrite (trimStart_fixed (trimEnd (trimStart s))).
  - apply trimEnd_idem.
  - apply trimEnd_headOk, trimStart_headOk.
Qed.

(** What the handlers read is trimmed. *)
Lemma field2_trimmed payload k1 k2 s : field2 payload k1 k2 = Some s -> trim s = s.
Proof.
  unfold field2.
  destruct (getProp payload k1), (getProp payload k2); try discriminate.
  destruct (jsString _); try discriminate.
  intros H. inversion H. apply trim_idem.
Qed.

Lemma field1_trimmed payload k s : field1 payload k = Some s -> trim s = s.
Proof.
  unfold field1.
  destruct (getProp payload k); try discriminate.
  destruct (jsString _); try discriminate.
  intros H. inversion H. apply trim_idem.
Qed.

(** *** The form submission *)

Lemma appendField_grows p k v p' :
  Relay.appendField p k v = Some p' ->
  (forall x, In x p -> In x p')
  /\ (Forall allowedField p -> In k formFields -> Forall allowedField p').
Proof.
  unfold Relay.appendField.
  destruct (nullish v); [intros H; inversion H; subst; auto|].
  destruct (jsString v) as [r|]; [|discriminate].
  destruct (trim r =? "")%string; intros H; inversion H; subst; auto.
  split.
  - intros x Hx. apply in_or_app. left. exact Hx.
  - intros Hp Hk. apply Forall_app. split; [exact Hp|].
    constructor; [exact Hk | constructor].
Qed.

Lemma append_grows p k v p' :
  Relay.append p k v = Some p' ->
  (forall x, In x p -> In x p')
  /\ (Forall allowedField p -> In k formFields -> Forall allowedField p').
Proof.
  unfold Relay.append.
  destruct (jsString v) as [r|]; [|discriminate].
  intros H; inversion H; subst. split.
  - intros x Hx. apply in_or_app. left. exact Hx.
  - intros Hp Hk. apply Forall_app. split; [exact Hp|].
    constructor; [exact Hk | constructor].
Qed.

Lemma appendAll_grows k values : forall p p',
  Relay.appendAll p k values = Some p' ->
  (forall x, In x p -> In x p')
  /\ (Forall allowedField p -> In k formFields -> Forall allowedField p').
Proof.
  induction values as [|d rest IH]; intros p p' H; cbn [Relay.appendAll] in H.
  - inversion H; subst. auto.
  - unfold Relay.andThen in H.
    destruct (Relay.appendField p k d) as [q|] eqn:E; [|discriminate H].
    destruct (appendField_grows _ _ _ _ E) as [Hin Hall].
    destruct (IH _ _ H) as [Hin' Hall']. split; auto.
Qed.

Lemma appendField_adds p k s :
  trim s <> "" ->
  Relay.appendField p k (JStr s) = Some (p ++ [(k, s)])%list.
Proof.
  intros H. unfold Relay.appendField. cbn [nullish jsString].
  apply String.eqb_neq in H. rewrite H. reflexivity.
Qed.

(** The form body, once built: its fields are the allowed ones, and it
    holds the request id and the paid marker. *)
Lemma formParams_built payload session sessionId requestId built :
  trim requestId <> "" ->
  Relay.formParams payload session sessionId requestId = Some built ->
  Forall allowedField built
  /\ In ("request_id", requestId) built
  /\ In ("paid_confirmed", "true") built.
Proof.
  intros Hrid. unfold Relay.formParams, Relay.andThen.
  destruct (Relay.appendField [("form-name", "vinvoyant_intake")] "source" _)
    as [p1|] eqn:E1; [|discriminate].
  rewrite (appendField_adds p1 "request_id" requestId Hrid).
  destruct (Relay.appendField _ "name" _) as [p3|] eqn:E3; [|discriminate].
  destruct (Relay.appendField _ "email" _) as [p4|] eqn:E4; [|discriminate].
  destruct (Relay.appendField _ "vin" _) as [p5|] eqn:E5; [|discriminate].
  destruct (Relay.appendField _ "goal" _) as [p6|] eqn:E6; [|discriminate].
  destruct (Relay.appendField _ "service_level" _) as [p7|] eqn:E7; [|discriminate].
  destruct (Relay.appendField _ "vehicle_tier" _) as [p8|] eqn:E8; [|discriminate].
  destruct (Relay.appendField _ "symptoms" _) as [p9|] eqn:E9; [|discriminate].
  destruct (Relay.appendField _ "dtc_codes" _) as [p10|] eqn:E10; [|discriminate].
  destruct (Relay.appendField _ "evidence_links" _) as [p11|] eqn:E11; [|discriminate].
  destruct (Relay.appendAll _ "deliverables" _) as [p12|] eqn:E12; [|discriminate].
  destruct (Relay.append _ "payment_reference" _) as [p13|] eqn:E13; [|discriminate].
  intros E14.
  apply appendField_grows in E1, E3, E4, E5, E6, E7, E8, E9, E10, E11, E14.
  apply appendAll_grows in E12. apply append_grows in E13.
  destruct E1 as [I1 A1], E3 as [I3 A3], E4 as [I4 A4], E5 as [I5 A5], E6 as [I6 A6],
    E7 as [I7 A7], E8 as [I8 A8], E9 as [I9 A9], E10 as [I10 A10], E11 as [I11 A11],
    E12 as [I12 A12], E13 as [I13 A13], E14 as [I14 A14].
  assert (Hf : forall k, In k formFields -> In k formFields) by auto.
  split; [|split].
  - apply A14; [|cbn; tauto]. apply A13; [|cbn; tauto].
    apply Forall_app. split; [|constructor; [cbn; tauto | constructor]].
    apply A12; [|cbn; tauto]. apply A11; [|cbn; tauto]. apply A10; [|cbn; tauto].
    apply A9; [|cbn; tauto]. apply A8; [|cbn; tauto]. apply A7; [|cbn; tauto].
    apply A6; [|cbn; tauto]. apply A5; [|cbn; tauto]. apply A4; [|cbn; tauto].
    apply A3; [|cbn; tauto].
    apply Forall_app. split; [|constructor; [cbn; tauto | constructor]].
    apply A1; [|cbn; tauto]. constructor; [cbn; tauto | constructor].
  - apply I14, I13, in_or_app. left.
    apply I12, I11, I10, I9, I8, I7, I6, I5, I4, I3, in_or_app. right. left. reflexivity.
  - apply I14, I13, in_or_app. right. left. reflexivity.
Qed.

(** *** The relay *)

Lemma paid_true session : statusIsPaid session -> Relay.isPaid session = true.
Proof.
  unfold statusIsPaid, Relay.isPaid. intros H. rewrite H. reflexivity.
Qed.

Lemma paid_inv session : Relay.isPaid session = true -> statusIsPaid session.
Proof.
  unfold statusIsPaid, Relay.isPaid.
  destruct (ownGet session "payment_status"); try discriminate.
  intros H. apply String.eqb_eq in H. subst. reflexivity.
Qed.

Lemma gate_open session requestId :
  trackingAgrees session requestId ->
  (truthy (Relay.trackingId session)
   && Relay.differsFrom (Relay.trackingId session) requestId)%bool = false.
Proof.
  intros [H|H].
  - rewrite H. reflexivity.
  - rewrite H. cbn. rewrite String.eqb_refl. apply andb_false_r.
Qed.

Lemma gate_inv session requestId :
  (truthy (Relay.trackingId session)
   && Relay.differsFrom (Relay.trackingId session) requestId)%bool = false ->
  trackingAgrees session requestId.
Proof.
  intros H. apply andb_false_iff in H. destruct H as [H|H]; [left; exact H|].
  right. unfold Relay.differsFrom in H.
  destruct (Relay.trackingId session); try discriminate H.
  apply negb_false_iff, String.eqb_eq in H. subst. reflexivity.
Qed.

(** X17.  Once the relay has fetched a paid session whose tracking id is
    absent or is the request id, it answers 200 with the request id,
    whether or not the form submission was sent: a missing site origin
    or a form body that cannot be built does not fail the
    confirmation. *)
Theorem relay_confirms_verified_payment env event status data requestId :
  statusIsPaid (sessionOf data) ->
  requestIdOf event = Some requestId ->
  trackingAgrees (sessionOf data) requestId ->
  snd (Relay.handler env event (Replied true status data)) <> [] ->
  fst (Relay.handler env event (Replied true status data))
  = Returned (json 200 (JObj [("ok", JBool true); ("rid", JStr requestId)])).
Proof.
  intros Hpaid Hreq Hagree.
  apply paid_true in Hpaid. apply gate_open in Hagree.
  unfold Relay.handler. unfold requestIdOf in Hreq. rewrite Hreq.
  fold (sessionOf data). rewrite Hpaid, Hagree. cbn [negb].
  split_tests; intros H; try reflexivity; exfalso; apply H; reflexivity.
Qed.

Lemma relay_confirms_verified_payment_witness :
  fst (Relay.handler (envOf [("STRIPE_SECRET_KEY", "sk_test_1")])
         (mkEvent "POST" (Parses confirmation) None None)
         (Replied true 200 paidTracked))
  = Returned (json 200 (JObj [("ok", JBool true); ("rid", JStr "VV-2024-00042")])).
Proof.
  apply (relay_confirms_verified_payment (envOf [("STRIPE_SECRET_KEY", "sk_test_1")])
           (mkEvent "POST" (Parses confirmation) None None) 200 paidTracked
           "VV-2024-00042").
  - reflexivity.
  - reflexivity.
  - right. reflexivity.
  - cbn. discriminate.
Defined.

(** What a form submission in the relay's trace tells. *)
Lemma relay_forward_inv env event reply url params :
  In (FormPost url params) (snd (Relay.handler env event reply)) ->
  exists status data sessionId requestId,
    reply = Replied true status data
    /\ sessionIdOf event = Some sessionId
    /\ requestIdOf event = Some requestId
    /\ requestId <> ""
    /\ Relay.isPaid (sessionOf data) = true
    /\ trackingAgrees (sessionOf data) requestId
    /\ url = orElse (orStr (orStr (var env "URL") (var env "DEPLOY_PRIME_URL"))
                          (getOrigin (match headers event with
                                      | Some h => h
                                      | None => mkHeaders None None None
                                      end))) "" ++ "/success.html"
    /\ Relay.formParams (payloadOf (body event)) (sessionOf data) sessionId requestId
       = Some params.
Proof.
  unfold Relay.handler, requestIdOf, sessionIdOf.
  destruct (negb (httpMethod event =? "POST")%string); [intros []|].
  destruct (negb (truthyStr (var env "STRIPE_SECRET_KEY"))); [intros []|].
  destruct (field2 (payloadOf (body event)) "session_id" "sessionId") as [sessionId|];
    [|intros []].
  destruct (field2 (payloadOf (body event)) "request_id" "requestId") as [requestId|]
    eqn:Hreq; [|intros []].
  destruct (sessionId =? "")%string; [intros []|].
  destruct (requestId =? "")%string eqn:Hne; [intros []|].
  destruct reply as [|[|] status data]; cbn [snd];
    try (intros [H|[]]; discriminate H).
  fold (sessionOf data).
  destruct (Relay.isPaid (sessionOf data)) eqn:Hpaid; cbn [negb snd];
    [|intros [H|[]]; discriminate H].
  destruct (truthy (Relay.trackingId (sessionOf data))
            && Relay.differsFrom (Relay.trackingId (sessionOf data)) requestId)%bool
    eqn:Hgate; cbn [snd]; [intros [H|[]]; discriminate H|].
  destruct (truthyStr _); cbn [app]; [|intros [H|[]]; discriminate H].
  destruct (Relay.formParams (payloadOf (body event)) (sessionOf data) sessionId requestId)
    as [built|] eqn:Hform; [|intros [H|[]]; discriminate H].
  intros [H|[H|[]]]; [discriminate H|]. inversion H; subst; clear H.
  exists status, data, sessionId, requestId.
  repeat split; auto using gate_inv.
  apply String.eqb_neq, Hne.
Qed.

(** X18.  The relay submits the form only for a session the payments
    API returned as paid, whose tracking id is absent or is the request
    id; the submission carries that request id and the paid marker. *)
Theorem form_is_sent_for_verified_payment_only env event reply url params :
  In (FormPost url params) (snd (Relay.handler env event reply)) ->
  exists status data requestId,
    reply = Replied true status data
    /\ statusIsPaid (sessionOf data)
    /\ requestIdOf event = Some requestId
    /\ requestId <> ""
    /\ trackingAgrees (sessionOf data) requestId
    /\ In ("request_id", requestId) params
    /\ In ("paid_confirmed", "true") params.
Proof.
  intros H. apply relay_forward_inv in H.
  destruct H as (status & data & sessionId & requestId
                 & Hr & Hsid & Hreq & Hne & Hpaid & Hagree & _ & Hform).
  assert (Ht : trim requestId <> "").
  { rewrite (field2_trimmed _ _ _ _ Hreq). exact Hne. }
  destruct (formParams_built _ _ _ _ _ Ht Hform) as (_ & Hin & Hmark).
  exists status, data, requestId. repeat split; auto using paid_inv.
Qed.

Lemma form_is_sent_for_verified_payment_only_witness :
  exists status data requestId,
    Replied true 200 paidTracked = Replied true status data
    /\ statusIsPaid (sessionOf data)
    /\ requestIdOf (post confirmation) = Some requestId
    /\ requestId <> ""
    /\ trackingAgrees (sessionOf data) requestId
    /\ In ("request_id", requestId)
         [ ("form-name", "vinvoyant_intake"); ("request_id", "VV-2024-00042");
           ("name", "Ada"); ("paid_confirmed", "true");
           ("payment_reference", "cs_test_1"); ("session_id", "cs_test_1") ]
    /\ In ("paid_confirmed", "true")
         [ ("form-name", "vinvoyant_intake"); ("request_id", "VV-2024-00042");
           ("name", "Ada"); ("paid_confirmed", "true");
           ("payment_reference", "cs_test_1"); ("session_id", "cs_test_1") ].
Proof.
  apply (form_is_sent_for_verified_payment_only envLive (post confirmation)
           (Replied true 200 paidTracked) "https://vinvoyant.com/success.html").
  right. left. reflexivity.
Defined.

(** X19.  Whatever the payload holds, a form submission carries only
    the fields of the allow-list. *)
Theorem form_carries_allowed_fields_only env event reply url params :
  In (FormPost url params) (snd (Relay.handler env event reply)) ->
  Forall allowedField params.
Proof.
  intros H. apply relay_forward_inv in H.
  destruct H as (status & data & sessionId & requestId
                 & Hr & Hsid & Hreq & Hne & Hpaid & Hagree & _ & Hform).
  assert (Ht : trim requestId <> "").
  { rewrite (field2_trimmed _ _ _ _ Hreq). exact Hne. }
  apply (formParams_built _ _ _ _ _ Ht Hform).
Qed.

Lemma form_carries_allowed_fields_only_witness :
  snd (Relay.handler envLive
         (post (JObj [ ("session_id", JStr "cs_test_1");
                       ("request_id", JStr "VV-2024-00042");
                       ("card_number", JStr "4242424242424242") ]))
         (Replied true 200 paidTracked))
  = [ StripeGetSession "sk_test_1" "cs_test_1";
      FormPost "https://vinvoyant.com/success.html"
        [ ("form-name", "vinvoyant_intake"); ("request_id", "VV-2024-00042");
          ("paid_confirmed", "true"); ("payment_reference", "cs_test_1");
          ("session_id", "cs_test_1") ] ]
  /\ Forall allowedField
       [ ("form-name", "vinvoyant_intake"); ("request_id", "VV-2024-00042");
         ("paid_confirmed", "true"); ("payment_reference", "cs_test_1");
         ("session_id", "cs_test_1") ].
Proof.
  split; [reflexivity|].
  apply (form_carries_allowed_fields_only envLive
           (post (JObj [ ("session_id", JStr "cs_test_1");
                         ("request_id", JStr "VV-2024-00042");
                         ("card_number", JStr "4242424242424242") ]))
           (Replied true 200 paidTracked) "https://vinvoyant.com/success.html").
  right. left. reflexivity.
Defined.

(** X20.  When the site URL is configured, the form is submitted to
    that site, whatever origin or referer the request carries. *)
Theorem form_goes_to_the_configured_site env event reply url params site :
  var env "URL" = Some site ->
  site <> "" ->
  In (FormPost url params) (snd (Relay.handler env event reply)) ->
  url = site ++ "/success.html".
Proof.
  intros Hsite Hne H. apply relay_forward_inv in H.
  destruct H as (status & data & sessionId & requestId
                 & _ & _ & _ & _ & _ & _ & Hurl & _).
  rewrite Hurl, Hsite. unfold orStr, orElse, truthyStr.
  apply String.eqb_neq in Hne. rewrite Hne. cbn [negb]. rewrite Hne. cbn [negb].
  rewrite Hne. reflexivity.
Qed.

Lemma form_goes_to_the_configured_site_witness :
  exists url params,
    In (FormPost url params)
       (snd (Relay.handler envLive
               (mkEvent "POST" (Parses confirmation)
                  (Some (mkHeaders (Some "https://other.example") None None)) None)
               (Replied true 200 paidTracked)))
    /\ url = "https://vinvoyant.com" ++ "/success.html".
Proof.
  eexists. eexists. split.
  - right. left. reflexivity.
  - apply (form_goes_to_the_configured_site envLive
             (mkEvent "POST" (Parses confirmation)
                (Some (mkHeaders (Some "https://other.example") None None)) None)
             (Replied true 200 paidTracked)
             "https://vinvoyant.com/success.html"
             [ ("form-name", "vinvoyant_intake"); ("request_id", "VV-2024-00042");
               ("name", "Ada"); ("paid_confirmed", "true");
               ("payment_reference", "cs_test_1"); ("session_id", "cs_test_1") ]
             "https://vinvoyant.com").
    + reflexivity.
    + discriminate.
    + right. left. reflexivity.
Defined.

(** X21.  The relay asks for both ids before it fetches anything: a
    session id that is missing or blank is answered 400, and so is a
    request id that is missing or blank, with no outbound request. *)
Theorem relay_requires_both_ids env event reply sessionId requestId :
  httpMethod event = "POST" ->
  secretSet env = true ->
  sessionIdOf event = Some sessionId ->
  requestIdOf event = Some requestId ->
  (sessionId = "" ->
   Relay.handler env event reply
   = (Returned (json 400 (errorBody "Missing session_id.")), []))
  /\ (sessionId <> "" -> requestId = "" ->
      Relay.handler env event reply
      = (Returned (json 400 (errorBody "Missing request_id.")), [])).
Proof.
  intros Hm Hs Hsid Hrid. unfold Relay.handler.
  unfold secretSet in Hs. unfold sessionIdOf in Hsid. unfold requestIdOf in Hrid.
  rewrite Hm, Hs, Hsid, Hrid.
  change (negb ("POST" =? "POST")%string) with false. cbn iota. cbn [negb].
  split.
  - intros ->. reflexivity.
  - intros Hne ->. apply String.eqb_neq in Hne. rewrite Hne. reflexivity.
Qed.

Lemma relay_requires_both_ids_witness :
  Relay.handler envLive
    (post (JObj [("session_id", JStr "cs_test_1"); ("request_id", JStr "   ")]))
    (Replied true 200 paidTracked)
  = (Returned (json 400 (errorBody "Missing request_id.")), []).
Proof.
  apply (proj2 (relay_requires_both_ids envLive
                  (post (JObj [("session_id", JStr "cs_test_1");
                               ("request_id", JStr "   ")]))
                  (Replied true 200 paidTracked) "cs_test_1" ""
                  eq_refl eq_refl eq_refl eq_refl)).
  - discriminate.
  - reflexivity.
Defined.

(** *** The fetcher *)

(** X22.  The fetcher reads the body only as a fallback: on a GET
    request, or when the query string holds a session id that is not
    blank, the body has no effect on what the fetcher does. *)
Theorem fetcher_reads_body_only_as_fallback env event reply b :
  httpMethod event = "GET" \/ trim (orElse (qp_session_id event) "") <> "" ->
  Fetcher.handler env (withBody event b) reply = Fetcher.handler env event reply.
Proof.
  intros H. unfold Fetcher.handler, withBody. cbn [httpMethod body qp_session_id].
  destruct H as [Hget|Hq].
  - rewrite Hget.
    change ("GET" =? "POST")%string with false. rewrite andb_false_r. reflexivity.
  - apply String.eqb_neq in Hq. rewrite Hq. reflexivity.
Qed.

Lemma fetcher_reads_body_only_as_fallback_witness :
  Fetcher.handler envLive
    (withBody getSession (Parses (JObj [("session_id", JStr "cs_other")])))
    (Replied true 200 unpaid)
  = Fetcher.handler envLive getSession (Replied true 200 unpaid).
Proof.
  apply (fetcher_reads_body_only_as_fallback envLive getSession (Replied true 200 unpaid)).
  left. reflexivity.
Defined.

(** X23.  The fetcher answers 400 without fetching when it finds no
    session id: none in the query string and, on a POST, none in the
    body either. *)
Theorem fetcher_requires_a_session_id env event reply :
  (httpMethod event = "GET" \/ httpMethod event = "POST") ->
  secretSet env = true ->
  trim (orElse (qp_session_id event) "") = "" ->
  (httpMethod event = "POST" -> Fetcher.bodySessionId (body event) = "") ->
  Fetcher.handler env event reply
  = (Returned (json 400 (errorBody "Missing session_id.")), []).
Proof.
  intros Hm Hs Hq Hb. unfold Fetcher.handler. unfold secretSet in Hs.
  rewrite Hs, Hq. cbn [negb String.eqb andb].
  destruct Hm as [Hm|Hm]; rewrite Hm in *.
  - reflexivity.
  - rewrite (Hb eq_refl). reflexivity.
Qed.

Lemma fetcher_requires_a_session_id_witness :
  Fetcher.handler envLive (mkEvent "POST" Malformed None (Some "  "))
    (Replied true 200 unpaid)
  = (Returned (json 400 (errorBody "Missing session_id.")), []).
Proof.
  apply (fetcher_requires_a_session_id envLive (mkEvent "POST" Malformed None (Some "  "))
           (Replied true 200 unpaid)).
  - right. reflexivity.
  - reflexivity.
  - reflexivity.
  - reflexivity.
Defined.

(** *** When a handler gets to its request *)

Lemma fetcher_asks env event reply :
  fetcherAsks env event ->
  Fetcher.handler env event reply
  = (fst (Fetcher.handler env event reply),
     [StripeGetSession (secretOf env) (fetchedIdOf event)]).
Proof.
  intros (Hm & Hsec & Hid). unfold Fetcher.handler, secretSet, secretOf in *.
  fold (fetchedIdOf event).
  assert (Hg : (negb (httpMethod event =? "GET")%string
                && negb (httpMethod event =? "POST")%string)%bool = false).
  { destruct Hm as [Hm|Hm]; rewrite Hm; reflexivity. }
  rewrite Hg, Hsec. cbn [negb].
  apply String.eqb_neq in Hid. rewrite Hid.
  destruct reply as [|[|] status data]; reflexivity.
Qed.

(** Unless the payments API returns a session, the relay sends the
    session fetch and nothing else. *)
Lemma relay_asks env event reply sessionId :
  relayAsks env event sessionId ->
  (forall status data, reply <> Replied true status data) ->
  Relay.handler env event reply
  = (fst (Relay.handler env event reply), [StripeGetSession (secretOf env) sessionId]).
Proof.
  intros (Hm & Hsec & Hsid & Hs & requestId & Hrid & Hr) Hreply.
  unfold Relay.handler, secretOf.
  unfold secretSet in Hsec. unfold sessionIdOf in Hsid. unfold requestIdOf in Hrid.
  rewrite Hm, Hsec, Hsid, Hrid.
  change (negb ("POST" =? "POST")%string) with false. cbn iota. cbn [negb].
  apply String.eqb_neq in Hs, Hr. rewrite Hs, Hr.
  destruct reply as [|[|] status data]; try reflexivity.
  exfalso. apply (Hreply status data). reflexivity.
Qed.

Lemma legacy_asks env event reply params :
  legacyAsks env event params ->
  Legacy.handler env event reply
  = (Returned (createReply reply), [StripeCreateSession (secretOf env) params]).
Proof.
  intros (Hm & Hsec & rid & email & h & item
          & Hrid & Hvalid & Hemail & Hh & Horigin & Hitem & ->).
  unfold Legacy.handler, secretOf.
  unfold secretSet in Hsec. unfold ridOf in Hrid. unfold originOf in Horigin.
  rewrite Hm, Hsec, Hrid, Hemail, Hh.
  change (negb ("POST" =? "POST")%string) with false. cbn iota. cbn [negb].
  rewrite Horigin, Hvalid. cbn [negb].
  assert (Hne : (rid =? "")%string = false).
  { destruct rid; [discriminate Hvalid | reflexivity]. }
  rewrite Hne. cbn [orb]. rewrite Hitem. reflexivity.
Qed.

Lemma tiered_asks env event reply params :
  tieredAsks env event params ->
  Tiered.handler env event reply
  = (Returned (createReply reply), [StripeCreateSession (secretOf env) params]).
Proof.
  intros (Hm & Hsec & rid & email & service & tier & h & item
          & Hrid & Hvalid & Hemail & Hsl & Hvt & Hh & Horigin & Hitem & ->).
  unfold Tiered.handler, secretOf.
  unfold secretSet in Hsec. unfold ridOf in Hrid.
  unfold serviceLevelOf in Hsl. unfold vehicleTierOf in Hvt. unfold originOf in Horigin.
  rewrite Hm, Hsec, Hrid, Hemail, Hsl, Hvt, Hh.
  change (negb ("POST" =? "POST")%string) with false. cbn iota. cbn [negb].
  rewrite Horigin, Hvalid. cbn [negb].
  assert (Hne : (rid =? "")%string = false).
  { destruct rid; [discriminate Hvalid | reflexivity]. }
  rewrite Hne. cbn [orb]. rewrite Hitem. reflexivity.
Qed.

(** *** The payments API's answers *)

(** X24.  An error of the payments API is passed on.  A fetcher or a
    relay that gets to its request sends the session fetch alone and
    answers with the upstream status, the upstream message (or a
    default) and the upstream body; so does a legacy creator that gets
    to its request, which answers 500 when the upstream body is null,
    and so does the tiered creator on a selection of the static table
    or with tiered pricing off.  The same answers hold whenever the
    fetcher, the relay or the legacy creator sent a request. *)
Theorem upstream_error_is_relayed env event status data :
  (fetcherAsks env event ->
   Fetcher.handler env event (Replied false status data)
   = (Returned (json status (relayedError data)),
      [StripeGetSession (secretOf env) (fetchedIdOf event)]))
  /\ (forall sessionId, relayAsks env event sessionId ->
      Relay.handler env event (Replied false status data)
      = (Returned (json status (relayedError data)),
         [StripeGetSession (secretOf env) sessionId]))
  /\ (forall params, legacyAsks env event params ->
      Legacy.handler env event (Replied false status data)
      = (Returned (if nullish data
                   then plain 500 (errorBody "Server error creating session.")
                   else plain status (relayedError data)),
         [StripeCreateSession (secretOf env) params]))
  /\ (forall params, tableSelection env event -> tieredAsks env event params ->
      Tiered.handler env event (Replied false status data)
      = (Returned (if nullish data
                   then plain 500 (errorBody "Server error creating session.")
                   else plain status (relayedError data)),
         [StripeCreateSession (secretOf env) params]))
  /\ (snd (Fetcher.handler env event (Replied false status data)) <> [] ->
      fst (Fetcher.handler env event (Replied false status data))
      = Returned (json status (relayedError data)))
  /\ (snd (Relay.handler env event (Replied false status data)) <> [] ->
      fst (Relay.handler env event (Replied false status data))
      = Returned (json status (relayedError data)))
  /\ (snd (Legacy.handler env event (Replied false status data)) <> [] ->
      fst (Legacy.handler env event (Replied false status data))
      = Returned (if nullish data
                  then plain 500 (errorBody "Server error creating session.")
                  else plain status (relayedError data))).
Proof.
  assert (Hc : createReply (Replied false status data)
               = if nullish data
                 then plain 500 (errorBody "Server error creating session.")
                 else plain status (relayedError data)).
  { unfold createReply, relayedError, getOpt.
    destruct (nullish data); reflexivity. }
  assert (Hf : snd (Fetcher.handler env event (Replied false status data)) <> [] ->
               fst (Fetcher.handler env event (Replied false status data))
               = Returned (json status (relayedError data))).
  { unfold Fetcher.handler, relayedError.
    split_tests; intros H; try reflexivity; exfalso; apply H; reflexivity. }
  assert (Hr : snd (Relay.handler env event (Replied false status data)) <> [] ->
               fst (Relay.handler env event (Replied false status data))
               = Returned (json status (relayedError data))).
  { unfold Relay.handler, relayedError.
    split_tests; intros H; try reflexivity; exfalso; apply H; reflexivity. }
  split; [|split; [|split; [|split; [|split; [|split]]]]].
  - intros Ha. rewrite (fetcher_asks _ _ _ Ha). f_equal. apply Hf.
    rewrite (fetcher_asks _ _ _ Ha). discriminate.
  - intros sessionId Ha.
    assert (Hreply : forall status' data',
               Replied false status data <> Replied true status' data')
      by (intros; discriminate).
    rewrite (relay_asks _ _ _ _ Ha Hreply). f_equal. apply Hr.
    rewrite (relay_asks _ _ _ _ Ha Hreply). discriminate.
  - intros params Ha. rewrite (legacy_asks _ _ _ _ Ha), Hc. reflexivity.
  - intros params _ Ha. rewrite (tiered_asks _ _ _ _ Ha), Hc. reflexivity.
  - exact Hf.
  - exact Hr.
  - unfold Legacy.handler. rewrite Hc.
    split_tests; intros H; try reflexivity; exfalso; apply H; reflexivity.
Qed.

Lemma upstream_error_is_relayed_witness :
  Fetcher.handler envLive getSession (Replied false 404 upstreamError)
  = (Returned (json 404
       (JObj [ ("error", JStr "No such checkout.session"); ("details", upstreamError) ])),
     [StripeGetSession "sk_test_1" "cs_test_1"])
  /\ Relay.handler envLive (post confirmation) (Replied false 404 upstreamError)
     = (Returned (json 404
          (JObj [ ("error", JStr "No such checkout.session"); ("details", upstreamError) ])),
        [StripeGetSession "sk_test_1" "cs_test_1"])
  /\ Legacy.handler envLegacy (post plainOrder) (Replied false 404 upstreamError)
     = (Returned (plain 404
          (JObj [ ("error", JStr "No such checkout.session"); ("details", upstreamError) ])),
        [StripeCreateSession "sk_test_1"
           (Legacy.baseParams "payment" "https://vinvoyant.com" "VV-2024-00042" ""
            ++ priceLine "price_9")])
  /\ Tiered.handler envLive (post exampleOrder) (Replied false 404 upstreamError)
     = (Returned (plain 404
          (JObj [ ("error", JStr "No such checkout.session"); ("details", upstreamError) ])),
        [StripeCreateSession "sk_test_1"
           (Tiered.baseParams "payment" "https://vinvoyant.com" "VV-2024-00042"
              "brief_remote" "tier_a" ""
            ++ Tiered.inlineItem "usd" 12900 "VINvoyant Brief (Remote)"
                 (Tiered.tierDescription "tier_a" "VV-2024-00042"))]).
Proof.
  destruct (upstream_error_is_relayed envLive getSession 404 upstreamError)
    as (F & _).
  destruct (upstream_error_is_relayed envLive (post confirmation) 404 upstreamError)
    as (_ & R & _).
  destruct (upstream_error_is_relayed envLegacy (post plainOrder) 404 upstreamError)
    as (_ & _ & L & _).
  destruct (upstream_error_is_relayed envLive (post exampleOrder) 404 upstreamError)
    as (_ & _ & _ & T & _).
  split; [|split; [|split]].
  - apply F. split; [left; reflexivity|]. split; [reflexivity | cbn; discriminate].
  - apply (R "cs_test_1"). split; [reflexivity|]. split; [reflexivity|].
    split; [reflexivity|]. split; [discriminate|].
    exists "VV-2024-00042". split; [reflexivity | discriminate].
  - apply L. split; [reflexivity|]. split; [reflexivity|].
    exists "VV-2024-00042", "", siteHeaders, (priceLine "price_9").
    repeat split.
  - apply T.
    + right. exists "tier_a", "brief_remote", 12900. repeat split.
    + split; [reflexivity|]. split; [reflexivity|].
      exists "VV-2024-00042", "", "brief_remote", "tier_a", siteHeaders,
        (Tiered.inlineItem "usd" 12900 "VINvoyant Brief (Remote)"
           (Tiered.tierDescription "tier_a" "VV-2024-00042")).
      repeat split.
Defined.

(** X25.  When the request to the payments API itself fails, a legacy
    creator that gets to its request still answers: 500, with a fixed
    message, and so does the tiered creator on a selection of the
    static table or with tiered pricing off; a fetcher or a relay that
    gets to its request lets the failure through.  The same holds
    whenever the fetcher, the relay or the legacy creator sent a
    request. *)
Theorem creators_catch_a_failed_request env event :
  (forall params, legacyAsks env event params ->
   Legacy.handler env event FetchThrows
   = (Returned (plain 500 (errorBody "Server error creating session.")),
      [StripeCreateSession (secretOf env) params]))
  /\ (forall params, tableSelection env event -> tieredAsks env event params ->
      Tiered.handler env event FetchThrows
      = (Returned (plain 500 (errorBody "Server error creating session.")),
         [StripeCreateSession (secretOf env) params]))
  /\ (fetcherAsks env event ->
      Fetcher.handler env event FetchThrows
      = (Thrown, [StripeGetSession (secretOf env) (fetchedIdOf event)]))
  /\ (forall sessionId, relayAsks env event sessionId ->
      Relay.handler env event FetchThrows
      = (Thrown, [StripeGetSession (secretOf env) sessionId]))
  /\ (snd (Legacy.handler env event FetchThrows) <> [] ->
      fst (Legacy.handler env event FetchThrows)
      = Returned (plain 500 (errorBody "Server error creating session.")))
  /\ (snd (Fetcher.handler env event FetchThrows) <> [] ->
      fst (Fetcher.handler env event FetchThrows) = Thrown)
  /\ (snd (Relay.handler env event FetchThrows) <> [] ->
      fst (Relay.handler env event FetchThrows) = Thrown).
Proof.
  assert (Hf : snd (Fetcher.handler env event FetchThrows) <> [] ->
               fst (Fetcher.handler env event FetchThrows) = Thrown).
  { unfold Fetcher.handler.
    split_tests; intros H; try reflexivity; exfalso; apply H; reflexivity. }
  assert (Hr : snd (Relay.handler env event FetchThrows) <> [] ->
               fst (Relay.handler env event FetchThrows) = Thrown).
  { unfold Relay.handler.
    split_tests; intros H; try reflexivity; exfalso; apply H; reflexivity. }
  split; [|split; [|split; [|split; [|split; [|split]]]]].
  - intros params Ha. rewrite (legacy_asks _ _ _ _ Ha). reflexivity.
  - intros params _ Ha. rewrite (tiered_asks _ _ _ _ Ha). reflexivity.
  - intros Ha. rewrite (fetcher_asks _ _ _ Ha). f_equal. apply Hf.
    rewrite (fetcher_asks _ _ _ Ha). discriminate.
  - intros sessionId Ha.
    assert (Hreply : forall status data, FetchThrows <> Replied true status data)
      by (intros; discriminate).
    rewrite (relay_asks _ _ _ _ Ha Hreply). f_equal. apply Hr.
    rewrite (relay_asks _ _ _ _ Ha Hreply). discriminate.
  - unfold Legacy.handler.
    split_tests; intros H; try reflexivity; exfalso; apply H; reflexivity.
  - exact Hf.
  - exact Hr.
Qed.

Lemma creators_catch_a_failed_request_witness :
  Legacy.handler envLegacy (post plainOrder) FetchThrows
  = (Returned (plain 500 (errorBody "Server error creating session.")),
     [StripeCreateSession "sk_test_1"
        (Legacy.baseParams "payment" "https://vinvoyant.com" "VV-2024-00042" ""
         ++ priceLine "price_9")])
  /\ Fetcher.handler envLive getSession FetchThrows
     = (Thrown, [StripeGetSession "sk_test_1" "cs_test_1"])
  /\ Relay.handler envLive (post confirmation) FetchThrows
     = (Thrown, [StripeGetSession "sk_test_1" "cs_test_1"])
  /\ Tiered.handler envLive (post exampleOrder) FetchThrows
     = (Returned (plain 500 (errorBody "Server error creating session.")),
        [StripeCreateSession "sk_test_1"
           (Tiered.baseParams "payment" "https://vinvoyant.com" "VV-2024-00042"
              "brief_remote" "tier_a" ""
            ++ Tiered.inlineItem "usd" 12900 "VINvoyant Brief (Remote)"
                 (Tiered.tierDescription "tier_a" "VV-2024-00042"))]).
Proof.
  destruct (creators_catch_a_failed_request envLegacy (post plainOrder)) as (L & _).
  destruct (creators_catch_a_failed_request envLive getSession) as (_ & _ & F & _).
  destruct (creators_catch_a_failed_request envLive (post confirmation))
    as (_ & _ & _ & R & _).
  destruct (creators_catch_a_failed_request envLive (post exampleOrder)) as (_ & T & _).
  split; [|split; [|split]].
  - apply L. split; [reflexivity|]. split; [reflexivity|].
    exists "VV-2024-00042", "", siteHeaders, (priceLine "price_9").
    repeat split.
  - apply F. split; [left; reflexivity|]. split; [reflexivity | cbn; discriminate].
  - apply (R "cs_test_1"). split; [reflexivity|]. split; [reflexivity|].
    split; [reflexivity|]. split; [discriminate|].
    exists "VV-2024-00042". split; [reflexivity | discriminate].
  - apply T.
    + right. exists "tier_a", "brief_remote", 12900. repeat split.
    + split; [reflexivity|]. split; [reflexivity|].
      exists "VV-2024-00042", "", "brief_remote", "tier_a", siteHeaders,
        (Tiered.inlineItem "usd" 12900 "VINvoyant Brief (Remote)"
           (Tiered.tierDescription "tier_a" "VV-2024-00042")).
      repeat split.
Defined.

(** *** The creators *)

Lemma digit_unreserved c : isDigit c = true -> unreserved c = true.
Proof.
  intros H. unfold unreserved. rewrite H. rewrite orb_true_r. reflexivity.
Qed.

(** A request id of the form VV-dddd-ddddd needs no escaping. *)
Lemma encode_valid_rid rid : validRid rid = true -> encodeURIComponent rid = rid.
Proof.
  unfold validRid.
  do 13 (destruct rid as [|? rid]; cbn [list_ascii_of_string]; try discriminate).
  destruct rid; cbn [list_ascii_of_string]; try discriminate.
  intros H. repeat (apply andb_true_iff in H; destruct H as [H ?]).
  repeat match goal with
         | E : Ascii.eqb _ _ = true |- _ => apply Ascii.eqb_eq in E; subst
         | E : isDigit _ = true |- _ => apply digit_unreserved in E
         end.
  cbn [encodeURIComponent].
  repeat match goal with
         | E : unreserved ?c = true |- _ => rewrite E; clear E
         end.
  reflexivity.
Qed.

(** What a session creation in a creator's trace tells. *)
Lemma tiered_create_inv env event reply secret params :
  In (StripeCreateSession secret params) (snd (Tiered.handler env event reply)) ->
  exists rid email service tier h item,
    ridOf event = Some rid
    /\ validRid rid = true
    /\ serviceLevelOf event = Some service
    /\ vehicleTierOf event = Some tier
    /\ headers event = Some h
    /\ Tiered.lineItem env rid service tier = inr item
    /\ params = (Tiered.baseParams (orElse (var env "CHECKOUT_MODE") "payment")
                   (orElse (originOf env h) "") rid service tier email ++ item)%list.
Proof.
  unfold Tiered.handler, ridOf, serviceLevelOf, vehicleTierOf, originOf.
  destruct (negb (httpMethod event =? "POST")%string); [intros []|].
  destruct (negb (truthyStr (var env "STRIPE_SECRET_KEY"))); [intros []|].
  destruct (field1 (payloadOf (body event)) "rid") as [rid|]; [|intros []].
  destruct (field1 (payloadOf (body event)) "email") as [email|]; [|intros []].
  destruct (field2 (payloadOf (body event)) "service_level" "serviceLevel") as [service|];
    [|intros []].
  destruct (field2 (payloadOf (body event)) "vehicle_tier" "vehicleTier") as [tier|];
    [|intros []].
  destruct (headers event) as [h|]; [|intros []].
  destruct (negb (truthyStr _)); [intros []|].
  destruct (rid =? "")%string; [intros []|]. cbn [orb].
  destruct (validRid rid) eqn:Hv; cbn [negb]; [|intros []].
  destruct (Tiered.lineItem env rid service tier) as [r|item] eqn:Hitem; [intros []|].
  intros [H|[]]. inversion H; subst.
  exists rid, email, service, tier, h, item. repeat split; auto.
Qed.

Lemma legacy_create_inv env event reply secret params :
  In (StripeCreateSession secret params) (snd (Legacy.handler env event reply)) ->
  exists rid email h item,
    ridOf event = Some rid
    /\ validRid rid = true
    /\ headers event = Some h
    /\ Legacy.lineItem env = inr item
    /\ params = (Legacy.baseParams (orElse (var env "CHECKOUT_MODE") "payment")
                   (orElse (originOf env h) "") rid email ++ item)%list.
Proof.
  unfold Legacy.handler, ridOf, originOf.
  destruct (negb (httpMethod event =? "POST")%string); [intros []|].
  destruct (negb (truthyStr (var env "STRIPE_SECRET_KEY"))); [intros []|].
  destruct (field1 (payloadOf (body event)) "rid") as [rid|]; [|intros []].
  destruct (field1 (payloadOf (body event)) "email") as [email|]; [|intros []].
  destruct (headers event) as [h|]; [|intros []].
  destruct (negb (truthyStr _)); [intros []|].
  destruct (rid =? "")%string; [intros []|]. cbn [orb].
  destruct (validRid rid) eqn:Hv; cbn [negb]; [|intros []].
  destruct (Legacy.lineItem env) as [r|item] eqn:Hitem; [intros []|].
  intros [H|[]]. inversion H; subst.
  exists rid, email, h, item. repeat split; auto.
Qed.

(** X26.  Every session the legacy creator asks the payments API to
    create, and every session the tiered creator asks for on a
    selection of the static table or with tiered pricing off, carries
    a request id of the form VV-dddd-ddddd: as metadata, as client
    reference, and, unescaped, in the success and cancel URLs.  It is
    the request id read from the event. *)
Theorem created_session_carries_the_request_id env event reply secret params :
  (tableSelection env event
   /\ In (StripeCreateSession secret params) (snd (Tiered.handler env event reply)))
  \/ In (StripeCreateSession secret params) (snd (Legacy.handler env event reply)) ->
  exists rid origin,
    ridOf event = Some rid
    /\ validRid rid = true
    /\ In ("metadata[rid]", rid) params
    /\ In ("client_reference_id", rid) params
    /\ In ("success_url",
           origin ++ "/paid.html?session_id={CHECKOUT_SESSION_ID}&rid=" ++ rid) params
    /\ In ("cancel_url", origin ++ "/#start?canceled=1&rid=" ++ rid) params.
Proof.
  intros [[_ H]|H].
  - apply tiered_create_inv in H.
    destruct H as (rid & email & service & tier & h & item
                   & Hrid & Hv & _ & _ & _ & _ & ->).
    exists rid, (orElse (originOf env h) ""). split; [exact Hrid|]. split; [exact Hv|].
    unfold Tiered.baseParams. rewrite (encode_valid_rid _ Hv).
    repeat split; apply in_or_app; left; cbn [app In]; auto.
    do 4 right. apply in_or_app. right. apply in_or_app. right. left. reflexivity.
  - apply legacy_create_inv in H.
    destruct H as (rid & email & h & item & Hrid & Hv & _ & _ & ->).
    exists rid, (orElse (originOf env h) ""). split; [exact Hrid|]. split; [exact Hv|].
    unfold Legacy.baseParams. rewrite (encode_valid_rid _ Hv).
    repeat split; apply in_or_app; left; cbn [app In]; auto 7.
Qed.

Lemma created_session_carries_the_request_id_witness :
  (Legacy.handler envLegacy (post plainOrder) FetchThrows
   = (Returned (plain 500 (errorBody "Server error creating session.")),
      [StripeCreateSession "sk_test_1"
         (Legacy.baseParams "payment" "https://vinvoyant.com" "VV-2024-00042" ""
          ++ priceLine "price_9")])
   /\ exists rid origin,
        ridOf (post plainOrder) = Some rid
        /\ validRid rid = true
        /\ In ("metadata[rid]", rid)
             (Legacy.baseParams "payment" "https://vinvoyant.com" "VV-2024-00042" ""
              ++ priceLine "price_9")
        /\ In ("client_reference_id", rid)
             (Legacy.baseParams "payment" "https://vinvoyant.com" "VV-2024-00042" ""
              ++ priceLine "price_9")
        /\ In ("success_url",
               origin ++ "/paid.html?session_id={CHECKOUT_SESSION_ID}&rid=" ++ rid)
             (Legacy.baseParams "payment" "https://vinvoyant.com" "VV-2024-00042" ""
              ++ priceLine "price_9")
        /\ In ("cancel_url", origin ++ "/#start?canceled=1&rid=" ++ rid)
             (Legacy.baseParams "payment" "https://vinvoyant.com" "VV-2024-00042" ""
              ++ priceLine "price_9"))
  /\ (tableSelection envLive (post exampleOrder)
      /\ exists rid origin,
           ridOf (post exampleOrder) = Some rid
           /\ validRid rid = true
           /\ In ("metadata[rid]", rid)
                (Tiered.baseParams "payment" "https://vinvoyant.com" "VV-2024-00042"
                   "brief_remote" "tier_a" ""
                 ++ Tiered.inlineItem "usd" 12900 "VINvoyant Brief (Remote)"
                      (Tiered.tierDescription "tier_a" "VV-2024-00042"))
           /\ In ("client_reference_id", rid)
                (Tiered.baseParams "payment" "https://vinvoyant.com" "VV-2024-00042"
                   "brief_remote" "tier_a" ""
                 ++ Tiered.inlineItem "usd" 12900 "VINvoyant Brief (Remote)"
                      (Tiered.tierDescription "tier_a" "VV-2024-00042"))
           /\ In ("success_url",
                  origin ++ "/paid.html?session_id={CHECKOUT_SESSION_ID}&rid=" ++ rid)
                (Tiered.baseParams "payment" "https://vinvoyant.com" "VV-2024-00042"
                   "brief_remote" "tier_a" ""
                 ++ Tiered.inlineItem "usd" 12900 "VINvoyant Brief (Remote)"
                      (Tiered.tierDescription "tier_a" "VV-2024-00042"))
           /\ In ("cancel_url", origin ++ "/#start?canceled=1&rid=" ++ rid)
                (Tiered.baseParams "payment" "https://vinvoyant.com" "VV-2024-00042"
                   "brief_remote" "tier_a" ""
                 ++ Tiered.inlineItem "usd" 12900 "VINvoyant Brief (Remote)"
                      (Tiered.tierDescription "tier_a" "VV-2024-00042"))).
Proof.
  assert (Ht : tableSelection envLive (post exampleOrder)).
  { right. exists "tier_a", "brief_remote", 12900. repeat split. }
  split; [split; [reflexivity|] | split; [exact Ht|]].
  - apply (created_session_carries_the_request_id envLegacy (post plainOrder) FetchThrows
             "sk_test_1").
    right. left. reflexivity.
  - apply (created_session_carries_the_request_id envLive (post exampleOrder) FetchThrows
             "sk_test_1").
    left. split; [exact Ht | left; reflexivity].
Defined.

(** X27.  The legacy creator prices a session by the configured price
    id or, without one, by the configured amount, and it never asks for
    an inline amount below 50: a smaller or unreadable amount is
    answered 500 before any request.  The amount is sent as
    JavaScript prints it. *)
Theorem legacy_amount_is_at_least_50 env event reply secret params :
  In (StripeCreateSession secret params) (snd (Legacy.handler env event reply)) ->
  (exists priceId,
     var env "STRIPE_PRICE_ID" = Some priceId /\ priceId <> ""
     /\ In ("line_items[0][price]", priceId) params)
  \/ (exists cents,
        parseInt10 (orElse (var env "UNIT_AMOUNT") "9900") = Some cents
        /\ 50 <= cents
        /\ In ("line_items[0][price_data][unit_amount]", stringOfZ cents) params).
Proof.
  intros H. apply legacy_create_inv in H.
  destruct H as (rid & email & h & item & _ & _ & _ & Hitem & ->).
  revert Hitem. unfold Legacy.lineItem.
  destruct (var env "STRIPE_PRICE_ID") as [priceId|] eqn:Hp; cbn [orElse].
  - destruct (priceId =? "")%string eqn:Hne.
    + cbn [String.eqb negb].
      destruct (parseInt10 _) as [cents|] eqn:Hc; cbn [isFiniteInt]; [|discriminate].
      destruct (Z.abs cents <? _); [|discriminate].
      destruct (cents <? 50) eqn:Hlt; [discriminate|].
      intros E. inversion E; subst. right. exists cents.
      split; [reflexivity|]. split; [apply Z.ltb_ge, Hlt|].
      apply in_or_app. right. cbn. auto.
    + rewrite Hne. cbn [negb]. intros E. inversion E; subst. left. exists priceId.
      split; [reflexivity|]. split; [apply String.eqb_neq, Hne|].
      apply in_or_app. right. cbn. auto.
  - cbn [String.eqb negb].
    destruct (parseInt10 _) as [cents|] eqn:Hc; cbn [isFiniteInt]; [|discriminate].
    destruct (Z.abs cents <? _); [|discriminate].
    destruct (cents <? 50) eqn:Hlt; [discriminate|].
    intros E. inversion E; subst. right. exists cents.
    split; [reflexivity|]. split; [apply Z.ltb_ge, Hlt|].
    apply in_or_app. right. cbn. auto.
Qed.

Lemma legacy_amount_is_at_least_50_witness :
  Legacy.handler envCheap (mkEvent "POST" (Parses plainOrder) (Some siteHeaders) None)
    FetchThrows
  = (Returned (plain 500
       (errorBody "Invalid UNIT_AMOUNT env var (must be cents, e.g. 9900).")), [])
  /\ exists cents,
       parseInt10 (orElse (var envInline "UNIT_AMOUNT") "9900") = Some cents
       /\ 50 <= cents
       /\ In ("line_items[0][price_data][unit_amount]", "9900")
             (Legacy.baseParams "payment" "https://vinvoyant.com" "VV-2024-00042" ""
              ++ Tiered.inlineItem "usd" 9900 "VINvoyant Intake"
                   "Concierge Vehicle Intelligence Intake").
Proof.
  split; [reflexivity|].
  destruct (legacy_amount_is_at_least_50 envInline
              (mkEvent "POST" (Parses plainOrder) (Some siteHeaders) None) FetchThrows
              "sk_test_1"
              (Legacy.baseParams "payment" "https://vinvoyant.com" "VV-2024-00042" ""
               ++ Tiered.inlineItem "usd" 9900 "VINvoyant Intake"
                    "Concierge Vehicle Intelligence Intake"))
    as [(priceId & Hp & _)|(cents & Hc & Hle & Hin)].
  - left. reflexivity.
  - discriminate Hp.
  - exists cents. split; [exact Hc|]. split; [exact Hle|].
    assert (Hcents : cents = 9900) by (vm_compute in Hc; inversion Hc; reflexivity).
    subst cents. exact Hin.
Defined.

(** X28.  With tiered pricing on, the tiered creator creates no session
    without both selections: when the vehicle tier or the service level
    read from the event is empty it sends nothing, and a request that
    is valid otherwise (a POST under a configured secret key, with a
    site origin and a valid request id) is answered 400 for the missing
    selection. *)
Theorem tiered_needs_both_selections env event reply :
  Tiered.enableTiered env = true ->
  vehicleTierOf event = Some "" \/ serviceLevelOf event = Some "" ->
  snd (Tiered.handler env event reply) = []
  /\ (forall h,
        httpMethod event = "POST" -> secretSet env = true ->
        tieredReads event = true -> invalidRid event = false ->
        headers event = Some h -> truthyStr (originOf env h) = true ->
        fst (Tiered.handler env event reply)
        = Returned (plain 400
            (errorBody "Missing service/tier selection for tiered pricing."))).
Proof.
  intros Hen Hsel.
  assert (Hitem : forall rid service tier,
             vehicleTierOf event = Some tier -> serviceLevelOf event = Some service ->
             Tiered.lineItem env rid service tier
             = inl (plain 400
                 (errorBody "Missing service/tier selection for tiered pricing."))).
  { intros rid service tier Ht Hs. unfold Tiered.lineItem. rewrite Hen.
    destruct Hsel as [Hx|Hx].
    - rewrite Hx in Ht. inversion Ht; subst. reflexivity.
    - rewrite Hx in Hs. inversion Hs; subst. rewrite orb_true_r. reflexivity. }
  split.
  - unfold Tiered.handler.
    destruct (negb (httpMethod event =? "POST")%string); [reflexivity|].
    destruct (negb (truthyStr (var env "STRIPE_SECRET_KEY"))); [reflexivity|].
    destruct (field1 (payloadOf (body event)) "rid") as [rid|]; [|reflexivity].
    destruct (field1 (payloadOf (body event)) "email") as [email|]; [|reflexivity].
    destruct (field2 (payloadOf (body event)) "service_level" "serviceLevel")
      as [service|] eqn:Hs; [|reflexivity].
    destruct (field2 (payloadOf (body event)) "vehicle_tier" "vehicleTier")
      as [tier|] eqn:Ht; [|reflexivity].
    destruct (headers event) as [h|]; [|reflexivity].
    destruct (negb (truthyStr _)); [reflexivity|].
    destruct ((rid =? "")%string || negb (validRid rid))%bool; [reflexivity|].
    rewrite (Hitem rid service tier Ht Hs). reflexivity.
  - intros h Hm Hsec Hr Hinv Hh Ho.
    unfold Tiered.handler.
    unfold secretSet in Hsec. unfold originOf in Ho.
    unfold tieredReads, legacyReads, serviceLevelOf, vehicleTierOf, ridOf in Hr.
    unfold invalidRid, ridOf in Hinv.
    rewrite Hm, Hsec, Hh.
    change (negb ("POST" =? "POST")%string) with false. cbn iota. cbn [negb].
    destruct (field2 (payloadOf (body event)) "service_level" "serviceLevel")
      as [service|] eqn:Hs; [|discriminate Hr].
    destruct (field2 (payloadOf (body event)) "vehicle_tier" "vehicleTier")
      as [tier|] eqn:Ht; [|discriminate Hr].
    destruct (field1 (payloadOf (body event)) "rid") as [rid|]; [|discriminate Hinv].
    destruct (field1 (payloadOf (body event)) "email") as [email|]; [|discriminate Hr].
    rewrite Ho. cbn [negb].
    apply negb_false_iff in Hinv. rewrite Hinv. cbn [negb].
    assert (Hne : (rid =? "")%string = false).
    { destruct rid; [discriminate Hinv | reflexivity]. }
    rewrite Hne. cbn [orb].
    rewrite (Hitem rid service tier Ht Hs). reflexivity.
Qed.

Lemma tiered_needs_both_selections_witness :
  serviceLevelOf (post halfOrder) = Some ""
  /\ Tiered.handler envLive (post halfOrder) FetchThrows
     = (Returned (plain 400 (errorBody "Missing service/tier selection for tiered pricing.")),
        []).
Proof.
  split; [reflexivity|].
  destruct (tiered_needs_both_selections envLive (post halfOrder) FetchThrows)
    as [H1 H2]; [reflexivity | right; reflexivity |].
  specialize (H2 siteHeaders).
  destruct (Tiered.handler envLive (post halfOrder) FetchThrows) as [o t].
  cbn [fst snd] in H1, H2. rewrite H1, H2; reflexivity.
Defined.

(** A request that passes the tiered creator's validation sends one
    session creation with the line item. *)
Lemma tiered_sends env event reply rid email service tier h item :
  httpMethod event = "POST" ->
  secretSet env = true ->
  ridOf event = Some rid ->
  validRid rid = true ->
  field1 (payloadOf (body event)) "email" = Some email ->
  serviceLevelOf event = Some service ->
  vehicleTierOf event = Some tier ->
  headers event = Some h ->
  truthyStr (originOf env h) = true ->
  Tiered.lineItem env rid service tier = inr item ->
  snd (Tiered.handler env event reply)
  = [ StripeCreateSession (secretOf env)
        (Tiered.baseParams (orElse (var env "CHECKOUT_MODE") "payment")
           (orElse (originOf env h) "") rid service tier email ++ item) ].
Proof.
  intros Hm Hsec Hrid Hvalid Hemail Hsl Hvt Hh Horigin Hitem.
  unfold Tiered.handler, secretOf.
  unfold secretSet in Hsec. unfold ridOf in Hrid.
  unfold serviceLevelOf in Hsl. unfold vehicleTierOf in Hvt. unfold originOf in Horigin.
  rewrite Hm, Hsec, Hrid, Hemail, Hsl, Hvt, Hh.
  change (negb ("POST" =? "POST")%string) with false. cbn iota. cbn [negb].
  rewrite Horigin, Hvalid. cbn [negb].
  assert (Hne : (rid =? "")%string = false).
  { destruct rid; [discriminate Hvalid | reflexivity]. }
  rewrite Hne. cbn [orb]. rewrite Hitem. reflexivity.
Qed.

Lemma table_pair tier service cents :
  Tiered.pricingCents tier service = Some cents ->
  (cents =? 0) = false /\ (tier =? "")%string = false /\ (service =? "")%string = false.
Proof.
  unfold Tiered.pricingCents, Tiered.PRICING_CENTS. cbn [Tiered.assoc].
  repeat match goal with
         | |- context [(?k =? ?x)%string] =>
             is_var x; destruct (String.eqb_spec k x); subst; cbn [Tiered.assoc]
         end;
    intros H; inversion H; subst; repeat split.
Qed.

(** X29.  For a pair of the static table, a price id of the configured
    map that is a string starting with [price_] replaces the table's
    amount: the session is created with a reference to that price.
    Any other entry of the map leaves the table's amount in place. *)
Theorem price_map_overrides_the_table env rid tier service cents :
  Tiered.enableTiered env = true ->
  Tiered.pricingCents tier service = Some cents ->
  (forall priceId,
     Tiered.mappedPriceId env tier service = JStr priceId ->
     startsWith priceId "price_" = true ->
     Tiered.lineItem env rid service tier = inr (priceLine priceId)
     /\ forall event reply email h,
          httpMethod event = "POST" ->
          secretSet env = true ->
          ridOf event = Some rid ->
          validRid rid = true ->
          field1 (payloadOf (body event)) "email" = Some email ->
          serviceLevelOf event = Some service ->
          vehicleTierOf event = Some tier ->
          headers event = Some h ->
          truthyStr (originOf env h) = true ->
          snd (Tiered.handler env event reply)
          = [ StripeCreateSession (secretOf env)
                (Tiered.baseParams (orElse (var env "CHECKOUT_MODE") "payment")
                   (orElse (originOf env h) "") rid service tier email
                 ++ priceLine priceId) ])
  /\ ((forall priceId,
         Tiered.mappedPriceId env tier service = JStr priceId ->
         startsWith priceId "price_" = false) ->
      Tiered.lineItem env rid service tier
      = inr (Tiered.inlineItem "usd" cents (serviceName service)
               (Tiered.tierDescription tier rid))).
Proof.
  intros Hen Hcents. destruct (table_pair _ _ _ Hcents) as (Hnz & Ht & Hs).
  split.
  - intros priceId Hmap Hprefix.
    assert (Hitem : Tiered.lineItem env rid service tier = inr (priceLine priceId)).
    { unfold Tiered.lineItem. rewrite Hen, Ht, Hs. cbn [orb].
      rewrite Hmap. cbn [Tiered.priceString]. rewrite Hprefix. reflexivity. }
    split; [exact Hitem|].
    intros. eapply tiered_sends; eassumption.
  - intros Hnot. unfold Tiered.lineItem. rewrite Hen, Ht, Hs, Hcents, Hnz. cbn [orb].
    destruct (Tiered.mappedPriceId env tier service) as [| | | |p| |] eqn:Hmap;
      cbn [Tiered.priceString]; try reflexivity.
    rewrite (Hnot p eq_refl). reflexivity.
Qed.

Lemma price_map_overrides_the_table_witness :
  snd (Tiered.handler envWithMap (post exampleOrder) FetchThrows)
  = [ StripeCreateSession "sk_test_1"
        (Tiered.baseParams "payment" "https://vinvoyant.com" "VV-2024-00042"
           "brief_remote" "tier_a" ""
         ++ [ ("line_items[0][price]", "price_123"); ("line_items[0][quantity]", "1") ]) ].
Proof.
  apply (proj2 (proj1 (price_map_overrides_the_table envWithMap "VV-2024-00042" "tier_a"
                         "brief_remote" 12900 eq_refl eq_refl)
                  "price_123" eq_refl eq_refl)
           (post exampleOrder) FetchThrows "" siteHeaders);
    reflexivity.
Defined.

(** X30.  With tiered pricing off, a price id configured and no
    selection in the request, the tiered creator does exactly what the
    legacy creator does. *)
Theorem tiered_off_is_the_legacy_creator env event reply priceId :
  Tiered.enableTiered env = false ->
  var env "STRIPE_PRICE_ID" = Some priceId ->
  priceId <> "" ->
  serviceLevelOf event = Some "" ->
  vehicleTierOf event = Some "" ->
  Tiered.handler env event reply = Legacy.handler env event reply.
Proof.
  intros Hoff Hp Hne Hs Ht. apply String.eqb_neq in Hne.
  assert (Hl : Legacy.lineItem env = inr (Tiered.priceRefItem priceId)).
  { unfold Legacy.lineItem. rewrite Hp. cbn [orElse]. rewrite Hne. cbn [negb].
    rewrite Hne. reflexivity. }
  assert (Htl : forall rid, Tiered.lineItem env rid "" "" = inr (Tiered.priceRefItem priceId)).
  { intros rid. unfold Tiered.lineItem. rewrite Hoff, Hp. cbn [orElse]. rewrite Hne.
    cbn [negb]. rewrite Hne. reflexivity. }
  unfold Tiered.handler, Legacy.handler.
  unfold serviceLevelOf in Hs. unfold vehicleTierOf in Ht. rewrite Hs, Ht, Hl.
  destruct (negb (httpMethod event =? "POST")%string); [reflexivity|].
  destruct (negb (truthyStr (var env "STRIPE_SECRET_KEY"))); [reflexivity|].
  destruct (field1 (payloadOf (body event)) "rid") as [rid|]; [|reflexivity].
  destruct (field1 (payloadOf (body event)) "email") as [email|]; [|reflexivity].
  destruct (headers event) as [h|]; [|reflexivity].
  destruct (negb (truthyStr _)); [reflexivity|].
  destruct ((rid =? "")%string || negb (validRid rid))%bool; [reflexivity|].
  rewrite Htl. reflexivity.
Qed.

Lemma tiered_off_is_the_legacy_creator_witness :
  Tiered.handler envLegacy (post plainOrder) FetchThrows
  = Legacy.handler envLegacy (post plainOrder) FetchThrows.
Proof.
  apply (tiered_off_is_the_legacy_creator envLegacy (post plainOrder) FetchThrows "price_9");
    try reflexivity.
  discriminate.
Defined.

End HttpExtra.
